(** * ismrmrd-python: the image header, the image record and the field codec

    A shallow embedding of [ismrmrd/image.py]: the element-kind tables, the
    packed [ImageHeader] structure with its flag operations, and the [Image]
    record with its constructors, accessors and mutators; then the byte
    stream of a record, as the specification describes it, for acquisitions
    and for images.  Python exceptions are values of [result]; objects are
    immutable values and every method that mutates [self] returns the new
    object.  What numpy and Python raise when the host cannot build an array
    or an integer is left to the class [Memory]. *)

From Stdlib Require Import ZArith String Ascii List Bool Lia.
From coqutil Require Import Byte Word.LittleEndianList.
Import ListNotations.
Local Open Scope string_scope.
Local Open Scope list_scope.
Local Open Scope Z_scope.

(** ** Exceptions *)

Inductive exn : Type :=
| TypeError
| ValueError
| IndexError
| AttributeError (msg : string)
| RuntimeError
| OverflowError
| MemoryError.

Inductive result (A : Type) : Type :=
| Ok (a : A)
| Raise (e : exn).
Arguments Ok {A} a.
Arguments Raise {A} e.

Definition bind {A B : Type} (r : result A) (k : A -> result B) : result B :=
  match r with
  | Ok a => k a
  | Raise e => Raise e
  end.

Notation "x <- r ;; k" := (bind r (fun x => k))
  (at level 61, r at next level, right associativity).

Definition raises {A : Type} (r : result A) : bool :=
  match r with Ok _ => false | Raise _ => true end.

(** ** Constants *)

Module Constants.

(** Modelled from the spec: [constants.py] is not among the sources.  The
    element kinds are "an enumerated code" over the eight supported kinds and
    the vectors of the header have three components; the numbers below are the
    ones of the ISMRMRD header file.  The development only relies on the eight
    codes being pairwise distinct 16-bit values. *)
Definition DATATYPE_USHORT : Z := 1.
Definition DATATYPE_SHORT : Z := 2.
Definition DATATYPE_UINT : Z := 3.
Definition DATATYPE_INT : Z := 4.
Definition DATATYPE_FLOAT : Z := 5.
Definition DATATYPE_DOUBLE : Z := 6.
Definition DATATYPE_CXFLOAT : Z := 7.
Definition DATATYPE_CXDOUBLE : Z := 8.

Definition POSITION_LENGTH : nat := 3.
Definition DIRECTION_LENGTH : nat := 3.
Definition PHYS_STAMPS : nat := 3.
Definition USER_INTS : nat := 8.
Definition USER_FLOATS : nat := 8.

End Constants.
Import Constants.

(** ** Python values and ctypes *)

(** The C types that occur in [ImageHeader._fields_]. *)
Inductive ckind : Type := c_uint16 | c_uint32 | c_uint64 | c_int32 | c_float.

Definition ckind_eqb (a b : ckind) : bool :=
  match a, b with
  | c_uint16, c_uint16 | c_uint32, c_uint32 | c_uint64, c_uint64
  | c_int32, c_int32 | c_float, c_float => true
  | _, _ => false
  end.

(** Size in bytes. *)
Definition sizeof (k : ckind) : nat :=
  match k with
  | c_uint16 => 2
  | c_uint32 => 4
  | c_uint64 => 8
  | c_int32 => 4
  | c_float => 4
  end.

(** The Python objects that reach a header field: integers, floats (kept as
    the bit pattern of the double), strings, tuples, [None], and ctypes
    instances (a simple one such as [c_uint64(0)], or an array).  A C float is
    kept as its 32-bit pattern. *)
#[warnings="-register-all"]
Inductive pyval : Type :=
| PyInt (z : Z)
| PyFloat (bits : Z)
| PyStr (s : string)
| PyTuple (l : list pyval)
| PyNone
| PyCSimple (k : ckind) (z : Z)
| PyCArray (k : ckind) (l : list Z).

(** numpy element types.  [np.dtype('int')] is the C long, [int64] on the
    64-bit platforms. *)
Inductive dtype : Type :=
| bool_ | int8 | uint8 | int16 | uint16 | int32 | uint32 | int64 | uint64
| float16 | float32 | float64 | complex64 | complex128.

Definition np_dtype_int : dtype := int64.

Definition dtype_eqb (a b : dtype) : bool :=
  match a, b with
  | bool_, bool_ | int8, int8 | uint8, uint8 | int16, int16 | uint16, uint16
  | int32, int32 | uint32, uint32 | int64, int64 | uint64, uint64
  | float16, float16 | float32, float32 | float64, float64
  | complex64, complex64 | complex128, complex128 => true
  | _, _ => false
  end.

Definition itemsize (d : dtype) : nat :=
  match d with
  | bool_ | int8 | uint8 => 1
  | int16 | uint16 | float16 => 2
  | int32 | uint32 | float32 => 4
  | int64 | uint64 | float64 | complex64 => 8
  | complex128 => 16
  end.

(** What the host libraries compute and this package does not: the conversion
    of a Python number to a C float done by ctypes when a float field is
    assigned, numpy's conversion of one element from a dtype to another, and
    the bytes that [np.empty] finds in the memory it is given. *)
Class HostLibs : Type := {
  c_float_set : pyval -> result Z;
  astype_value : dtype -> dtype -> Z -> Z;
  garbage : dtype -> nat -> Z
}.

(** Assignment to a field of a simple C type.  ctypes does no overflow
    checking: an integer is reduced to the width of the field.  An instance of
    the very type of the field is copied. *)
Definition simple_set `{HostLibs} (k : ckind) (v : pyval) : result Z :=
  match v with
  | PyCSimple k' z => if ckind_eqb k k' then Ok z else Raise TypeError
  | _ =>
    match k with
    | c_float => c_float_set v
    | c_int32 =>
      match v with
      | PyInt z => Ok ((z + 2 ^ 31) mod 2 ^ 32 - 2 ^ 31)
      | _ => Raise TypeError
      end
    | _ =>
      match v with
      | PyInt z => Ok (z mod 2 ^ (8 * Z.of_nat (sizeof k)))
      | _ => Raise TypeError
      end
    end
  end.

(** What the host can build, which this package does not decide either.
    [np.empty] of a shape and dtype, and [np.resize] of an array of so many
    elements to a shape, raise when numpy cannot build the array: a
    [ValueError] or an [OverflowError] beyond the range of its sizes, a
    [MemoryError] when the memory is not there.  A shift of a Python integer
    by so many bits raises an [OverflowError] when the result would have too
    many digits and a [MemoryError] when there is no room for it.  [None]
    says that the request is served. *)
Class Memory : Type := {
  empty_error : list Z -> dtype -> option exn;
  resize_error : nat -> dtype -> list Z -> option exn;
  shift_error : Z -> option exn
}.

(** A host that serves every request.  A statement that names no memory is
    about this one. *)
#[global]
Instance ample : Memory :=
  {| empty_error := fun _ _ => None;
     resize_error := fun _ _ _ => None;
     shift_error := fun _ => None |}.

(** The constructor of the array type [k * n] applied to the items of a
    tuple: the items are stored in turn, an item beyond the end of
    the array is an [IndexError], the cells not given stay zero. *)
Fixpoint array_init `{HostLibs} (k : ckind) (n : nat) (items : list pyval)
  : result (list Z) :=
  match items with
  | [] => Ok (repeat 0 n)
  | v :: items' =>
    match n with
    | O => Raise IndexError
    | S n' =>
      x <- simple_set k v ;;
      xs <- array_init k n' items' ;;
      Ok (x :: xs)
    end
  end.

(** Assignment to a field of type [k * n]: an instance of that array type is
    copied; a tuple is passed to the constructor of the array type, and what
    the constructor raises reaches the caller as a [RuntimeError]. *)
Definition array_set `{HostLibs} (k : ckind) (n : nat) (v : pyval)
  : result (list Z) :=
  match v with
  | PyCArray k' l =>
    if ckind_eqb k k' && Nat.eqb (length l) n then Ok l else Raise TypeError
  | PyTuple items =>
    match array_init k n items with
    | Ok l => Ok l
    | Raise _ => Raise RuntimeError
    end
  | _ => Raise TypeError
  end.

(** ** numpy arrays *)

(** An array has an element type, a shape, and its elements in C order.  An
    element is kept as its storage: the unsigned integer whose little-endian
    bytes are the [itemsize] bytes of the element. *)
Record ndarray : Type := {
  dtype_of : dtype;
  shape : list Z;
  flat : list Z
}.

Definition size_of_shape (s : list Z) : Z := fold_right Z.mul 1 s.

Definition size (a : ndarray) : nat := length (flat a).

(** [np.empty(shape, dtype)]: raises when the host cannot allocate the array;
    the contents are whatever the memory held. *)
Definition np_empty `{HostLibs} {M : Memory} (s : list Z) (d : dtype)
  : result ndarray :=
  match empty_error s d with
  | Some e => Raise e
  | None =>
    Ok {| dtype_of := d;
          shape := s;
          flat := map (garbage d) (seq 0 (Z.to_nat (size_of_shape s))) |}
  end.

(** [a.astype(d)]: a new array, each element converted; a conversion to the
    dtype the array already has copies the elements. *)
Definition astype `{HostLibs} (a : ndarray) (d : dtype) : ndarray :=
  {| dtype_of := d;
     shape := shape a;
     flat := if dtype_eqb (dtype_of a) d then flat a
             else map (astype_value (dtype_of a) d) (flat a) |}.

(** [np.resize(a, new_shape)]: a negative dimension is a [ValueError]; the
    call raises when the host cannot build the copies or the result; when [a]
    is empty or the new size is zero the result is filled with zeros;
    otherwise the flattened [a] is repeated as often as needed and cut to the
    new size. *)
Definition np_resize {M : Memory} (a : ndarray) (new_shape : list Z)
  : result ndarray :=
  if existsb (fun d => d <? 0) new_shape then Raise ValueError
  else
    match resize_error (size a) (dtype_of a) new_shape with
    | Some e => Raise e
    | None =>
      let new_size := Z.to_nat (size_of_shape new_shape) in
      let n := size a in
      if Nat.eqb n 0 || Nat.eqb new_size 0 then
        Ok {| dtype_of := dtype_of a; shape := new_shape;
              flat := repeat 0 new_size |}
      else
        let repeats := ((new_size + n - 1) / n)%nat in
        Ok {| dtype_of := dtype_of a; shape := new_shape;
              flat := firstn new_size (concat (repeat (flat a) repeats)) |}
    end.

(** Broadcasting, on the flattened elements.  [blocks c n xs] cuts [xs] into
    [c] consecutive blocks of [n] elements. *)
Fixpoint blocks {A : Type} (c n : nat) (xs : list A) : list (list A) :=
  match c with
  | O => []
  | S c' => firstn n xs :: blocks c' n (skipn n xs)
  end.

Fixpoint sequence {A : Type} (l : list (option A)) : option (list A) :=
  match l with
  | [] => Some []
  | None :: _ => None
  | Some x :: l' =>
    match sequence l' with
    | Some xs => Some (x :: xs)
    | None => None
    end
  end.

(** Two shapes of the same rank broadcast when, dimension by dimension, the
    extents agree or the one of the source is 1. *)
Fixpoint broadcastable (src tgt : list Z) : bool :=
  match src, tgt with
  | [], [] => true
  | s :: src', t :: tgt' => ((s =? t) || (s =? 1)) && broadcastable src' tgt'
  | _, _ => false
  end.

(** The elements of an array of shape [src] laid out as an array of shape
    [tgt]: a dimension of extent 1 is repeated. *)
Fixpoint broadcast_values (src tgt : list Z) (xs : list Z) : option (list Z) :=
  match src, tgt with
  | [], [] => Some xs
  | s :: src', t :: tgt' =>
    if s =? t then
      let inner := Z.to_nat (size_of_shape src') in
      match sequence (map (broadcast_values src' tgt')
                          (blocks (Z.to_nat s) inner xs)) with
      | Some bs => Some (concat bs)
      | None => None
      end
    else if s =? 1 then
      match broadcast_values src' tgt' xs with
      | Some b => Some (concat (repeat b (Z.to_nat t)))
      | None => None
      end
    else None
  | _, _ => None
  end.

(** The elements of an array of shape [src] seen as an array of shape [tgt],
    if the shapes broadcast; the shapes are compared whether or not there is
    an element. *)
Definition broadcast (src tgt : list Z) (xs : list Z) : option (list Z) :=
  if broadcastable src tgt then broadcast_values src tgt xs else None.

(** Leading dimensions of extent 1 in excess of the rank [r] are dropped. *)
Fixpoint strip_ones (r : nat) (s : list Z) : list Z :=
  match s with
  | d :: s' => if Nat.ltb r (length s) && (d =? 1) then strip_ones r s' else s
  | [] => []
  end.

Definition align (r : nat) (s : list Z) : list Z :=
  let s' := strip_ones r s in
  repeat 1 (r - length s') ++ s'.

(** [target[:] = source]: the source is broadcast to the shape of the target
    and its elements are converted to the dtype of the target; shapes that do
    not broadcast are a [ValueError]. *)
Definition assign_all `{HostLibs} (target source : ndarray) : result ndarray :=
  match broadcast (align (length (shape target)) (shape source)) (shape target)
                  (flat (astype source (dtype_of target))) with
  | Some xs =>
    Ok {| dtype_of := dtype_of target; shape := shape target; flat := xs |}
  | None => Raise ValueError
  end.

(** ** Python dictionaries, in insertion order *)

Fixpoint dict_get {K V : Type} (eqb : K -> K -> bool) (d : list (K * V)) (k : K)
  : option V :=
  match d with
  | [] => None
  | (k', v) :: d' => if eqb k' k then Some v else dict_get eqb d' k
  end.

(** [d[k] = v]: an existing key keeps its place and takes the new value. *)
Fixpoint dict_set {K V : Type} (eqb : K -> K -> bool) (d : list (K * V))
  (k : K) (v : V) : list (K * V) :=
  match d with
  | [] => [(k, v)]
  | (k', v') :: d' =>
    if eqb k' k then (k', v) :: d' else (k', v') :: dict_set eqb d' k v
  end.

(** [dict(d, **kwargs)]. *)
Definition dict_update {K V : Type} (eqb : K -> K -> bool)
  (d kwargs : list (K * V)) : list (K * V) :=
  fold_left (fun acc kv => dict_set eqb acc (fst kv) (snd kv)) kwargs d.

(** ** The field codec *)

Definition dtype_mapping : list (Z * dtype) :=
  [ (DATATYPE_USHORT, uint16);
    (DATATYPE_SHORT, int16);
    (DATATYPE_UINT, uint32);
    (DATATYPE_INT, np_dtype_int);
    (DATATYPE_FLOAT, float32);
    (DATATYPE_DOUBLE, float64);
    (DATATYPE_CXFLOAT, complex64);
    (DATATYPE_CXDOUBLE, complex128) ].

(** [{dtype_mapping.get(k): k for k in dtype_mapping}]. *)
Definition inverse_dtype_mapping : list (dtype * Z) :=
  fold_left
    (fun acc k =>
       match dict_get Z.eqb dtype_mapping k with
       | Some d => dict_set dtype_eqb acc d k
       | None => acc
       end)
    (map fst dtype_mapping) [].

Definition get_dtype_from_data_type (val : Z) : result dtype :=
  match dict_get Z.eqb dtype_mapping val with
  | None => Raise TypeError
  | Some d => Ok d
  end.

Definition get_data_type_from_dtype (d : dtype) : result Z :=
  match dict_get dtype_eqb inverse_dtype_mapping d with
  | None => Raise TypeError
  | Some type => Ok type
  end.

(** ** The image header *)

(** A field of the structure is of a simple C type or an array of one. *)
Inductive ctype : Type :=
| Simple (k : ckind)
| Array (k : ckind) (n : nat).

(** [ImageHeader]: a ctypes structure; a scalar field holds an integer, an
    array field the list of its cells. *)
Record ImageHeader : Type := Build_ImageHeader {
  version : Z;
  data_type : Z;
  flags : Z;
  measurement_uid : Z;
  matrix_size : list Z;
  field_of_view : list Z;
  channels : Z;
  position : list Z;
  read_dir : list Z;
  phase_dir : list Z;
  slice_dir : list Z;
  patient_table_position : list Z;
  average : Z;
  slice : Z;
  contrast : Z;
  phase : Z;
  repetition : Z;
  set : Z;
  acquisition_time_stamp : Z;
  physiology_time_stamp : list Z;
  image_type : Z;
  image_index : Z;
  image_series_index : Z;
  user_int : list Z;
  user_float : list Z;
  attribute_string_len : Z
}.

Definition _fields_ : list (string * ctype) :=
  [ ("version", Simple c_uint16);
    ("data_type", Simple c_uint16);
    ("flags", Simple c_uint64);
    ("measurement_uid", Simple c_uint32);
    ("matrix_size", Array c_uint16 POSITION_LENGTH);
    ("field_of_view", Array c_float POSITION_LENGTH);
    ("channels", Simple c_uint16);
    ("position", Array c_float POSITION_LENGTH);
    ("read_dir", Array c_float DIRECTION_LENGTH);
    ("phase_dir", Array c_float DIRECTION_LENGTH);
    ("slice_dir", Array c_float DIRECTION_LENGTH);
    ("patient_table_position", Array c_float POSITION_LENGTH);
    ("average", Simple c_uint16);
    ("slice", Simple c_uint16);
    ("contrast", Simple c_uint16);
    ("phase", Simple c_uint16);
    ("repetition", Simple c_uint16);
    ("set", Simple c_uint16);
    ("acquisition_time_stamp", Simple c_uint32);
    ("physiology_time_stamp", Array c_uint32 PHYS_STAMPS);
    ("image_type", Simple c_uint16);
    ("image_index", Simple c_uint16);
    ("image_series_index", Simple c_uint16);
    ("user_int", Array c_int32 USER_INTS);
    ("user_float", Array c_float USER_FLOATS);
    ("attribute_string_len", Simple c_uint32) ].

Definition sizeof_ctype (t : ctype) : nat :=
  match t with
  | Simple k => sizeof k
  | Array k n => (n * sizeof k)%nat
  end.

(** [ctypes.sizeof(ImageHeader)]: with [_pack_ = 2] and fields of even sizes
    there is no padding. *)
Definition sizeof_ImageHeader : nat :=
  fold_right (fun f acc => (sizeof_ctype (snd f) + acc)%nat) O _fields_.

(** [ImageHeader()]: every byte is zero. *)
Definition ImageHeader_new : ImageHeader :=
  {|
    version := 0;
    data_type := 0;
    flags := 0;
    measurement_uid := 0;
    matrix_size := repeat 0 POSITION_LENGTH;
    field_of_view := repeat 0 POSITION_LENGTH;
    channels := 0;
    position := repeat 0 POSITION_LENGTH;
    read_dir := repeat 0 DIRECTION_LENGTH;
    phase_dir := repeat 0 DIRECTION_LENGTH;
    slice_dir := repeat 0 DIRECTION_LENGTH;
    patient_table_position := repeat 0 POSITION_LENGTH;
    average := 0;
    slice := 0;
    contrast := 0;
    phase := 0;
    repetition := 0;
    set := 0;
    acquisition_time_stamp := 0;
    physiology_time_stamp := repeat 0 PHYS_STAMPS;
    image_type := 0;
    image_index := 0;
    image_series_index := 0;
    user_int := repeat 0 USER_INTS;
    user_float := repeat 0 USER_FLOATS;
    attribute_string_len := 0 |}.

(** The content of a field, as stored. *)
Inductive cdata : Type :=
| CInt (z : Z)
| CArr (l : list Z).

(** Record update, one function per field. *)
Definition upd_version (x : Z) (h : ImageHeader) : ImageHeader :=
  let 'Build_ImageHeader a0 a1 a2 a3 a4 a5 a6 a7 a8 a9 a10 a11 a12
                         a13 a14 a15 a16 a17 a18 a19 a20 a21 a22 a23 a24 a25 := h in
  Build_ImageHeader x a1 a2 a3 a4 a5 a6 a7 a8 a9 a10 a11 a12
                    a13 a14 a15 a16 a17 a18 a19 a20 a21 a22 a23 a24 a25.

Definition upd_data_type (x : Z) (h : ImageHeader) : ImageHeader :=
  let 'Build_ImageHeader a0 a1 a2 a3 a4 a5 a6 a7 a8 a9 a10 a11 a12
                         a13 a14 a15 a16 a17 a18 a19 a20 a21 a22 a23 a24 a25 := h in
  Build_ImageHeader a0 x a2 a3 a4 a5 a6 a7 a8 a9 a10 a11 a12
                    a13 a14 a15 a16 a17 a18 a19 a20 a21 a22 a23 a24 a25.

Definition upd_flags (x : Z) (h : ImageHeader) : ImageHeader :=
  let 'Build_ImageHeader a0 a1 a2 a3 a4 a5 a6 a7 a8 a9 a10 a11 a12
                         a13 a14 a15 a16 a17 a18 a19 a20 a21 a22 a23 a24 a25 := h in
  Build_ImageHeader a0 a1 x a3 a4 a5 a6 a7 a8 a9 a10 a11 a12
                    a13 a14 a15 a16 a17 a18 a19 a20 a21 a22 a23 a24 a25.

Definition upd_measurement_uid (x : Z) (h : ImageHeader) : ImageHeader :=
  let 'Build_ImageHeader a0 a1 a2 a3 a4 a5 a6 a7 a8 a9 a10 a11 a12
                         a13 a14 a15 a16 a17 a18 a19 a20 a21 a22 a23 a24 a25 := h in
  Build_ImageHeader a0 a1 a2 x a4 a5 a6 a7 a8 a9 a10 a11 a12
                    a13 a14 a15 a16 a17 a18 a19 a20 a21 a22 a23 a24 a25.

Definition upd_matrix_size (x : list Z) (h : ImageHeader) : ImageHeader :=
  let 'Build_ImageHeader a0 a1 a2 a3 a4 a5 a6 a7 a8 a9 a10 a11 a12
                         a13 a14 a15 a16 a17 a18 a19 a20 a21 a22 a23 a24 a25 := h in
  Build_ImageHeader a0 a1 a2 a3 x a5 a6 a7 a8 a9 a10 a11 a12
                    a13 a14 a15 a16 a17 a18 a19 a20 a21 a22 a23 a24 a25.

Definition upd_field_of_view (x : list Z) (h : ImageHeader) : ImageHeader :=
  let 'Build_ImageHeader a0 a1 a2 a3 a4 a5 a6 a7 a8 a9 a10 a11 a12
                         a13 a14 a15 a16 a17 a18 a19 a20 a21 a22 a23 a24 a25 := h in
  Build_ImageHeader a0 a1 a2 a3 a4 x a6 a7 a8 a9 a10 a11 a12
                    a13 a14 a15 a16 a17 a18 a19 a20 a21 a22 a23 a24 a25.

Definition upd_channels (x : Z) (h : ImageHeader) : ImageHeader :=
  let 'Build_ImageHeader a0 a1 a2 a3 a4 a5 a6 a7 a8 a9 a10 a11 a12
                         a13 a14 a15 a16 a17 a18 a19 a20 a21 a22 a23 a24 a25 := h in
  Build_ImageHeader a0 a1 a2 a3 a4 a5 x a7 a8 a9 a10 a11 a12
                    a13 a14 a15 a16 a17 a18 a19 a20 a21 a22 a23 a24 a25.

Definition upd_position (x : list Z) (h : ImageHeader) : ImageHeader :=
  let 'Build_ImageHeader a0 a1 a2 a3 a4 a5 a6 a7 a8 a9 a10 a11 a12
                         a13 a14 a15 a16 a17 a18 a19 a20 a21 a22 a23 a24 a25 := h in
  Build_ImageHeader a0 a1 a2 a3 a4 a5 a6 x a8 a9 a10 a11 a12
                    a13 a14 a15 a16 a17 a18 a19 a20 a21 a22 a23 a24 a25.

Definition upd_read_dir (x : list Z) (h : ImageHeader) : ImageHeader :=
  let 'Build_ImageHeader a0 a1 a2 a3 a4 a5 a6 a7 a8 a9 a10 a11 a12
                         a13 a14 a15 a16 a17 a18 a19 a20 a21 a22 a23 a24 a25 := h in
  Build_ImageHeader a0 a1 a2 a3 a4 a5 a6 a7 x a9 a10 a11 a12
                    a13 a14 a15 a16 a17 a18 a19 a20 a21 a22 a23 a24 a25.

Definition upd_phase_dir (x : list Z) (h : ImageHeader) : ImageHeader :=
  let 'Build_ImageHeader a0 a1 a2 a3 a4 a5 a6 a7 a8 a9 a10 a11 a12
                         a13 a14 a15 a16 a17 a18 a19 a20 a21 a22 a23 a24 a25 := h in
  Build_ImageHeader a0 a1 a2 a3 a4 a5 a6 a7 a8 x a10 a11 a12
                    a13 a14 a15 a16 a17 a18 a19 a20 a21 a22 a23 a24 a25.

Definition upd_slice_dir (x : list Z) (h : ImageHeader) : ImageHeader :=
  let 'Build_ImageHeader a0 a1 a2 a3 a4 a5 a6 a7 a8 a9 a10 a11 a12
                         a13 a14 a15 a16 a17 a18 a19 a20 a21 a22 a23 a24 a25 := h in
  Build_ImageHeader a0 a1 a2 a3 a4 a5 a6 a7 a8 a9 x a11 a12
                    a13 a14 a15 a16 a17 a18 a19 a20 a21 a22 a23 a24 a25.

Definition upd_patient_table_position (x : list Z) (h : ImageHeader) : ImageHeader :=
  let 'Build_ImageHeader a0 a1 a2 a3 a4 a5 a6 a7 a8 a9 a10 a11 a12
                         a13 a14 a15 a16 a17 a18 a19 a20 a21 a22 a23 a24 a25 := h in
  Build_ImageHeader a0 a1 a2 a3 a4 a5 a6 a7 a8 a9 a10 x a12
                    a13 a14 a15 a16 a17 a18 a19 a20 a21 a22 a23 a24 a25.

Definition upd_average (x : Z) (h : ImageHeader) : ImageHeader :=
  let 'Build_ImageHeader a0 a1 a2 a3 a4 a5 a6 a7 a8 a9 a10 a11 a12
                         a13 a14 a15 a16 a17 a18 a19 a20 a21 a22 a23 a24 a25 := h in
  Build_ImageHeader a0 a1 a2 a3 a4 a5 a6 a7 a8 a9 a10 a11 x
                    a13 a14 a15 a16 a17 a18 a19 a20 a21 a22 a23 a24 a25.

Definition upd_slice (x : Z) (h : ImageHeader) : ImageHeader :=
  let 'Build_ImageHeader a0 a1 a2 a3 a4 a5 a6 a7 a8 a9 a10 a11 a12
                         a13 a14 a15 a16 a17 a18 a19 a20 a21 a22 a23 a24 a25 := h in
  Build_ImageHeader a0 a1 a2 a3 a4 a5 a6 a7 a8 a9 a10 a11 a12
                    x a14 a15 a16 a17 a18 a19 a20 a21 a22 a23 a24 a25.

Definition upd_contrast (x : Z) (h : ImageHeader) : ImageHeader :=
  let 'Build_ImageHeader a0 a1 a2 a3 a4 a5 a6 a7 a8 a9 a10 a11 a12
                         a13 a14 a15 a16 a17 a18 a19 a20 a21 a22 a23 a24 a25 := h in
  Build_ImageHeader a0 a1 a2 a3 a4 a5 a6 a7 a8 a9 a10 a11 a12
                    a13 x a15 a16 a17 a18 a19 a20 a21 a22 a23 a24 a25.

Definition upd_phase (x : Z) (h : ImageHeader) : ImageHeader :=
  let 'Build_ImageHeader a0 a1 a2 a3 a4 a5 a6 a7 a8 a9 a10 a11 a12
                         a13 a14 a15 a16 a17 a18 a19 a20 a21 a22 a23 a24 a25 := h in
  Build_ImageHeader a0 a1 a2 a3 a4 a5 a6 a7 a8 a9 a10 a11 a12
                    a13 a14 x a16 a17 a18 a19 a20 a21 a22 a23 a24 a25.

Definition upd_repetition (x : Z) (h : ImageHeader) : ImageHeader :=
  let 'Build_ImageHeader a0 a1 a2 a3 a4 a5 a6 a7 a8 a9 a10 a11 a12
                         a13 a14 a15 a16 a17 a18 a19 a20 a21 a22 a23 a24 a25 := h in
  Build_ImageHeader a0 a1 a2 a3 a4 a5 a6 a7 a8 a9 a10 a11 a12
                    a13 a14 a15 x a17 a18 a19 a20 a21 a22 a23 a24 a25.

Definition upd_set (x : Z) (h : ImageHeader) : ImageHeader :=
  let 'Build_ImageHeader a0 a1 a2 a3 a4 a5 a6 a7 a8 a9 a10 a11 a12
                         a13 a14 a15 a16 a17 a18 a19 a20 a21 a22 a23 a24 a25 := h in
  Build_ImageHeader a0 a1 a2 a3 a4 a5 a6 a7 a8 a9 a10 a11 a12
                    a13 a14 a15 a16 x a18 a19 a20 a21 a22 a23 a24 a25.

Definition upd_acquisition_time_stamp (x : Z) (h : ImageHeader) : ImageHeader :=
  let 'Build_ImageHeader a0 a1 a2 a3 a4 a5 a6 a7 a8 a9 a10 a11 a12
                         a13 a14 a15 a16 a17 a18 a19 a20 a21 a22 a23 a24 a25 := h in
  Build_ImageHeader a0 a1 a2 a3 a4 a5 a6 a7 a8 a9 a10 a11 a12
                    a13 a14 a15 a16 a17 x a19 a20 a21 a22 a23 a24 a25.

Definition upd_physiology_time_stamp (x : list Z) (h : ImageHeader) : ImageHeader :=
  let 'Build_ImageHeader a0 a1 a2 a3 a4 a5 a6 a7 a8 a9 a10 a11 a12
                         a13 a14 a15 a16 a17 a18 a19 a20 a21 a22 a23 a24 a25 := h in
  Build_ImageHeader a0 a1 a2 a3 a4 a5 a6 a7 a8 a9 a10 a11 a12
                    a13 a14 a15 a16 a17 a18 x a20 a21 a22 a23 a24 a25.

Definition upd_image_type (x : Z) (h : ImageHeader) : ImageHeader :=
  let 'Build_ImageHeader a0 a1 a2 a3 a4 a5 a6 a7 a8 a9 a10 a11 a12
                         a13 a14 a15 a16 a17 a18 a19 a20 a21 a22 a23 a24 a25 := h in
  Build_ImageHeader a0 a1 a2 a3 a4 a5 a6 a7 a8 a9 a10 a11 a12
                    a13 a14 a15 a16 a17 a18 a19 x a21 a22 a23 a24 a25.

Definition upd_image_index (x : Z) (h : ImageHeader) : ImageHeader :=
  let 'Build_ImageHeader a0 a1 a2 a3 a4 a5 a6 a7 a8 a9 a10 a11 a12
                         a13 a14 a15 a16 a17 a18 a19 a20 a21 a22 a23 a24 a25 := h in
  Build_ImageHeader a0 a1 a2 a3 a4 a5 a6 a7 a8 a9 a10 a11 a12
                    a13 a14 a15 a16 a17 a18 a19 a20 x a22 a23 a24 a25.

Definition upd_image_series_index (x : Z) (h : ImageHeader) : ImageHeader :=
  let 'Build_ImageHeader a0 a1 a2 a3 a4 a5 a6 a7 a8 a9 a10 a11 a12
                         a13 a14 a15 a16 a17 a18 a19 a20 a21 a22 a23 a24 a25 := h in
  Build_ImageHeader a0 a1 a2 a3 a4 a5 a6 a7 a8 a9 a10 a11 a12
                    a13 a14 a15 a16 a17 a18 a19 a20 a21 x a23 a24 a25.

Definition upd_user_int (x : list Z) (h : ImageHeader) : ImageHeader :=
  let 'Build_ImageHeader a0 a1 a2 a3 a4 a5 a6 a7 a8 a9 a10 a11 a12
                         a13 a14 a15 a16 a17 a18 a19 a20 a21 a22 a23 a24 a25 := h in
  Build_ImageHeader a0 a1 a2 a3 a4 a5 a6 a7 a8 a9 a10 a11 a12
                    a13 a14 a15 a16 a17 a18 a19 a20 a21 a22 x a24 a25.

Definition upd_user_float (x : list Z) (h : ImageHeader) : ImageHeader :=
  let 'Build_ImageHeader a0 a1 a2 a3 a4 a5 a6 a7 a8 a9 a10 a11 a12
                         a13 a14 a15 a16 a17 a18 a19 a20 a21 a22 a23 a24 a25 := h in
  Build_ImageHeader a0 a1 a2 a3 a4 a5 a6 a7 a8 a9 a10 a11 a12
                    a13 a14 a15 a16 a17 a18 a19 a20 a21 a22 a23 x a25.

Definition upd_attribute_string_len (x : Z) (h : ImageHeader) : ImageHeader :=
  let 'Build_ImageHeader a0 a1 a2 a3 a4 a5 a6 a7 a8 a9 a10 a11 a12
                         a13 a14 a15 a16 a17 a18 a19 a20 a21 a22 a23 a24 a25 := h in
  Build_ImageHeader a0 a1 a2 a3 a4 a5 a6 a7 a8 a9 a10 a11 a12
                    a13 a14 a15 a16 a17 a18 a19 a20 a21 a22 a23 a24 x.

(** The content of the field called [name], if there is one. *)
Definition load (h : ImageHeader) (name : string) : option cdata :=
  if String.eqb name "version" then Some (CInt (version h)) else
  if String.eqb name "data_type" then Some (CInt (data_type h)) else
  if String.eqb name "flags" then Some (CInt (flags h)) else
  if String.eqb name "measurement_uid" then Some (CInt (measurement_uid h)) else
  if String.eqb name "matrix_size" then Some (CArr (matrix_size h)) else
  if String.eqb name "field_of_view" then Some (CArr (field_of_view h)) else
  if String.eqb name "channels" then Some (CInt (channels h)) else
  if String.eqb name "position" then Some (CArr (position h)) else
  if String.eqb name "read_dir" then Some (CArr (read_dir h)) else
  if String.eqb name "phase_dir" then Some (CArr (phase_dir h)) else
  if String.eqb name "slice_dir" then Some (CArr (slice_dir h)) else
  if String.eqb name "patient_table_position" then Some (CArr (patient_table_position h)) else
  if String.eqb name "average" then Some (CInt (average h)) else
  if String.eqb name "slice" then Some (CInt (slice h)) else
  if String.eqb name "contrast" then Some (CInt (contrast h)) else
  if String.eqb name "phase" then Some (CInt (phase h)) else
  if String.eqb name "repetition" then Some (CInt (repetition h)) else
  if String.eqb name "set" then Some (CInt (set h)) else
  if String.eqb name "acquisition_time_stamp" then Some (CInt (acquisition_time_stamp h)) else
  if String.eqb name "physiology_time_stamp" then Some (CArr (physiology_time_stamp h)) else
  if String.eqb name "image_type" then Some (CInt (image_type h)) else
  if String.eqb name "image_index" then Some (CInt (image_index h)) else
  if String.eqb name "image_series_index" then Some (CInt (image_series_index h)) else
  if String.eqb name "user_int" then Some (CArr (user_int h)) else
  if String.eqb name "user_float" then Some (CArr (user_float h)) else
  if String.eqb name "attribute_string_len" then Some (CInt (attribute_string_len h)) else
  None.

(** The header with the field called [name] holding [c]. *)
Definition store (h : ImageHeader) (name : string) (c : cdata) : ImageHeader :=
  match c with
  | CInt z =>
    if String.eqb name "version" then upd_version z h else
    if String.eqb name "data_type" then upd_data_type z h else
    if String.eqb name "flags" then upd_flags z h else
    if String.eqb name "measurement_uid" then upd_measurement_uid z h else
    if String.eqb name "channels" then upd_channels z h else
    if String.eqb name "average" then upd_average z h else
    if String.eqb name "slice" then upd_slice z h else
    if String.eqb name "contrast" then upd_contrast z h else
    if String.eqb name "phase" then upd_phase z h else
    if String.eqb name "repetition" then upd_repetition z h else
    if String.eqb name "set" then upd_set z h else
    if String.eqb name "acquisition_time_stamp" then upd_acquisition_time_stamp z h else
    if String.eqb name "image_type" then upd_image_type z h else
    if String.eqb name "image_index" then upd_image_index z h else
    if String.eqb name "image_series_index" then upd_image_series_index z h else
    if String.eqb name "attribute_string_len" then upd_attribute_string_len z h else
    h
  | CArr l =>
    if String.eqb name "matrix_size" then upd_matrix_size l h else
    if String.eqb name "field_of_view" then upd_field_of_view l h else
    if String.eqb name "position" then upd_position l h else
    if String.eqb name "read_dir" then upd_read_dir l h else
    if String.eqb name "phase_dir" then upd_phase_dir l h else
    if String.eqb name "slice_dir" then upd_slice_dir l h else
    if String.eqb name "patient_table_position" then upd_patient_table_position l h else
    if String.eqb name "physiology_time_stamp" then upd_physiology_time_stamp l h else
    if String.eqb name "user_int" then upd_user_int l h else
    if String.eqb name "user_float" then upd_user_float l h else
    h
  end.
(** The attributes that every ctypes instance has and that cannot be
    assigned. *)
Definition readonly_attributes : list string :=
  [ "_objects"; "_b_base_"; "_b_needsfree_"; "__weakref__" ].

(** The attributes of every Python object that only take a class,
    respectively a dictionary; none of the values of [pyval] is one. *)
Definition typed_attributes : list string := [ "__class__"; "__dict__" ].

(** [setattr(header, name, v)].  A name that is no field of the structure
    becomes a plain attribute of the Python object and changes no field,
    unless it is one of the attributes above: assigning those raises. *)
Definition setattr `{HostLibs} (h : ImageHeader) (name : string) (v : pyval)
  : result ImageHeader :=
  match dict_get String.eqb _fields_ name with
  | None =>
    if existsb (String.eqb name) readonly_attributes
    then Raise (AttributeError "readonly attribute")
    else if existsb (String.eqb name) typed_attributes then Raise TypeError
    else Ok h
  | Some (Simple k) => z <- simple_set k v ;; Ok (store h name (CInt z))
  | Some (Array k n) => l <- array_set k n v ;; Ok (store h name (CArr l))
  end.

Fixpoint setattrs `{HostLibs} (h : ImageHeader) (items : list (string * pyval))
  : result ImageHeader :=
  match items with
  | [] => Ok h
  | (name, v) :: items' => h' <- setattr h name v ;; setattrs h' items'
  end.

(** [ImageHeader.from_buffer_copy(head)], for [head] an [ImageHeader]. *)
Definition from_buffer_copy (head : ImageHeader) : ImageHeader := head.

(** *** Flags *)

(** [a << k] on Python integers: a negative shift count is a [ValueError];
    zero shifted is zero; otherwise the shift raises when the host cannot
    build the result. *)
Definition lshift {M : Memory} (a k : Z) : result Z :=
  if k <? 0 then Raise ValueError
  else if a =? 0 then Ok 0
  else
    match shift_error k with
    | Some e => Raise e
    | None => Ok (Z.shiftl a k)
    end.

(** [self.flags = z], a store to a [c_uint64] field. *)
Definition assign_flags (h : ImageHeader) (z : Z) : ImageHeader :=
  upd_flags (z mod 2 ^ 64) h.

(** [self.flags = ctypes.c_uint64(0)]: the eight bytes of the instance are
    copied into the field. *)
Definition clearAllFlags (h : ImageHeader) : ImageHeader :=
  upd_flags 0 h.

Definition isFlagSet {M : Memory} (h : ImageHeader) (val : Z) : result bool :=
  m <- lshift 1 (val - 1) ;;
  Ok (0 <? Z.land (flags h) m).

Definition setFlag {M : Memory} (h : ImageHeader) (val : Z)
  : result ImageHeader :=
  m <- lshift 1 (val - 1) ;;
  Ok (assign_flags h (Z.lor (flags h) m)).

Definition clearFlag {M : Memory} (h : ImageHeader) (val : Z)
  : result ImageHeader :=
  b <- isFlagSet h val ;;
  if b then
    bitmask <- lshift 1 (val - 1) ;;
    Ok (assign_flags h (flags h - bitmask))
  else Ok h.

(** *** Building a header from an acquisition *)

(** Modelled from the spec: [acquisition.py] is not among the sources.  An
    acquisition is taken as the fields that [from_acquisition] reads from it
    ("version, measurement id, spatial position/orientation vectors,
    patient-table position, timestamps"), scalars as integers and vectors as
    ctypes arrays of the type the image header declares for them. *)
Record Acquisition : Type := {
  acq_version : Z;
  acq_measurement_uid : Z;
  acq_position : list Z;
  acq_read_dir : list Z;
  acq_phase_dir : list Z;
  acq_slice_dir : list Z;
  acq_patient_table_position : list Z;
  acq_acquisition_time_stamp : Z;
  acq_physiology_time_stamp : list Z
}.

(** Modelled from the spec: [getattr(acquisition, field)] for the fields
    above, the accessors of the missing [Acquisition] class. *)
Definition Acquisition_getattr (a : Acquisition) (field : string) : pyval :=
  if String.eqb field "version" then PyInt (acq_version a) else
  if String.eqb field "measurement_uid" then PyInt (acq_measurement_uid a) else
  if String.eqb field "position" then PyCArray c_float (acq_position a) else
  if String.eqb field "read_dir" then PyCArray c_float (acq_read_dir a) else
  if String.eqb field "phase_dir" then PyCArray c_float (acq_phase_dir a) else
  if String.eqb field "slice_dir" then PyCArray c_float (acq_slice_dir a) else
  if String.eqb field "patient_table_position"
  then PyCArray c_float (acq_patient_table_position a) else
  if String.eqb field "acquisition_time_stamp"
  then PyInt (acq_acquisition_time_stamp a) else
  if String.eqb field "physiology_time_stamp"
  then PyCArray c_uint32 (acq_physiology_time_stamp a) else
  PyNone.

Definition acquisition_fields : list string :=
  [ "version"; "measurement_uid"; "position"; "read_dir"; "phase_dir";
    "slice_dir"; "patient_table_position"; "acquisition_time_stamp";
    "physiology_time_stamp" ].

(** A call that passes, among the keywords collected by [**kwargs], one that
    names a parameter which has its argument already: Python raises a
    [TypeError] before the body of the function runs. *)
Definition bind_keywords (params : list string) (kwargs : list (string * pyval))
  : result unit :=
  if existsb (fun kw => existsb (String.eqb (fst kw)) params) kwargs
  then Raise TypeError
  else Ok tt.

Definition from_acquisition `{HostLibs} (acquisition : Acquisition)
  (kwargs : list (string * pyval)) : result ImageHeader :=
  _ <- bind_keywords ["acquisition"] kwargs ;;
  header <- setattrs ImageHeader_new
              (map (fun field => (field, Acquisition_getattr acquisition field))
                   acquisition_fields) ;;
  setattrs header kwargs.

(** ** The image record *)

Record Image : Type := {
  __head : ImageHeader;
  __data : ndarray;
  __attribute_string : string
}.

Definition __readonly : list string :=
  [ "data_type"; "matrix_size"; "channels"; "attribute_string_len" ].

(** [('matrix_size')] is a string, not a tuple. *)
Definition __ignore : string := "matrix_size".

(** [name in names], for a tuple of strings. *)
Definition in_tuple (name : string) (names : list string) : bool :=
  existsb (String.eqb name) names.

(** [s in t], for two strings: [s] occurs in [t]. *)
Fixpoint in_str (s t : string) : bool :=
  String.prefix s t ||
  match t with
  | EmptyString => false
  | String _ t' => in_str s t'
  end.

(** The fields for which [__init__] installs a property on the class. *)
Definition generated_fields : list string :=
  filter (fun field => negb (in_str field __ignore)) (map fst _fields_).

(** The shape the header declares for the buffer. *)
Definition declared_shape (h : ImageHeader) : list Z :=
  [ channels h; nth 2 (matrix_size h) 0; nth 1 (matrix_size h) 0;
    nth 0 (matrix_size h) 0 ].

(** [Image(head, attribute_string)].  A constructor that raises returns no
    object.  The loop that closes [__init__] installs the same properties on
    the class each time; they are the [generated_fields] above. *)
Definition Image_init `{HostLibs} {M : Memory} (head : option ImageHeader)
  (attribute_string : string) : result Image :=
  hd <- match head with
        | None =>
          let h := upd_data_type (DATATYPE_CXFLOAT mod 2 ^ 16) ImageHeader_new in
          d <- get_dtype_from_data_type DATATYPE_CXFLOAT ;;
          a <- np_empty [1; 1; 1; 0] d ;;
          Ok (h, a)
        | Some head =>
          let h := from_buffer_copy head in
          d <- get_dtype_from_data_type (data_type h) ;;
          a <- np_empty (declared_shape h) d ;;
          Ok (h, a)
        end ;;
  if Z.of_nat (String.length attribute_string) =? attribute_string_len (fst hd)
  then Ok {| __head := fst hd; __data := snd hd;
             __attribute_string := attribute_string |}
  else Raise ValueError.

(** *** Accessors *)

(** What reading an attribute gives: an integer or a tuple, which cannot be
    changed; a ctypes array with storage of its own; or a ctypes array that
    shares the storage of a field of the header of the record. *)
Inductive pyobj : Type :=
| ObjInt (z : Z)
| ObjTuple (l : list Z)
| ObjCArray (k : ckind) (l : list Z)
| ObjFieldView (name : string).

(** [head.__getattribute__(name)]. *)
Definition getattribute (h : ImageHeader) (name : string) : result pyobj :=
  match load h name with
  | Some (CInt z) => Ok (ObjInt z)
  | Some (CArr _) => Ok (ObjFieldView name)
  | None => Raise (AttributeError name)
  end.

(** [copy.copy(o)], for [o] read from the header [h]. *)
Definition copy_copy (h : ImageHeader) (o : pyobj) : pyobj :=
  match o with
  | ObjFieldView name =>
    match dict_get String.eqb _fields_ name, load h name with
    | Some (Array k _), Some (CArr l) => ObjCArray k l
    | _, _ => o
    end
  | _ => o
  end.

Definition __getter (name : string) (self : Image) : result pyobj :=
  if in_tuple name __readonly then
    o <- getattribute (__head self) name ;;
    Ok (copy_copy (__head self) o)
  else getattribute (__head self) name.

Definition __setter `{HostLibs} (name : string) (self : Image) (val : pyval)
  : result Image :=
  if in_tuple name __readonly then
    Raise (AttributeError (String.append name " is read-only."))
  else
    h <- setattr (__head self) name val ;;
    Ok {| __head := h; __data := __data self;
          __attribute_string := __attribute_string self |}.

Definition getHead (self : Image) : ImageHeader := __head self.

Definition setDataType `{HostLibs} (self : Image) (val : Z) : result Image :=
  d <- get_dtype_from_data_type val ;;
  Ok {| __head := __head self; __data := astype (__data self) d;
        __attribute_string := __attribute_string self |}.

Definition resize {M : Memory} (self : Image) (nc nz ny nx : Z) : result Image :=
  d <- np_resize (__data self) [nc; nz; ny; nx] ;;
  Ok {| __head := __head self; __data := d;
        __attribute_string := __attribute_string self |}.

(** [setHead], statement by statement: the record as the call leaves it, and
    what the call raised, if it did.  The header is replaced first, so that a
    call that raises leaves the new header with a buffer that is still the old
    one, or the old one converted. *)
Definition setHead_run `{HostLibs} {M : Memory} (self : Image) (hdr : ImageHeader)
  : Image * option exn :=
  let self1 := {| __head := from_buffer_copy hdr; __data := __data self;
                  __attribute_string := __attribute_string self |} in
  match setDataType self1 (data_type (__head self1)) with
  | Raise e => (self1, Some e)
  | Ok self2 =>
    match resize self2 (channels (__head self2))
                 (nth 2 (matrix_size (__head self2)) 0)
                 (nth 1 (matrix_size (__head self2)) 0)
                 (nth 0 (matrix_size (__head self2)) 0) with
    | Raise e => (self2, Some e)
    | Ok self3 => (self3, None)
    end
  end.

(** What [setHead] returns to a caller that has no other reference to the
    record. *)
Definition setHead `{HostLibs} {M : Memory} (self : Image) (hdr : ImageHeader)
  : result Image :=
  match setHead_run self hdr with
  | (self', None) => Ok self'
  | (_, Some e) => Raise e
  end.

(** The [data] property: a view of the buffer.  What is written through the
    view is written to the buffer: [from_array] puts the array assigned
    through it back in the record. *)
Definition data (self : Image) : ndarray := __data self.

Definition attribute_string (self : Image) : string := __attribute_string self.

(** The setter of [attribute_string], for a string. *)
Definition set_attribute_string (self : Image) (val : string) : Image :=
  {| __head := upd_attribute_string_len
                 (Z.of_nat (String.length val) mod 2 ^ 32) (__head self);
     __data := __data self;
     __attribute_string := val |}.

Module Image.

(** The [matrix_size] property: [self.__data.shape[1:4]]. *)
Definition matrix_size (self : Image) : list Z :=
  firstn 3 (skipn 1 (shape (__data self))).

(** [getattr(image, name)] for the name of a header field: a generated
    property calls its getter, [matrix_size] is the property of the class.
    The other attributes of the object are not modelled. *)
Definition getattr (self : Image) (name : string) : result pyobj :=
  if in_tuple name generated_fields then __getter name self
  else if String.eqb name "matrix_size" then Ok (ObjTuple (matrix_size self))
  else Raise (AttributeError name).

(** [setattr(image, name, val)] for the name of a header field: a generated
    property calls its setter, the [matrix_size] property has none.  The
    other attributes of the object are not modelled. *)
Definition setattr `{HostLibs} (self : Image) (name : string) (val : pyval)
  : result Image :=
  if in_tuple name generated_fields then __setter name self val
  else if String.eqb name "matrix_size"
  then Raise (AttributeError "can't set attribute")
  else Ok self.

(** [o[i] = v] on an object read from [self]: what becomes of the record.
    Integers and tuples do not support item assignment; an array with storage
    of its own is changed alone; a view of a field changes the field. *)
Definition setitem `{HostLibs} (self : Image) (o : pyobj) (i : nat) (v : pyval)
  : result Image :=
  match o with
  | ObjInt _ | ObjTuple _ => Raise TypeError
  | ObjCArray k l =>
    if Nat.ltb i (length l) then _ <- simple_set k v ;; Ok self
    else Raise IndexError
  | ObjFieldView name =>
    match dict_get String.eqb _fields_ name, load (__head self) name with
    | Some (Array k n), Some (CArr l) =>
      if Nat.ltb i (length l) then
        x <- simple_set k v ;;
        Ok {| __head := store (__head self) name
                          (CArr (firstn i l ++ x :: skipn (S i) l));
              __data := __data self;
              __attribute_string := __attribute_string self |}
      else Raise IndexError
    | _, _ => Raise TypeError
    end
  end.

Definition with_defaults (args : list Z) : result (Z * (Z * Z * Z)) :=
  match args with
  | [] => Ok (1, (1, 1, 1))
  | [first] => Ok (1, (first, 1, 1))
  | [first; second] => Ok (1, (first, second, 1))
  | [first; second; third] => Ok (1, (first, second, third))
  | [first; second; third; nchannels] => Ok (nchannels, (first, second, third))
  | _ => Raise TypeError
  end.

Definition shape_to_header_format (array : ndarray) : result (Z * (Z * Z * Z)) :=
  with_defaults (rev (shape array)).

Definition from_array `{HostLibs} {M : Memory} (array : ndarray)
  (acquisition : Acquisition) (kwargs : list (string * pyval)) : result Image :=
  _ <- bind_keywords ["array"; "acquisition"] kwargs ;;
  fmt <- shape_to_header_format array ;;
  let nchannels := fst fmt in
  let '(first, second, third) := snd fmt in
  data_type <- get_data_type_from_dtype (dtype_of array) ;;
  let image_data :=
    [ ("data_type", PyInt data_type);
      ("channels", PyInt nchannels);
      ("matrix_size", PyTuple [PyInt first; PyInt second; PyInt third]) ] in
  header <- from_acquisition acquisition
              (dict_update String.eqb image_data kwargs) ;;
  image <- Image_init (Some header) "" ;;
  d <- assign_all (data image) array ;;
  Ok {| __head := __head image; __data := d;
        __attribute_string := __attribute_string image |}.

End Image.

(** ** The acquisition header *)

(** Modelled from the spec: [acquisition.py] is not among the sources.  The
    header of an acquisition is the other "packed fixed-size struct" of
    section 4.2, of 340 bytes (section 6; [test_header] asserts the size).
    The fields and their order are the ones of the ISMRMRD header file; the
    encoding counters of [idx] (34 bytes, [test_encoding_counters]) are laid
    out in place. *)
Definition AcquisitionHeader_fields : list (string * ctype) :=
  [ ("version", Simple c_uint16);
    ("flags", Simple c_uint64);
    ("measurement_uid", Simple c_uint32);
    ("scan_counter", Simple c_uint32);
    ("acquisition_time_stamp", Simple c_uint32);
    ("physiology_time_stamp", Array c_uint32 PHYS_STAMPS);
    ("number_of_samples", Simple c_uint16);
    ("available_channels", Simple c_uint16);
    ("active_channels", Simple c_uint16);
    ("channel_mask", Array c_uint64 16);
    ("discard_pre", Simple c_uint16);
    ("discard_post", Simple c_uint16);
    ("center_sample", Simple c_uint16);
    ("encoding_space_ref", Simple c_uint16);
    ("trajectory_dimensions", Simple c_uint16);
    ("sample_time_us", Simple c_float);
    ("position", Array c_float POSITION_LENGTH);
    ("read_dir", Array c_float DIRECTION_LENGTH);
    ("phase_dir", Array c_float DIRECTION_LENGTH);
    ("slice_dir", Array c_float DIRECTION_LENGTH);
    ("patient_table_position", Array c_float POSITION_LENGTH);
    ("idx.kspace_encode_step_1", Simple c_uint16);
    ("idx.kspace_encode_step_2", Simple c_uint16);
    ("idx.average", Simple c_uint16);
    ("idx.slice", Simple c_uint16);
    ("idx.contrast", Simple c_uint16);
    ("idx.phase", Simple c_uint16);
    ("idx.repetition", Simple c_uint16);
    ("idx.set", Simple c_uint16);
    ("idx.segment", Simple c_uint16);
    ("idx.user", Array c_uint16 8);
    ("user_int", Array c_int32 USER_INTS);
    ("user_float", Array c_float USER_FLOATS) ].

(** ** The byte stream *)

Module ByteStream.

(** A parser over the bytes that remain to be read from the source. *)
Definition Reader (A : Type) : Type := list byte -> result (A * list byte).

Definition ret {A : Type} (a : A) : Reader A := fun src => Ok (a, src).

Definition rbind {A B : Type} (r : Reader A) (k : A -> Reader B) : Reader B :=
  fun src =>
    match r src with
    | Ok (a, src') => k a src'
    | Raise e => Raise e
    end.

Definition lift {A : Type} (r : result A) : Reader A :=
  fun src => match r with Ok a => Ok (a, src) | Raise e => Raise e end.

Notation "x <~ r ;; k" := (rbind r (fun x => k))
  (at level 61, r at next level, right associativity).

(** Modelled from the spec: [serialize_into], [deserialize_from], [to_bytes]
    and [from_bytes] are methods defined in [acquisition.py], which is not
    among the sources.  Section 4.4: "read exactly header-width bytes", "read
    exactly that many bytes", failing "on short reads"; the tests expect a
    [ValueError]. *)
Definition read (n : nat) : Reader (list byte) :=
  fun src =>
    if Nat.ltb (length src) n then Raise ValueError
    else Ok (firstn n src, skipn n src).

(** Modelled from the spec: the bytes of one cell of a header field, which is
    written by the missing [serialize_into]: "exact field order and widths";
    the least significant byte comes first, as the host stores it. *)
Definition encode_cell (k : ckind) (z : Z) : list byte := le_split (sizeof k) z.

(** Modelled from the spec: the cell that the missing [deserialize_from]
    reads from the bytes of [encode_cell]; a [c_int32] is in two's
    complement. *)
Definition decode_cell (k : ckind) (bs : list byte) : Z :=
  match k with
  | c_int32 => (le_combine bs + 2 ^ 31) mod 2 ^ 32 - 2 ^ 31
  | _ => le_combine bs
  end.

(** Modelled from the spec: the bytes of one field in the header that the
    missing [serialize_into] writes, the cells of an array one after the
    other. *)
Definition encode_field (t : ctype) (c : option cdata) : list byte :=
  match t, c with
  | Simple k, Some (CInt z) => encode_cell k z
  | Array k n, Some (CArr l) => flat_map (encode_cell k) l
  | _, _ => []
  end.

(** Modelled from the spec: one field read by the missing [deserialize_from],
    at the width its type declares. *)
Definition read_field (t : ctype) : Reader cdata :=
  match t with
  | Simple k => bs <~ read (sizeof k) ;; ret (CInt (decode_cell k bs))
  | Array k n =>
    bs <~ read (n * sizeof k) ;;
    ret (CArr (map (decode_cell k) (blocks n (sizeof k) bs)))
  end.

(** Modelled from the spec: a header as the missing [serialize_into] and
    [deserialize_from] see it, for either variant: the contents of its
    fields, in declared order. *)
Definition cells : Type := list cdata.

(** Modelled from the spec: "construct with all-zero/default fields". *)
Definition zero_cells (fields : list (string * ctype)) : cells :=
  map (fun f => match snd f with
                | Simple _ => CInt 0
                | Array _ n => CArr (repeat 0 n)
                end) fields.

(** Modelled from the spec: the scalar that the field [name] holds. *)
Definition cell (fields : list (string * ctype)) (h : cells) (name : string) : Z :=
  match dict_get String.eqb (combine (map fst fields) h) name with
  | Some (CInt z) => z
  | _ => 0
  end.

(** Modelled from the spec: the header with [c] in the field [name]. *)
Definition set_cell (fields : list (string * ctype)) (h : cells) (name : string)
  (c : cdata) : cells :=
  map (fun fc => if String.eqb (fst (fst fc)) name then c else snd fc)
      (combine fields h).

(** Modelled from the spec: the header as the missing [serialize_into] writes
    it, its fields "in declared order", each at its width, with no padding
    between fields of even size. *)
Definition header_bytes (fields : list (string * ctype)) (h : cells) : list byte :=
  flat_map (fun fc => encode_field (snd (fst fc)) (Some (snd fc))) (combine fields h).

(** Modelled from the spec: the missing [deserialize_from] reads "exactly
    header-width bytes to decode header", field after field. *)
Fixpoint read_header (fields : list (string * ctype)) : Reader cells :=
  match fields with
  | [] => ret []
  | (_, t) :: fields' =>
    c <~ read_field t ;; h <~ read_header fields' ;; ret (c :: h)
  end.

(** Modelled from the spec: the bytes of a buffer, "in declared shape order,
    native element width". *)
Definition tobytes (a : ndarray) : list byte :=
  flat_map (le_split (itemsize (dtype_of a))) (flat a).

(** Modelled from the spec: a buffer of the dtype [d] and the shape [s], read
    by the missing [deserialize_from]: "read exactly that many bytes". *)
Definition read_array (d : dtype) (s : list Z) : Reader ndarray :=
  let n := Z.to_nat (size_of_shape s) in
  bs <~ read (n * itemsize d) ;;
  ret {| dtype_of := d; shape := s;
         flat := map le_combine (blocks n (itemsize d) bs) |}.

(** Modelled from the spec: what a record variant fixes: the layout of its
    header, whether it "carries a trajectory buffer" and of which shape, and
    how the header declares the element kind and the shape of the primary
    buffer and the length of the attribute string. *)
Record variant : Type := {
  header_fields : list (string * ctype);
  trajectory_shape : cells -> option (list Z);
  data_dtype : cells -> result dtype;
  data_shape : cells -> list Z;
  string_len : cells -> Z
}.

(** Modelled from the spec: a record, "header + numeric payload buffer(s) +
    attribute string, the unit of serialization". *)
Record record : Type := {
  record_head : cells;
  record_traj : option ndarray;
  record_data : ndarray;
  record_string : string
}.

(** Modelled from the spec: the missing [serialize_into]: "write header, if
    record variant carries a trajectory buffer, write trajectory bytes, write
    primary buffer bytes, write attribute-string bytes (length given by
    header field, no terminator)", each through the sink the caller
    supplies. *)
Definition serialize_into {S : Type} (V : variant) (self : record)
  (sink : list byte -> S -> S) (s : S) : S :=
  let s1 := sink (header_bytes (header_fields V) (record_head self)) s in
  let s2 := match record_traj self with
            | Some t => sink (tobytes t) s1
            | None => s1
            end in
  let s3 := sink (tobytes (record_data self)) s2 in
  sink (list_byte_of_string (record_string self)) s3.

(** Modelled from the spec: the missing [to_bytes], which is "exactly
    equivalent to streaming through the general sink". *)
Definition to_bytes (V : variant) (self : record) : list byte :=
  serialize_into V self (fun bs acc => acc ++ bs) [].

(** Modelled from the spec: the missing [deserialize_from]: "header decoded
    first, buffers sized from it, then filled from subsequent bytes": the
    trajectory, of 4-byte floats, then the primary buffer; then "exactly
    [attribute_string_len] bytes for the trailing string". *)
Definition deserialize_from (V : variant) : Reader record :=
  h <~ read_header (header_fields V) ;;
  d <~ lift (data_dtype V h) ;;
  t <~ match trajectory_shape V h with
       | Some s => a <~ read_array float32 s ;; ret (Some a)
       | None => ret None
       end ;;
  a <~ read_array d (data_shape V h) ;;
  s <~ read (Z.to_nat (string_len V h)) ;;
  ret {| record_head := h; record_traj := t; record_data := a;
         record_string := string_of_list_byte s |}.

(** Modelled from the spec: the missing [from_bytes], on a complete buffer;
    "no trailing-byte validation is required". *)
Definition from_bytes (V : variant) (buf : list byte) : result record :=
  match deserialize_from V buf with
  | Ok (r, _) => Ok r
  | Raise e => Raise e
  end.

(** Modelled from the spec: the acquisition variant.  The primary buffer is
    "shaped by (channel count x sample count)", the trajectory "(sample count
    x trajectory-dimension count)" ([test_resize] reads [active_channels],
    [number_of_samples] and [trajectory_dimensions]); the data are complex64
    and the trajectory float32 ([test_new_instance]); an acquisition has no
    attribute string. *)
Definition Acquisition_variant : variant :=
  {| header_fields := AcquisitionHeader_fields;
     trajectory_shape := fun h =>
       Some [ cell AcquisitionHeader_fields h "number_of_samples";
              cell AcquisitionHeader_fields h "trajectory_dimensions" ];
     data_dtype := fun _ => Ok complex64;
     data_shape := fun h =>
       [ cell AcquisitionHeader_fields h "active_channels";
         cell AcquisitionHeader_fields h "number_of_samples" ];
     string_len := fun _ => 0 |}.

(** The fields of an image header, in declared order. *)
Definition header_cells (h : ImageHeader) : cells :=
  flat_map (fun f => match load h (fst f) with
                     | Some c => [c]
                     | None => []
                     end) _fields_.

(** The image header that holds the given contents. *)
Definition header_of_cells (h : cells) : ImageHeader :=
  fold_left (fun acc fc => store acc (fst (fst fc)) (snd fc))
            (combine _fields_ h) ImageHeader_new.

(** Modelled from the spec: the image variant: no trajectory; the element
    kind, the shape and the length of the string are the ones [Image.__init__]
    takes from the header. *)
Definition Image_variant : variant :=
  {| header_fields := _fields_;
     trajectory_shape := fun _ => None;
     data_dtype := fun h => get_dtype_from_data_type (data_type (header_of_cells h));
     data_shape := fun h => declared_shape (header_of_cells h);
     string_len := fun h => attribute_string_len (header_of_cells h) |}.

(** An image as a record of the image variant, and back. *)
Definition record_of_image (self : Image) : record :=
  {| record_head := header_cells (__head self);
     record_traj := None;
     record_data := __data self;
     record_string := __attribute_string self |}.

Definition image_of_record (r : record) : Image :=
  {| __head := header_of_cells (record_head r);
     __data := record_data r;
     __attribute_string := record_string r |}.

(** Modelled from the spec: [serialize_into] on an [Image]; [image.py] has no
    such method, the specification gives it to every record. *)
Definition Image_serialize_into {S : Type} (self : Image)
  (sink : list byte -> S -> S) (s : S) : S :=
  serialize_into Image_variant (record_of_image self) sink s.

(** Modelled from the spec: [to_bytes] on an [Image]. *)
Definition Image_to_bytes (self : Image) : list byte :=
  Image_serialize_into self (fun bs acc => acc ++ bs) [].

(** Modelled from the spec: [deserialize_from] for an [Image]. *)
Definition Image_deserialize_from : Reader Image :=
  r <~ deserialize_from Image_variant ;; ret (image_of_record r).

(** Modelled from the spec: [from_bytes] for an [Image]. *)
Definition Image_from_bytes (buf : list byte) : result Image :=
  match Image_deserialize_from buf with
  | Ok (image, _) => Ok image
  | Raise e => Raise e
  end.

End ByteStream.

(** ** Well-formed values *)

(** A cell holds a value of its C type. *)
Definition cell_ok (k : ckind) (z : Z) : bool :=
  match k with
  | c_int32 => (- 2 ^ 31 <=? z) && (z <? 2 ^ 31)
  | _ => (0 <=? z) && (z <? 2 ^ (8 * Z.of_nat (sizeof k)))
  end.

Definition field_ok (t : ctype) (c : option cdata) : bool :=
  match t, c with
  | Simple k, Some (CInt z) => cell_ok k z
  | Array k n, Some (CArr l) => Nat.eqb (length l) n && forallb (cell_ok k) l
  | _, _ => false
  end.

(** Every field of the header holds a value of its declared type; this is
    what a ctypes structure guarantees. *)
Definition wf_header (h : ImageHeader) : bool :=
  forallb (fun f => field_ok (snd f) (load h (fst f))) _fields_.

(** The array holds as many elements as its shape says, each an element of
    its dtype. *)
Definition wf_ndarray (a : ndarray) : bool :=
  forallb (fun d => 0 <=? d) (shape a)
  && Nat.eqb (length (flat a)) (Z.to_nat (size_of_shape (shape a)))
  && forallb (fun x => (0 <=? x) && (x <? 2 ^ (8 * Z.of_nat (itemsize (dtype_of a)))))
             (flat a).

(** A valid record: the buffer has the element kind and the shape the header
    declares, and the attribute string has the length the header declares. *)
Definition valid_image (self : Image) : Prop :=
  wf_header (__head self) = true
  /\ wf_ndarray (__data self) = true
  /\ get_dtype_from_data_type (data_type (__head self))
     = Ok (dtype_of (__data self))
  /\ shape (__data self) = declared_shape (__head self)
  /\ Z.of_nat (String.length (__attribute_string self))
     = attribute_string_len (__head self).

(** The contents of a header have the forms and the values that its fields
    declare. *)
Definition wf_cells (fields : list (string * ctype)) (h : ByteStream.cells) : bool :=
  Nat.eqb (length h) (length fields)
  && forallb (fun fc => field_ok (snd (fst fc)) (Some (snd fc))) (combine fields h).

(** A valid record of a variant: the header is well formed, the buffers have
    the element kinds and the shapes that the header declares (the trajectory
    is there when the variant carries one), and the attribute string has the
    length the header declares. *)
Definition valid_record (V : ByteStream.variant) (R : ByteStream.record) : Prop :=
  wf_cells (ByteStream.header_fields V) (ByteStream.record_head R) = true
  /\ match ByteStream.trajectory_shape V (ByteStream.record_head R), ByteStream.record_traj R with
     | Some s, Some t => dtype_of t = float32 /\ shape t = s /\ wf_ndarray t = true
     | None, None => True
     | _, _ => False
     end
  /\ wf_ndarray (ByteStream.record_data R) = true
  /\ ByteStream.data_dtype V (ByteStream.record_head R) = Ok (dtype_of (ByteStream.record_data R))
  /\ shape (ByteStream.record_data R) = ByteStream.data_shape V (ByteStream.record_head R)
  /\ Z.of_nat (String.length (ByteStream.record_string R)) = ByteStream.string_len V (ByteStream.record_head R).

(** ** An interpretation of the host libraries, to run the model

    Floats are not interpreted: a number stored into a C float field gives
    the pattern of zero, a cast keeps the low bytes of the storage, and fresh
    memory holds zeros.  The examples evaluated with it involve integer
    kinds only. *)
Definition plain_host : HostLibs :=
  {| c_float_set := fun v =>
       match v with
       | PyInt _ | PyFloat _ => Ok 0
       | _ => Raise TypeError
       end;
     astype_value := fun _ d z => z mod 2 ^ (8 * Z.of_nat (itemsize d));
     garbage := fun _ _ => 0 |}.

(** ** Sequences of flag calls *)

Inductive flag_call : Type :=
| CallSetFlag (n : Z)
| CallClearFlag (n : Z)
| CallClearAllFlags.

Definition flag_number_ok (c : flag_call) : bool :=
  match c with
  | CallSetFlag n | CallClearFlag n => (1 <=? n) && (n <=? 64)
  | CallClearAllFlags => true
  end.

Definition run_call {M : Memory} (h : ImageHeader) (c : flag_call)
  : result ImageHeader :=
  match c with
  | CallSetFlag n => setFlag h n
  | CallClearFlag n => clearFlag h n
  | CallClearAllFlags => Ok (clearAllFlags h)
  end.

Fixpoint run_calls {M : Memory} (h : ImageHeader) (cs : list flag_call)
  : result ImageHeader :=
  match cs with
  | [] => Ok h
  | c :: cs' => h' <- run_call h c ;; run_calls h' cs'
  end.

(** The set of flag numbers that a sequence of calls leaves, from the set [s]
    it starts with. *)
Definition after_call (s : Z -> bool) (c : flag_call) : Z -> bool :=
  match c with
  | CallSetFlag n => fun m => (m =? n) || s m
  | CallClearFlag n => fun m => negb (m =? n) && s m
  | CallClearAllFlags => fun _ => false
  end.

Definition after_calls (s : Z -> bool) (cs : list flag_call) : Z -> bool :=
  fold_left after_call cs s.

(** The flags that are set in a header, by number. *)
Definition flags_of (h : ImageHeader) : Z -> bool :=
  fun n => Z.testbit (flags h) (n - 1).

(** The codes and the dtypes of the tables. *)
Definition data_types : list Z := map fst dtype_mapping.
Definition dtypes : list dtype := map snd dtype_mapping.

(** The vectors of an acquisition have the lengths the image header declares
    for them. *)
Definition wf_acquisition (a : Acquisition) : bool :=
  Nat.eqb (length (acq_position a)) POSITION_LENGTH
  && Nat.eqb (length (acq_read_dir a)) DIRECTION_LENGTH
  && Nat.eqb (length (acq_phase_dir a)) DIRECTION_LENGTH
  && Nat.eqb (length (acq_slice_dir a)) DIRECTION_LENGTH
  && Nat.eqb (length (acq_patient_table_position a)) POSITION_LENGTH
  && Nat.eqb (length (acq_physiology_time_stamp a)) PHYS_STAMPS.

(** The header that [from_acquisition] has built once the fields of the
    acquisition are copied. *)
Definition acquisition_header (a : Acquisition) : ImageHeader :=
  upd_physiology_time_stamp (acq_physiology_time_stamp a)
    (upd_acquisition_time_stamp (acq_acquisition_time_stamp a mod 2 ^ 32)
      (upd_patient_table_position (acq_patient_table_position a)
        (upd_slice_dir (acq_slice_dir a)
          (upd_phase_dir (acq_phase_dir a)
            (upd_read_dir (acq_read_dir a)
              (upd_position (acq_position a)
                (upd_measurement_uid (acq_measurement_uid a mod 2 ^ 32)
                  (upd_version (acq_version a mod 2 ^ 16) ImageHeader_new)))))))).

(** The header that [from_array] has built when no keyword touches another
    field: the copy of the acquisition, then the element kind, the channel
    count and the matrix size. *)
Definition image_header (a : Acquisition) (k c : Z) (ms : list Z) : ImageHeader :=
  upd_matrix_size ms (upd_channels c (upd_data_type k (acquisition_header a))).

(** The content [c] has the form that the type [t] stores. *)
Definition agrees (t : ctype) (c : cdata) : bool :=
  match t, c with
  | Simple _, CInt _ | Array _ _, CArr _ => true
  | _, _ => false
  end.

(** ** Values for the examples *)

(** What [Image()] builds. *)
Definition default_image : Image :=
  {| __head := upd_data_type DATATYPE_CXFLOAT ImageHeader_new;
     __data := {| dtype_of := complex64; shape := [1; 1; 1; 0]; flat := [] |};
     __attribute_string := "" |}.

(** A header for one channel of a 1 x 1 x 1 matrix of unsigned shorts. *)
Definition unit_header : ImageHeader :=
  upd_matrix_size [1; 1; 1]
    (upd_channels 1 (upd_data_type DATATYPE_USHORT ImageHeader_new)).

(** A record for [unit_header], holding the one element 7. *)
Definition unit_image : Image :=
  {| __head := unit_header;
     __data := {| dtype_of := uint16; shape := [1; 1; 1; 1]; flat := [7] |};
     __attribute_string := "" |}.

(** The same header for a matrix two elements wide. *)
Definition pair_header : ImageHeader := upd_matrix_size [2; 1; 1] unit_header.

(** An acquisition whose fields are all zero. *)
Definition zero_acquisition : Acquisition :=
  {| acq_version := 0;
     acq_measurement_uid := 0;
     acq_position := [0; 0; 0];
     acq_read_dir := [0; 0; 0];
     acq_phase_dir := [0; 0; 0];
     acq_slice_dir := [0; 0; 0];
     acq_patient_table_position := [0; 0; 0];
     acq_acquisition_time_stamp := 0;
     acq_physiology_time_stamp := [0; 0; 0] |}.

(** A 2 x 3 array of unsigned shorts. *)
Definition matrix_2x3 : ndarray :=
  {| dtype_of := uint16; shape := [2; 3]; flat := [1; 2; 3; 4; 5; 6] |}.

(** A one-element array of unsigned shorts. *)
Definition single_9 : ndarray :=
  {| dtype_of := uint16; shape := [1]; flat := [9] |}.

(** A one-element array of five dimensions. *)
Definition five_dims : ndarray :=
  {| dtype_of := uint16; shape := [1; 1; 1; 1; 1]; flat := [9] |}.

(** A row of 2^16 elements. *)
Definition long_row : ndarray :=
  {| dtype_of := uint16; shape := [65536]; flat := repeat 0 (Z.to_nat 65536) |}.

(** An acquisition of two samples on one channel, with a trajectory of three
    dimensions. *)
Definition sample_acquisition : ByteStream.record :=
  {| ByteStream.record_head :=
       ByteStream.set_cell AcquisitionHeader_fields
         (ByteStream.set_cell AcquisitionHeader_fields
            (ByteStream.set_cell AcquisitionHeader_fields (ByteStream.zero_cells AcquisitionHeader_fields)
               "number_of_samples" (CInt 2))
            "active_channels" (CInt 1))
         "trajectory_dimensions" (CInt 3);
     ByteStream.record_traj := Some {| dtype_of := float32; shape := [2; 3];
                            flat := [1; 2; 3; 4; 5; 6] |};
     ByteStream.record_data := {| dtype_of := complex64; shape := [1; 2]; flat := [7; 8] |};
     ByteStream.record_string := "" |}.

(** * Properties

    A statement with a [Memory] among its parameters holds on every host.  A
    statement that names none is about the host [ample], on which no
    allocation and no shift is refused. *)

(** ** The field codec *)

Lemma dtype_eqb_eq (a b : dtype) : dtype_eqb a b = true <-> a = b.
Proof. destruct a, b; simpl; split; intros E; congruence. Qed.

Lemma get_dtype_from_data_type_inv (k : Z) (d : dtype) :
  get_dtype_from_data_type k = Ok d -> In k data_types /\ In d dtypes.
Proof.
  unfold get_dtype_from_data_type, dtype_mapping, dict_get.
  repeat match goal with
  | |- context [Z.eqb ?a k] =>
    destruct (Z.eqb_spec a k) as [? | _];
      [ subst k; intros E; injection E as <-;
        unfold data_types, dtypes; simpl; tauto | ]
  end.
  discriminate.
Qed.

(** C9: the two tables are inverse to each other on the supported kinds, and
    each lookup raises [TypeError] outside its table. *)
Theorem codec_strict_inverse :
  (forall k, In k data_types ->
     (d <- get_dtype_from_data_type k ;; get_data_type_from_dtype d) = Ok k)
  /\ (forall d, In d dtypes ->
     (k <- get_data_type_from_dtype d ;; get_dtype_from_data_type k) = Ok d)
  /\ (forall k, ~ In k data_types -> get_dtype_from_data_type k = Raise TypeError)
  /\ (forall d, ~ In d dtypes -> get_data_type_from_dtype d = Raise TypeError).
Proof.
  repeat split.
  - intros k Hk. simpl in Hk.
    repeat (destruct Hk as [<- | Hk]; [reflexivity |]). contradiction.
  - intros d Hd. simpl in Hd.
    repeat (destruct Hd as [<- | Hd]; [reflexivity |]). contradiction.
  - intros k Hk.
    destruct (get_dtype_from_data_type k) as [d | e] eqn:E.
    + apply get_dtype_from_data_type_inv in E. tauto.
    + unfold get_dtype_from_data_type in E.
      destruct (dict_get Z.eqb dtype_mapping k); [discriminate | symmetry; exact E].
  - intros d Hd. destruct d; try reflexivity; exfalso; apply Hd; simpl; tauto.
Qed.

Lemma codec_strict_inverse_witness :
  (d <- get_dtype_from_data_type DATATYPE_CXFLOAT ;; get_data_type_from_dtype d)
  = Ok DATATYPE_CXFLOAT
  /\ (k <- get_data_type_from_dtype np_dtype_int ;; get_dtype_from_data_type k)
     = Ok np_dtype_int
  /\ get_dtype_from_data_type 0 = Raise TypeError
  /\ get_data_type_from_dtype uint8 = Raise TypeError.
Proof.
  destruct codec_strict_inverse as (H1 & H2 & H3 & H4).
  split; [| split; [| split]].
  - apply (H1 DATATYPE_CXFLOAT). simpl. tauto.
  - apply (H2 np_dtype_int). simpl. tauto.
  - apply (H3 0). simpl. unfold DATATYPE_USHORT, DATATYPE_SHORT, DATATYPE_UINT,
      DATATYPE_INT, DATATYPE_FLOAT, DATATYPE_DOUBLE, DATATYPE_CXFLOAT,
      DATATYPE_CXDOUBLE. lia.
  - apply (H4 uint8). simpl. unfold np_dtype_int.
    intros H; repeat (destruct H as [H | H]; [discriminate H |]); exact H.
Defined.

(** ** Flags *)

Lemma flags_upd_flags (x : Z) (h : ImageHeader) : flags (upd_flags x h) = x.
Proof. destruct h; reflexivity. Qed.

Lemma upd_flags_upd_flags (x y : Z) (h : ImageHeader) :
  upd_flags x (upd_flags y h) = upd_flags x h.
Proof. destruct h; reflexivity. Qed.

Lemma upd_flags_same (h : ImageHeader) : upd_flags (flags h) h = h.
Proof. destruct h; reflexivity. Qed.

Lemma lshift_one {M : Memory} (k : Z) :
  0 <= k -> shift_error k = None -> lshift 1 k = Ok (2 ^ k).
Proof.
  intros Hk Hm. unfold lshift.
  destruct (Z.ltb_spec k 0); [lia |]. cbn [Z.eqb]. rewrite Hm.
  now rewrite Z.shiftl_1_l.
Qed.

Ltac served := first [lia | reflexivity | assumption].

Lemma land_pow2 (a k : Z) :
  0 <= k -> Z.land a (2 ^ k) = if Z.testbit a k then 2 ^ k else 0.
Proof.
  intros Hk. apply Z.bits_inj'. intros i Hi.
  rewrite Z.land_spec, Z.pow2_bits_eqb by assumption.
  destruct (Z.eqb_spec k i) as [<- | Hne].
  - destruct (Z.testbit a k); simpl.
    + now rewrite Z.pow2_bits_true.
    + now rewrite Z.bits_0.
  - rewrite andb_false_r. destruct (Z.testbit a k).
    + now rewrite Z.pow2_bits_false.
    + now rewrite Z.bits_0.
Qed.

Lemma testbit_high (f i : Z) : 0 <= f < 2 ^ 64 -> 64 <= i -> Z.testbit f i = false.
Proof.
  intros Hf Hi. rewrite <- (Z.mod_small f (2 ^ 64)) by assumption.
  apply Z.mod_pow2_bits_high. lia.
Qed.

Lemma wrap64_small (x : Z) :
  (forall i, 64 <= i -> Z.testbit x i = false) -> x mod 2 ^ 64 = x.
Proof.
  intros Hx. apply Z.bits_inj'. intros i Hi.
  rewrite Z.testbit_mod_pow2 by lia.
  destruct (Z.ltb_spec i 64); simpl; [reflexivity |].
  symmetry. now apply Hx.
Qed.

Lemma wrap64_range (x : Z) : 0 <= x mod 2 ^ 64 < 2 ^ 64.
Proof. apply Z.mod_pos_bound. reflexivity. Qed.

Lemma sub_pow2_ldiff (f k : Z) :
  0 <= k -> Z.testbit f k = true -> f - 2 ^ k = Z.ldiff f (2 ^ k).
Proof.
  intros Hk Hb. apply Z.sub_nocarry_ldiff.
  apply Z.bits_inj'. intros i Hi.
  rewrite Z.ldiff_spec, Z.pow2_bits_eqb, Z.bits_0 by assumption.
  destruct (Z.eqb_spec k i) as [<- | _]; [now rewrite Hb | reflexivity].
Qed.

Lemma ldiff_pow2_clear (f k : Z) :
  0 <= k -> Z.testbit f k = false -> Z.ldiff f (2 ^ k) = f.
Proof.
  intros Hk Hb. apply Z.bits_inj'. intros i Hi.
  rewrite Z.ldiff_spec, Z.pow2_bits_eqb by assumption.
  destruct (Z.eqb_spec k i) as [<- | _]; simpl.
  - now rewrite Hb.
  - apply andb_true_r.
Qed.

Lemma isFlagSet_spec {M : Memory} (h : ImageHeader) (n : Z) :
  1 <= n -> shift_error (n - 1) = None -> isFlagSet h n = Ok (flags_of h n).
Proof.
  intros Hn Hm. unfold isFlagSet, flags_of.
  rewrite lshift_one by served. simpl. f_equal.
  rewrite land_pow2 by lia.
  destruct (Z.testbit (flags h) (n - 1)).
  - apply Z.ltb_lt. apply Z.pow_pos_nonneg; lia.
  - reflexivity.
Qed.

Lemma setFlag_spec (h : ImageHeader) (n : Z) :
  0 <= flags h < 2 ^ 64 -> 1 <= n <= 64 ->
  setFlag h n = Ok (upd_flags (Z.lor (flags h) (2 ^ (n - 1))) h).
Proof.
  intros Hf Hn. unfold setFlag, assign_flags.
  rewrite lshift_one by served. simpl. do 2 f_equal.
  apply wrap64_small. intros i Hi.
  rewrite Z.lor_spec, testbit_high, Z.pow2_bits_false by lia. reflexivity.
Qed.

Lemma clearFlag_spec (h : ImageHeader) (n : Z) :
  0 <= flags h < 2 ^ 64 -> 1 <= n <= 64 ->
  clearFlag h n = Ok (upd_flags (Z.ldiff (flags h) (2 ^ (n - 1))) h).
Proof.
  intros Hf Hn. unfold clearFlag.
  rewrite isFlagSet_spec by served. unfold flags_of. simpl.
  destruct (Z.testbit (flags h) (n - 1)) eqn:Hb.
  - rewrite lshift_one by served. simpl. unfold assign_flags. do 2 f_equal.
    rewrite sub_pow2_ldiff by (assumption || lia).
    apply wrap64_small. intros i Hi.
    rewrite Z.ldiff_spec, testbit_high by lia. reflexivity.
  - rewrite ldiff_pow2_clear by (assumption || lia).
    now rewrite upd_flags_same.
Qed.

Lemma lor_pow2_range (f k : Z) :
  0 <= f < 2 ^ 64 -> 0 <= k < 64 -> 0 <= Z.lor f (2 ^ k) < 2 ^ 64.
Proof.
  intros Hf Hk.
  rewrite <- (wrap64_small (Z.lor f (2 ^ k))); [apply wrap64_range |].
  intros i Hi. rewrite Z.lor_spec, testbit_high, Z.pow2_bits_false by lia.
  reflexivity.
Qed.

Lemma ldiff_pow2_range (f k : Z) :
  0 <= f < 2 ^ 64 -> 0 <= Z.ldiff f (2 ^ k) < 2 ^ 64.
Proof.
  intros Hf.
  rewrite <- (wrap64_small (Z.ldiff f (2 ^ k))); [apply wrap64_range |].
  intros i Hi. rewrite Z.ldiff_spec, testbit_high by lia. reflexivity.
Qed.

(** One call, seen on the set of flag numbers. *)
Lemma run_call_spec (h : ImageHeader) (c : flag_call) :
  0 <= flags h < 2 ^ 64 -> flag_number_ok c = true ->
  exists h', run_call h c = Ok h'
    /\ 0 <= flags h' < 2 ^ 64
    /\ forall m, flags_of h' m = after_call (flags_of h) c m.
Proof.
  intros Hf Hc. destruct c as [n | n |]; simpl in *.
  - assert (Hn : 1 <= n <= 64) by lia.
    eexists. split; [now apply setFlag_spec |].
    rewrite flags_upd_flags. split; [apply lor_pow2_range; lia |].
    intros m. unfold flags_of. rewrite flags_upd_flags, Z.lor_spec.
    destruct (Z.eqb_spec m n) as [-> | Hne].
    + rewrite Z.pow2_bits_true by lia. apply orb_true_r.
    + rewrite Z.pow2_bits_false by lia. now rewrite orb_false_r.
  - assert (Hn : 1 <= n <= 64) by lia.
    eexists. split; [now apply clearFlag_spec |].
    rewrite flags_upd_flags. split; [now apply ldiff_pow2_range |].
    intros m. unfold flags_of. rewrite flags_upd_flags, Z.ldiff_spec.
    destruct (Z.eqb_spec m n) as [-> | Hne].
    + rewrite Z.pow2_bits_true by lia. apply andb_false_r.
    + rewrite Z.pow2_bits_false by lia. now rewrite andb_true_r.
  - eexists. split; [reflexivity |]. unfold clearAllFlags.
    rewrite flags_upd_flags. split; [lia |].
    intros m. unfold flags_of. rewrite flags_upd_flags. apply Z.bits_0.
Qed.

Lemma after_calls_ext (cs : list flag_call) (s s' : Z -> bool) :
  (forall m, s m = s' m) -> forall m, after_calls s cs m = after_calls s' cs m.
Proof.
  revert s s'. induction cs as [| c cs IH]; intros s s' E m; simpl.
  - apply E.
  - apply IH. intros k. destruct c; simpl; now rewrite ?E.
Qed.

Lemma run_calls_spec (cs : list flag_call) (h : ImageHeader) :
  0 <= flags h < 2 ^ 64 -> forallb flag_number_ok cs = true ->
  exists h', run_calls h cs = Ok h'
    /\ 0 <= flags h' < 2 ^ 64
    /\ forall m, flags_of h' m = after_calls (flags_of h) cs m.
Proof.
  revert h. induction cs as [| c cs IH]; intros h Hf Hcs; simpl in *.
  - exists h. auto.
  - apply andb_true_iff in Hcs as [Hc Hcs].
    destruct (run_call_spec h c Hf Hc) as (h1 & E1 & Hf1 & S1).
    destruct (IH h1 Hf1 Hcs) as (h' & E' & Hf' & S').
    exists h'. rewrite E1. simpl. repeat split; try assumption; try lia.
    intros m. rewrite S'. now apply after_calls_ext.
Qed.

(** C6: on a header, for a flag number [n] from 1 to 64: [setFlag] sets bit
    [n - 1] of [flags] and changes nothing else; after any sequence of
    [setFlag], [clearFlag] and [clearAllFlags] calls [isFlagSet] tells
    membership in the set the sequence produces; [setFlag] and [clearFlag] are
    idempotent, [clearFlag] of a flag that is clear changes nothing and raises
    nothing; [clearAllFlags] leaves [flags] at 0. *)
Theorem flag_operations (h : ImageHeader) (n : Z) :
  0 <= flags h < 2 ^ 64 -> 1 <= n <= 64 ->
  (exists h', setFlag h n = Ok h'
     /\ h' = upd_flags (flags h') h
     /\ forall i, Z.testbit (flags h') i = (i =? n - 1) || Z.testbit (flags h) i)
  /\ (forall cs, forallb flag_number_ok cs = true ->
      exists h', run_calls h cs = Ok h'
        /\ forall m, 1 <= m <= 64 ->
           isFlagSet h' m = Ok (after_calls (flags_of h) cs m))
  /\ (h1 <- setFlag h n ;; setFlag h1 n) = setFlag h n
  /\ (h1 <- clearFlag h n ;; clearFlag h1 n) = clearFlag h n
  /\ (isFlagSet h n = Ok false -> clearFlag h n = Ok h)
  /\ flags (clearAllFlags h) = 0.
Proof.
  intros Hf Hn. repeat apply conj.
  - eexists. split; [now apply setFlag_spec |].
    rewrite flags_upd_flags. split; [reflexivity |].
    intros i. rewrite Z.lor_spec, orb_comm. f_equal.
    destruct (Z.eqb_spec i (n - 1)) as [-> | Hne].
    + apply Z.pow2_bits_true. lia.
    + apply Z.pow2_bits_false. lia.
  - intros cs Hcs.
    destruct (run_calls_spec cs h Hf Hcs) as (h' & E & Hf' & S).
    exists h'. split; [exact E |].
    intros m Hm. rewrite isFlagSet_spec by served. now rewrite S.
  - rewrite setFlag_spec by assumption. simpl.
    rewrite setFlag_spec, flags_upd_flags, upd_flags_upd_flags;
      [| rewrite flags_upd_flags; apply lor_pow2_range; lia | assumption].
    do 2 f_equal. rewrite <- Z.lor_assoc. now rewrite Z.lor_diag.
  - rewrite clearFlag_spec by assumption. simpl.
    rewrite clearFlag_spec, flags_upd_flags, upd_flags_upd_flags;
      [| rewrite flags_upd_flags; now apply ldiff_pow2_range | assumption].
    do 2 f_equal. apply Z.bits_inj'. intros i Hi.
    rewrite !Z.ldiff_spec.
    now destruct (Z.testbit (flags h) i), (Z.testbit (2 ^ (n - 1)) i).
  - rewrite isFlagSet_spec by served. intros E. injection E as E.
    rewrite clearFlag_spec by assumption.
    rewrite ldiff_pow2_clear by (exact E || lia). now rewrite upd_flags_same.
  - unfold clearAllFlags. apply flags_upd_flags.
Qed.

Lemma flag_operations_witness :
  (h1 <- setFlag ImageHeader_new 64 ;; setFlag h1 64) = setFlag ImageHeader_new 64
  /\ flags (clearAllFlags ImageHeader_new) = 0.
Proof.
  destruct (flag_operations ImageHeader_new 64) as (_ & _ & H3 & _ & _ & H6).
  - simpl. lia.
  - lia.
  - split; assumption.
Defined.

(** The scenario of the spec: flag 64, then flag 1. *)
Example flags_64_then_1 :
  run_calls ImageHeader_new [CallSetFlag 64; CallSetFlag 1]
  = Ok (upd_flags (Z.lor (Z.shiftl 1 63) 1) ImageHeader_new).
Proof. reflexivity. Qed.

(** ** Accessors of the image *)

(** C10: the [matrix_size] attribute of an image is [shape[1:4]] of its
    buffer, whatever its header holds; [matrix_size] is the one field of the
    header for which no accessor is generated. *)
Theorem matrix_size_reads_the_buffer (self : Image) (h : ImageHeader) :
  Image.getattr self "matrix_size"
  = Ok (ObjTuple (firstn 3 (skipn 1 (shape (__data self)))))
  /\ Image.getattr {| __head := h; __data := __data self;
                      __attribute_string := __attribute_string self |}
                   "matrix_size"
     = Image.getattr self "matrix_size"
  /\ generated_fields
     = filter (fun field => negb (String.eqb field "matrix_size")) (map fst _fields_).
Proof. split; [| split]; vm_compute; reflexivity. Qed.

(** The record that [Image()] builds has a header and a buffer that disagree,
    and the more so once resized: the attribute follows the buffer. *)
Example matrix_size_of_resized_default :
  Image_init (H := plain_host) None "" = Ok default_image
  /\ Image.matrix_size default_image = [1; 1; 0]
  /\ matrix_size (getHead default_image) = [0; 0; 0]
  /\ exists image,
       resize default_image 2 3 4 5 = Ok image
       /\ Image.matrix_size image = [3; 4; 5]
       /\ matrix_size (getHead image) = [0; 0; 0].
Proof.
  split; [| split; [| split]]; try (vm_compute; reflexivity).
  eexists. split; [vm_compute; reflexivity |]. split; reflexivity.
Qed.

(** C5: for each of the four read-only names, assigning the attribute raises
    [AttributeError] whatever the value.  Reading the attribute gives the
    value of the field of the header for [data_type], [channels] and
    [attribute_string_len], and the shape of the buffer for [matrix_size];
    the generated getter gives the value of the field, for [matrix_size] as an
    array of its own that holds what the field holds.  What is read either
    way shares no storage with the record: it is no view of a field, and no
    item assignment on it changes the record. *)
Theorem readonly_fields `{HostLibs} (self : Image) (name : string) (val : pyval) :
  In name __readonly ->
  (exists msg, Image.setattr self name val = Raise (AttributeError msg))
  /\ Image.getattr self name
     = Ok (if String.eqb name "data_type"
           then ObjInt (data_type (getHead self))
           else if String.eqb name "channels"
           then ObjInt (channels (getHead self))
           else if String.eqb name "attribute_string_len"
           then ObjInt (attribute_string_len (getHead self))
           else ObjTuple (firstn 3 (skipn 1 (shape (data self)))))
  /\ __getter name self
     = Ok (if String.eqb name "data_type"
           then ObjInt (data_type (getHead self))
           else if String.eqb name "channels"
           then ObjInt (channels (getHead self))
           else if String.eqb name "attribute_string_len"
           then ObjInt (attribute_string_len (getHead self))
           else ObjCArray c_uint16 (matrix_size (getHead self)))
  /\ forall o,
       Image.getattr self name = Ok o \/ __getter name self = Ok o ->
       (forall field, o <> ObjFieldView field)
       /\ forall i v self', Image.setitem self o i v = Ok self' -> self' = self.
Proof.
  intros Hin. simpl in Hin.
  destruct Hin as [<- | [<- | [<- | [<- | []]]]];
    (split; [eexists; reflexivity |]);
    match goal with
    | |- ?g = Ok ?x /\ ?g' = Ok ?x' /\ _ =>
      assert (G : g = Ok x) by reflexivity;
      assert (G' : g' = Ok x') by reflexivity;
      split; [exact G |]; split; [exact G' |];
      intros o [E | E]; [rewrite G in E | rewrite G' in E]
    end;
    injection E as <-; cbn [String.eqb Ascii.eqb Bool.eqb];
    (split; [discriminate |]); intros i v self' E;
    cbn [Image.setitem] in E; try discriminate E.
  destruct (Nat.ltb i (length (matrix_size (getHead self)))); [| discriminate E].
  destruct (simple_set c_uint16 v); [| discriminate E].
  now injection E as <-.
Qed.

Lemma readonly_fields_witness :
  (exists msg,
     Image.setattr (H := plain_host) default_image "matrix_size"
       (PyTuple [PyInt 1; PyInt 2; PyInt 3])
     = Raise (AttributeError msg))
  /\ Image.getattr default_image "matrix_size" = Ok (ObjTuple [1; 1; 0])
  /\ __getter "matrix_size" default_image = Ok (ObjCArray c_uint16 [0; 0; 0])
  /\ forall o,
       Image.getattr default_image "matrix_size" = Ok o
       \/ __getter "matrix_size" default_image = Ok o ->
       (forall field, o <> ObjFieldView field)
       /\ forall i v self',
            Image.setitem (H := plain_host) default_image o i v = Ok self' ->
            self' = default_image.
Proof.
  apply (readonly_fields (H := plain_host) default_image "matrix_size"
           (PyTuple [PyInt 1; PyInt 2; PyInt 3])).
  simpl. tauto.
Defined.

(** By contrast, an array field that is not read-only is handed out as a view
    of the header: assigning an item of it changes the record. *)
Example writable_array_is_shared :
  Image.getattr default_image "user_int" = Ok (ObjFieldView "user_int")
  /\ Image.setitem (H := plain_host) default_image (ObjFieldView "user_int")
       1 (PyInt 5)
     = Ok {| __head := upd_user_int [0; 5; 0; 0; 0; 0; 0; 0] (__head default_image);
             __data := __data default_image;
             __attribute_string := "" |}.
Proof. split; reflexivity. Qed.

(** ** Resizing *)

Lemma np_resize_shape {M : Memory} (a b : ndarray) (s : list Z) :
  np_resize a s = Ok b ->
  dtype_of b = dtype_of a /\ shape b = s
  /\ length (flat b) = Z.to_nat (size_of_shape s).
Proof.
  unfold np_resize.
  destruct (existsb _ s); [discriminate |].
  destruct (resize_error _ _ _); [discriminate |].
  destruct (Nat.eqb (size a) 0 || Nat.eqb (Z.to_nat (size_of_shape s)) 0) eqn:E;
    intros R; injection R as <-; simpl; repeat split.
  - apply repeat_length.
  - apply orb_false_iff in E as [En Es].
    apply Nat.eqb_neq in En. apply Nat.eqb_neq in Es.
    rewrite length_firstn. apply Nat.min_l.
    set (n := size a) in *. set (m := Z.to_nat (size_of_shape s)) in *.
    assert (L : forall r, length (concat (repeat (flat a) r)) = (r * n)%nat).
    { induction r as [| r IH]; simpl; [reflexivity |].
      rewrite length_app, IH. reflexivity. }
    rewrite L.
    pose proof (Nat.div_mod_eq (m + n - 1) n) as D.
    pose proof (Nat.mod_upper_bound (m + n - 1) n En) as B.
    nia.
Qed.

(** [resize] touches the buffer alone. *)
Lemma resize_keeps_head {M : Memory} (self self' : Image) (nc nz ny nx : Z) :
  resize self nc nz ny nx = Ok self' ->
  __head self' = __head self
  /\ __attribute_string self' = __attribute_string self
  /\ shape (__data self') = [nc; nz; ny; nx].
Proof.
  unfold resize.
  destruct (np_resize (__data self) [nc; nz; ny; nx]) as [d | e] eqn:E;
    [| discriminate].
  intros R; injection R as <-; simpl.
  apply np_resize_shape in E. tauto.
Qed.

(** C3: on a record whose buffer has the shape its header declares, [resize]
    gives the buffer the new shape and leaves the header as it was, so that
    the count fields no longer agree with the buffer. *)
Theorem resize_leaves_header_stale :
  valid_image unit_image
  /\ exists image,
       resize unit_image 2 3 4 5 = Ok image
       /\ shape (data image) = [2; 3; 4; 5]
       /\ getHead image = getHead unit_image
       /\ declared_shape (getHead image) = [1; 1; 1; 1].
Proof.
  split.
  - repeat split; vm_compute; reflexivity.
  - eexists. split; [vm_compute; reflexivity |].
    repeat split; vm_compute; reflexivity.
Qed.

(** ** Construction from a header *)

Lemma get_dtype_from_data_type_raises (k : Z) (e : exn) :
  get_dtype_from_data_type k = Raise e -> e = TypeError /\ ~ In k data_types.
Proof.
  unfold get_dtype_from_data_type.
  destruct (dict_get Z.eqb dtype_mapping k) eqn:E; [discriminate |].
  intros R; injection R as <-. split; [reflexivity |].
  intros Hin. unfold data_types in Hin. simpl in Hin.
  repeat (destruct Hin as [<- | Hin]; [discriminate E |]). exact Hin.
Qed.

(** C7, as the code has it, on any host: the constructor raises [TypeError]
    when the [data_type] of the header is no supported code; otherwise it
    raises what [np.empty] raises when the host cannot allocate a buffer of
    the declared kind and shape; otherwise it raises [ValueError] when the
    length of the string is not [attribute_string_len]; and otherwise it
    returns the record of that header and string, with a buffer of the
    declared kind and shape that holds as many elements as the shape counts.
    The four cases exclude each other.  When it raises it returns no
    record. *)
Theorem Image_init_from_header `{HostLibs} {M : Memory} (head : ImageHeader)
  (s : string) :
  match Image_init (Some head) s with
  | Ok image =>
    In (data_type head) data_types
    /\ Z.of_nat (String.length s) = attribute_string_len head
    /\ __head image = head
    /\ __attribute_string image = s
    /\ shape (__data image) = declared_shape head
    /\ get_dtype_from_data_type (data_type head) = Ok (dtype_of (__data image))
    /\ empty_error (declared_shape head) (dtype_of (__data image)) = None
    /\ length (flat (__data image))
       = Z.to_nat (size_of_shape (declared_shape head))
  | Raise e =>
    (e = TypeError /\ ~ In (data_type head) data_types)
    \/ (exists d, get_dtype_from_data_type (data_type head) = Ok d
          /\ empty_error (declared_shape head) d = Some e)
    \/ (e = ValueError /\ In (data_type head) data_types
        /\ (exists d, get_dtype_from_data_type (data_type head) = Ok d
              /\ empty_error (declared_shape head) d = None)
        /\ Z.of_nat (String.length s) <> attribute_string_len head)
  end.
Proof.
  unfold Image_init, from_buffer_copy, np_empty.
  destruct (get_dtype_from_data_type (data_type head)) as [d | e] eqn:E;
    cbn [bind].
  - apply get_dtype_from_data_type_inv in E as Hin. destruct Hin as [Hin _].
    destruct (empty_error (declared_shape head) d) as [e |] eqn:Hm; cbn [bind fst snd].
    + right. left. exists d. now split.
    + destruct (Z.eqb_spec (Z.of_nat (String.length s)) (attribute_string_len head)).
      * cbn [__head __data __attribute_string shape dtype_of flat].
        rewrite length_map, length_seq. repeat split; assumption || reflexivity.
      * right. right. repeat split; try assumption. exists d. now split.
  - left. now apply get_dtype_from_data_type_raises.
Qed.

(** C7 as stated fails: with a header fresh from [ImageHeader()] the lengths
    agree and the constructor raises all the same. *)
Lemma Image_init_raises_on_equal_lengths :
  Z.of_nat (String.length "") = attribute_string_len ImageHeader_new
  /\ Image_init (H := plain_host) (Some ImageHeader_new) "" = Raise TypeError.
Proof. split; reflexivity. Qed.

(** ** Replacing the header *)

Lemma length_concat_repeat {A : Type} (xs : list A) (r : nat) :
  length (concat (repeat xs r)) = (r * length xs)%nat.
Proof.
  induction r as [| r IH]; simpl; [reflexivity |].
  now rewrite length_app, IH.
Qed.

(** Repeating a list: the element at [i] is the element at [i mod n]. *)
Lemma nth_concat_repeat {A : Type} (xs : list A) (d : A) (r i : nat) :
  (i < r * length xs)%nat ->
  nth i (concat (repeat xs r)) d = nth (i mod length xs) xs d.
Proof.
  revert i. induction r as [| r IH]; intros i Hi; simpl in *; [lia |].
  destruct (Nat.lt_ge_cases i (length xs)) as [Hlt | Hge].
  - rewrite app_nth1 by assumption. now rewrite Nat.mod_small.
  - rewrite app_nth2 by assumption. rewrite IH by lia.
    f_equal. assert (Hn : length xs <> O) by lia.
    replace i with ((i - length xs) + 1 * length xs)%nat at 2 by lia.
    now rewrite Nat.Div0.mod_add.
Qed.

Lemma existsb_negative (s : list Z) :
  existsb (fun d => d <? 0) s = negb (forallb (fun d => 0 <=? d) s).
Proof.
  induction s as [| x s IH]; simpl; [reflexivity |].
  rewrite IH, negb_andb. f_equal.
  destruct (Z.ltb_spec x 0), (Z.leb_spec 0 x); simpl; lia || reflexivity.
Qed.

Lemma np_resize_ok {M : Memory} (a : ndarray) (s : list Z) :
  forallb (fun d => 0 <=? d) s = true ->
  resize_error (size a) (dtype_of a) s = None ->
  exists b, np_resize a s = Ok b.
Proof.
  intros Hs Hm. unfold np_resize.
  rewrite existsb_negative, Hs, Hm. cbn [negb].
  destruct (_ || _); eexists; reflexivity.
Qed.

(** When [np.resize] raises: a [ValueError] for a negative dimension,
    otherwise what the host raises. *)
Lemma np_resize_raises {M : Memory} (a : ndarray) (s : list Z) (e : exn) :
  np_resize a s = Raise e ->
  (e = ValueError /\ forallb (fun d => 0 <=? d) s = false)
  \/ (forallb (fun d => 0 <=? d) s = true
      /\ resize_error (size a) (dtype_of a) s = Some e).
Proof.
  unfold np_resize. rewrite existsb_negative.
  destruct (forallb (fun d => 0 <=? d) s); cbn [negb].
  - destruct (resize_error _ _ _) as [e' |].
    + intros R; injection R as <-. now right.
    + destruct (_ || _); discriminate.
  - intros R; injection R as <-. now left.
Qed.

(** A result of [np.resize] tells that the dimensions are not negative and
    that the host served the request. *)
Lemma np_resize_served {M : Memory} (a b : ndarray) (s : list Z) :
  np_resize a s = Ok b ->
  forallb (fun d => 0 <=? d) s = true
  /\ resize_error (size a) (dtype_of a) s = None.
Proof.
  unfold np_resize. rewrite existsb_negative.
  destruct (forallb (fun d => 0 <=? d) s); cbn [negb]; [| discriminate].
  destruct (resize_error _ _ _); [discriminate |]. now split.
Qed.

(** What [np.resize] leaves in the new array: zeros when the old one is empty,
    the old elements over and over otherwise. *)
Lemma np_resize_flat {M : Memory} (a b : ndarray) (s : list Z) :
  np_resize a s = Ok b ->
  forall i, (i < length (flat b))%nat ->
    nth i (flat b) 0
    = match flat a with
      | [] => 0
      | _ => nth (i mod length (flat a)) (flat a) 0
      end.
Proof.
  intros R. pose proof (np_resize_shape a b s R) as (_ & _ & L).
  revert R. unfold np_resize.
  destruct (existsb _ s); [discriminate |].
  destruct (resize_error _ _ _); [discriminate |].
  unfold size.
  destruct (Nat.eqb (length (flat a)) 0 || Nat.eqb (Z.to_nat (size_of_shape s)) 0) eqn:E;
    intros R; injection R as <-; simpl in *; intros i Hi.
  - rewrite repeat_length in Hi. rewrite nth_repeat.
    destruct (flat a) as [| x xs]; [reflexivity |].
    simpl in E. apply Nat.eqb_eq in E. lia.
  - apply orb_false_iff in E as [En Es]. apply Nat.eqb_neq in En.
    rewrite L in Hi. rewrite nth_firstn.
    destruct (Nat.ltb_spec i (Z.to_nat (size_of_shape s))); [| lia].
    rewrite nth_concat_repeat.
    + destruct (flat a); [contradiction En; reflexivity | reflexivity].
    + pose proof (Nat.div_mod_eq (Z.to_nat (size_of_shape s) + length (flat a) - 1)
                                 (length (flat a))) as D.
      pose proof (Nat.mod_upper_bound
                    (Z.to_nat (size_of_shape s) + length (flat a) - 1)
                    (length (flat a)) En) as B.
      nia.
Qed.

Lemma wf_header_field (h : ImageHeader) (name : string) (t : ctype) :
  wf_header h = true -> In (name, t) _fields_ -> field_ok t (load h name) = true.
Proof.
  intros W Hin. unfold wf_header in W.
  rewrite forallb_forall in W. exact (W (name, t) Hin).
Qed.

(** The shape a ctypes header declares is made of 16-bit counts. *)
Lemma wf_header_declared_shape (h : ImageHeader) :
  wf_header h = true ->
  forallb (fun x => (0 <=? x) && (x <? 2 ^ 16)) (declared_shape h) = true.
Proof.
  intros W.
  pose proof (wf_header_field h "channels" (Simple c_uint16) W) as Hc.
  pose proof (wf_header_field h "matrix_size" (Array c_uint16 POSITION_LENGTH) W) as Hm.
  assert (Hc' : field_ok (Simple c_uint16) (Some (CInt (channels h))) = true).
  { apply Hc. unfold _fields_. simpl. tauto. }
  assert (Hm' : field_ok (Array c_uint16 POSITION_LENGTH)
                         (Some (CArr (matrix_size h))) = true).
  { apply Hm. unfold _fields_. simpl. tauto. }
  clear Hc Hm W. unfold declared_shape. simpl in Hc', Hm'.
  destruct (matrix_size h) as [| a [| b [| c [| ? ?]]]]; simpl in Hm'; try discriminate.
  simpl. rewrite !andb_true_iff in *. tauto.
Qed.

Lemma forallb_weaken {A : Type} (p q : A -> bool) (l : list A) :
  (forall x, p x = true -> q x = true) ->
  forallb p l = true -> forallb q l = true.
Proof.
  intros Hpq. induction l as [| x l IH]; simpl; [reflexivity |].
  intros Hl. apply andb_true_iff in Hl as [Hx Hl].
  now rewrite (Hpq x Hx), IH.
Qed.

(** [setHead] as the sequence of its three statements. *)
Lemma setHead_unfold `{HostLibs} {M : Memory} (self : Image) (hdr : ImageHeader) :
  setHead self hdr
  = (let self1 := {| __head := from_buffer_copy hdr; __data := __data self;
                     __attribute_string := __attribute_string self |} in
     self2 <- setDataType self1 (data_type (__head self1)) ;;
     resize self2 (channels (__head self2)) (nth 2 (matrix_size (__head self2)) 0)
            (nth 1 (matrix_size (__head self2)) 0)
            (nth 0 (matrix_size (__head self2)) 0)).
Proof.
  unfold setHead, setHead_run. cbv zeta.
  destruct (setDataType _ _) as [self2 | e]; cbn [bind]; [| reflexivity].
  destruct (resize _ _ _ _ _); reflexivity.
Qed.

(** C4, as the code has it, on any host: for a header whose [data_type] is a
    supported code, and when the host can build the buffer that [np.resize]
    is asked for, [setHead] puts a copy of the header in the record, converts
    the buffer to the element kind of the header and gives it the shape the
    header declares; the buffer then holds the old elements, converted, over
    and over in flattened order, and zeros only when there was no old
    element. *)
Theorem setHead_spec `{HostLibs} {M : Memory} (self : Image) (hdr : ImageHeader)
  (d : dtype) :
  wf_header hdr = true ->
  get_dtype_from_data_type (data_type hdr) = Ok d ->
  resize_error (size (astype (data self) d)) d (declared_shape hdr) = None ->
  exists self',
    setHead self hdr = Ok self'
    /\ getHead self' = hdr
    /\ attribute_string self' = attribute_string self
    /\ dtype_of (data self') = d
    /\ shape (data self') = declared_shape hdr
    /\ length (flat (data self')) = Z.to_nat (size_of_shape (declared_shape hdr))
    /\ forall i, (i < length (flat (data self')))%nat ->
         nth i (flat (data self')) 0
         = match flat (astype (data self) d) with
           | [] => 0
           | old => nth (i mod length old) old 0
           end.
Proof.
  intros W Hd Hm. unfold data in *.
  remember (astype (__data self) d) as a eqn:Ea.
  rewrite setHead_unfold. unfold setDataType, from_buffer_copy.
  cbn [__head __data __attribute_string].
  rewrite Hd. cbn [bind __head __data __attribute_string]. rewrite <- Ea.
  unfold resize. cbn [__head __data __attribute_string].
  assert (Hs : forallb (fun x => 0 <=? x) (declared_shape hdr) = true).
  { apply (forallb_weaken (fun x => (0 <=? x) && (x <? 2 ^ 16))).
    - intros x Hx. now apply andb_true_iff in Hx as [Hx _].
    - now apply wf_header_declared_shape. }
  assert (Hm' : resize_error (size a) (dtype_of a) (declared_shape hdr) = None).
  { rewrite Ea at 2. exact Hm. }
  destruct (np_resize_ok a _ Hs Hm') as (b & R).
  unfold declared_shape in R. rewrite R. simpl.
  eexists. split; [reflexivity |].
  unfold getHead, attribute_string, data.
  cbn [__head __data __attribute_string].
  pose proof (np_resize_shape _ _ _ R) as (Hdt & Hsh & Hlen).
  split; [reflexivity |]. split; [reflexivity |].
  split; [rewrite Hdt, Ea; reflexivity |].
  split; [exact Hsh |]. split; [exact Hlen |].
  intros i Hi. rewrite (np_resize_flat _ _ _ R i Hi).
  destruct (flat a); reflexivity.
Qed.

Lemma setHead_spec_witness :
  exists self',
    setHead (H := plain_host) unit_image pair_header = Ok self'
    /\ getHead self' = pair_header
    /\ attribute_string self' = attribute_string unit_image
    /\ dtype_of (data self') = uint16
    /\ shape (data self') = declared_shape pair_header
    /\ length (flat (data self')) = Z.to_nat (size_of_shape (declared_shape pair_header))
    /\ forall i, (i < length (flat (data self')))%nat ->
         nth i (flat (data self')) 0
         = match flat (astype (H := plain_host) (data unit_image) uint16) with
           | [] => 0
           | old => nth (i mod length old) old 0
           end.
Proof.
  apply (setHead_spec (H := plain_host) unit_image pair_header uint16).
  - vm_compute. reflexivity.
  - reflexivity.
  - reflexivity.
Defined.

(** C4 as stated fails: the new buffer is not filled with zeros, the old
    element is still there, twice; and a header whose [data_type] is no
    supported code is refused. *)
Lemma setHead_keeps_old_contents :
  setHead (H := plain_host) unit_image pair_header
  = Ok {| __head := pair_header;
          __data := {| dtype_of := uint16; shape := [1; 1; 1; 2]; flat := [7; 7] |};
          __attribute_string := "" |}
  /\ flat (data unit_image) = [7]
  /\ [7; 7] <> repeat 0 2
  /\ setHead (H := plain_host) unit_image ImageHeader_new = Raise TypeError.
Proof.
  split; [vm_compute; reflexivity |].
  split; [reflexivity |]. split; [discriminate | reflexivity].
Qed.

(** A call of [setHead] that raises has replaced the header all the same:
    the record is left with a header of no supported kind and its old
    buffer. *)
Example setHead_refused_keeps_new_header :
  setHead_run (H := plain_host) unit_image ImageHeader_new
  = ({| __head := ImageHeader_new; __data := data unit_image;
        __attribute_string := "" |}, Some TypeError).
Proof. reflexivity. Qed.

(** ** Construction from an array *)

Lemma setattr_simple `{HostLibs} (h : ImageHeader) (name : string) (k : ckind)
  (v : pyval) (z : Z) :
  dict_get String.eqb _fields_ name = Some (Simple k) ->
  simple_set k v = Ok z ->
  setattr h name v = Ok (store h name (CInt z)).
Proof. intros E S. unfold setattr. now rewrite E, S. Qed.

Lemma setattr_array `{HostLibs} (h : ImageHeader) (name : string) (k : ckind)
  (n : nat) (v : pyval) (l : list Z) :
  dict_get String.eqb _fields_ name = Some (Array k n) ->
  array_set k n v = Ok l ->
  setattr h name v = Ok (store h name (CArr l)).
Proof. intros E S. unfold setattr. now rewrite E, S. Qed.

Lemma array_set_carray `{HostLibs} (k : ckind) (n : nat) (l : list Z) :
  Nat.eqb (length l) n = true -> array_set k n (PyCArray k l) = Ok l.
Proof. intros E. simpl. rewrite E. now destruct k. Qed.

Ltac step_setattr :=
  first
    [ erewrite setattr_simple by reflexivity
    | erewrite setattr_array
        by (reflexivity || (apply array_set_carray; assumption)) ];
  cbn [bind].

Lemma from_acquisition_header `{HostLibs} (a : Acquisition)
  (kwargs : list (string * pyval)) :
  wf_acquisition a = true ->
  bind_keywords ["acquisition"] kwargs = Ok tt ->
  from_acquisition a kwargs = setattrs (acquisition_header a) kwargs.
Proof.
  intros W B. unfold wf_acquisition in W.
  repeat (apply andb_true_iff in W as [W ?]).
  unfold from_acquisition, acquisition_fields. rewrite B. cbn [bind].
  cbn [map setattrs]. repeat step_setattr. reflexivity.
Qed.

Lemma setattrs_image_data `{HostLibs} (a : Acquisition) (k c x y z : Z) :
  setattrs (acquisition_header a)
    [ ("data_type", PyInt k); ("channels", PyInt c);
      ("matrix_size", PyTuple [PyInt x; PyInt y; PyInt z]) ]
  = Ok (image_header a (k mod 2 ^ 16) (c mod 2 ^ 16)
          [x mod 2 ^ 16; y mod 2 ^ 16; z mod 2 ^ 16]).
Proof. cbn [setattrs]. repeat step_setattr. reflexivity. Qed.

Lemma codec_inverse_dtype (d : dtype) (k : Z) :
  get_data_type_from_dtype d = Ok k ->
  get_dtype_from_data_type k = Ok d /\ k mod 2 ^ 16 = k.
Proof.
  destruct d; intros E; try discriminate E; injection E as <-;
    split; reflexivity.
Qed.

Lemma dtype_eqb_refl (d : dtype) : dtype_eqb d d = true.
Proof. now destruct d. Qed.

Lemma from_array_eval `{HostLibs} {M : Memory} (array : ndarray)
  (acq : Acquisition) (kwargs : list (string * pyval))
  (k nch a b c c' x y z : Z) :
  wf_acquisition acq = true ->
  get_data_type_from_dtype (dtype_of array) = Ok k ->
  Image.with_defaults (rev (shape array)) = Ok (nch, (a, b, c)) ->
  bind_keywords ["array"; "acquisition"] kwargs = Ok tt ->
  dict_update String.eqb
    [ ("data_type", PyInt k); ("channels", PyInt nch);
      ("matrix_size", PyTuple [PyInt a; PyInt b; PyInt c]) ] kwargs
  = [ ("data_type", PyInt k); ("channels", PyInt c');
      ("matrix_size", PyTuple [PyInt x; PyInt y; PyInt z]) ] ->
  Image.from_array array acq kwargs
  = let h := image_header acq k (c' mod 2 ^ 16)
               [x mod 2 ^ 16; y mod 2 ^ 16; z mod 2 ^ 16] in
    match empty_error (declared_shape h) (dtype_of array) with
    | Some e => Raise e
    | None =>
      match broadcast (align 4 (shape array)) (declared_shape h) (flat array) with
      | Some xs =>
        Ok {| __head := h;
              __data := {| dtype_of := dtype_of array; shape := declared_shape h;
                           flat := xs |};
              __attribute_string := "" |}
      | None => Raise ValueError
      end
    end.
Proof.
  intros W Hk Hd Hb Hu.
  destruct (codec_inverse_dtype _ _ Hk) as [Hinv Hmod].
  unfold Image.from_array, Image.shape_to_header_format.
  rewrite Hb. cbn [bind].
  rewrite Hd. cbn [bind fst snd]. rewrite Hk. cbn [bind]. rewrite Hu.
  rewrite from_acquisition_header by (assumption || reflexivity).
  rewrite setattrs_image_data, Hmod. cbn [bind].
  unfold Image_init, from_buffer_copy, np_empty.
  change (data_type (image_header acq k (c' mod 2 ^ 16)
                       [x mod 2 ^ 16; y mod 2 ^ 16; z mod 2 ^ 16])) with k.
  rewrite Hinv. cbn [bind fst snd]. cbv zeta.
  destruct (empty_error _ _); cbn [bind fst snd]; [reflexivity |].
  change (attribute_string_len (image_header acq k (c' mod 2 ^ 16)
                       [x mod 2 ^ 16; y mod 2 ^ 16; z mod 2 ^ 16])) with 0.
  cbn [String.length Z.of_nat Z.eqb bind].
  unfold assign_all, astype, data.
  cbn [__data __head __attribute_string dtype_of shape flat].
  rewrite dtype_eqb_refl.
  cbn [length].
  destruct (broadcast _ _ _); reflexivity.
Qed.

Lemma concat_blocks {A : Type} (c n : nat) (xs : list A) :
  length xs = (c * n)%nat -> concat (blocks c n xs) = xs.
Proof.
  revert xs. induction c as [| c IH]; intros xs L; simpl in *.
  - now destruct xs.
  - rewrite IH; [apply firstn_skipn |]. rewrite length_skipn. lia.
Qed.

Lemma blocks_lengths {A : Type} (c n : nat) (xs : list A) :
  length xs = (c * n)%nat -> Forall (fun b => length b = n) (blocks c n xs).
Proof.
  revert xs. induction c as [| c IH]; intros xs L; simpl in *; constructor.
  - rewrite length_firstn. lia.
  - apply IH. rewrite length_skipn. lia.
Qed.

Lemma sequence_map_same {A : Type} (f : list A -> option (list A))
  (l : list (list A)) :
  Forall (fun b => f b = Some b) l -> sequence (map f l) = Some l.
Proof.
  induction 1 as [| b l Hb _ IH]; simpl; [reflexivity |].
  now rewrite Hb, IH.
Qed.

Lemma size_of_shape_nonneg (s : list Z) :
  forallb (fun d => 0 <=? d) s = true -> 0 <= size_of_shape s.
Proof.
  unfold size_of_shape.
  induction s as [| d s IH]; simpl; intros Hs; [lia |].
  apply andb_true_iff in Hs as [Hd Hs]. apply Z.leb_le in Hd.
  apply Z.mul_nonneg_nonneg; auto.
Qed.

Lemma broadcastable_same (s : list Z) : broadcastable s s = true.
Proof.
  induction s as [| d s IH]; cbn [broadcastable]; [reflexivity |].
  now rewrite Z.eqb_refl, IH.
Qed.

Lemma broadcast_values_same (s : list Z) (xs : list Z) :
  forallb (fun d => 0 <=? d) s = true ->
  length xs = Z.to_nat (size_of_shape s) ->
  broadcast_values s s xs = Some xs.
Proof.
  revert xs. induction s as [| d s IH]; intros xs Hs L; simpl in *;
    [reflexivity |].
  apply andb_true_iff in Hs as [Hd Hs]. apply Z.leb_le in Hd.
  pose proof (size_of_shape_nonneg s Hs) as Hp.
  rewrite Z.eqb_refl.
  change (fold_right Z.mul 1 s) with (size_of_shape s) in *.
  rewrite Z2Nat.inj_mul in L by assumption.
  rewrite sequence_map_same.
  - now rewrite concat_blocks.
  - eapply Forall_impl; [| apply blocks_lengths; exact L].
    intros b Hb. now apply IH.
Qed.

(** The shapes are compared dimension by dimension even when the arrays hold
    no element: an empty array of shape (1, 1, 0, 2) does not broadcast to
    the shape (1, 1, 0, 3). *)
Example broadcast_compares_empty_shapes :
  broadcast [1; 1; 0; 2] [1; 1; 0; 3] [] = None
  /\ broadcast [1; 1; 0; 2] [1; 1; 0; 2] [] = Some [].
Proof. split; reflexivity. Qed.

(** An array broadcast to its own shape is itself. *)
Lemma broadcast_same (s : list Z) (xs : list Z) :
  forallb (fun d => 0 <=? d) s = true ->
  length xs = Z.to_nat (size_of_shape s) ->
  broadcast s s xs = Some xs.
Proof.
  intros Hs L. unfold broadcast.
  rewrite broadcastable_same. now apply broadcast_values_same.
Qed.

Lemma declared_shape_image_header (a : Acquisition) (k c x y z : Z) :
  declared_shape (image_header a k c [x; y; z]) = [c; z; y; x].
Proof. reflexivity. Qed.

Lemma supported_dtype_code (d : dtype) :
  In d dtypes -> exists k, get_data_type_from_dtype d = Ok k.
Proof.
  intros Hin. simpl in Hin.
  repeat (destruct Hin as [<- | Hin]; [eexists; reflexivity |]).
  contradiction.
Qed.

Ltac dims_in_range :=
  repeat match goal with
  | Hr : _ && _ = true |- _ => apply andb_true_iff in Hr as [? ?]
  | Hr : (_ <=? _) = true |- _ => apply Z.leb_le in Hr
  | Hr : (_ <? _) = true |- _ => apply Z.ltb_lt in Hr
  end.

Lemma strip_ones_short (r : nat) (s : list Z) :
  (length s <= r)%nat -> strip_ones r s = s.
Proof.
  intros L. destruct s as [| d s]; [reflexivity |]. simpl.
  destruct (Nat.ltb_spec r (S (length s))); [simpl in L; lia | reflexivity].
Qed.

Lemma align_short (r : nat) (s : list Z) :
  (length s <= r)%nat -> align r s = repeat 1 (r - length s) ++ s.
Proof. intros L. unfold align. now rewrite strip_ones_short. Qed.

Lemma forallb_pad (p : Z -> bool) (n : nat) (s : list Z) :
  p 1 = true -> forallb p (repeat 1 n ++ s) = forallb p s.
Proof. intros H1. induction n as [| n IH]; simpl; [reflexivity |]. now rewrite H1. Qed.

Lemma size_of_shape_pad (n : nat) (s : list Z) :
  size_of_shape (repeat 1 n ++ s) = size_of_shape s.
Proof.
  unfold size_of_shape. induction n as [| n IH]; simpl; [reflexivity |].
  rewrite IH. now destruct (fold_right Z.mul 1 s).
Qed.

(** The counts that [shape_to_header_format] derives are the shape with
    dimensions of extent 1 in front. *)
Lemma with_defaults_padded (s : list Z) :
  (length s <= 4)%nat ->
  exists nch a b c,
    Image.with_defaults (rev s) = Ok (nch, (a, b, c))
    /\ [nch; c; b; a] = repeat 1 (4 - length s) ++ s.
Proof.
  intros L.
  destruct s as [| d1 [| d2 [| d3 [| d4 [| d5 s]]]]]; simpl in L; try lia;
    do 4 eexists; split; reflexivity.
Qed.

(** C2, as the code has it: for an array of a supported dtype with at most
    four dimensions, each below 2^16, [from_array] builds a record whose
    buffer has the shape of the array with dimensions of extent 1 put in front
    up to four, the same elements in the same order and the same dtype, and
    whose header holds the code of that dtype and counts that agree with the
    buffer. *)
Theorem from_array_spec `{HostLibs} (array : ndarray) (acq : Acquisition) :
  wf_acquisition acq = true ->
  In (dtype_of array) dtypes ->
  (length (shape array) <= 4)%nat ->
  forallb (fun d => (0 <=? d) && (d <? 2 ^ 16)) (shape array) = true ->
  length (flat array) = Z.to_nat (size_of_shape (shape array)) ->
  exists image,
    Image.from_array array acq [] = Ok image
    /\ shape (data image) = repeat 1 (4 - length (shape array)) ++ shape array
    /\ flat (data image) = flat array
    /\ dtype_of (data image) = dtype_of array
    /\ get_data_type_from_dtype (dtype_of array) = Ok (data_type (getHead image))
    /\ declared_shape (getHead image) = shape (data image).
Proof.
  intros W Hin Hn Hr L.
  destruct (supported_dtype_code _ Hin) as [k Hk].
  destruct (with_defaults_padded _ Hn) as (nch & a & b & c & Hwd & Hpad).
  erewrite from_array_eval;
    [| exact W | exact Hk | exact Hwd | reflexivity | reflexivity].
  cbv zeta. cbn [empty_error ample]. rewrite declared_shape_image_header.
  assert (Hr' : forallb (fun d => (0 <=? d) && (d <? 2 ^ 16)) [nch; c; b; a] = true).
  { rewrite Hpad, forallb_pad; [exact Hr | reflexivity]. }
  cbn [forallb] in Hr'. dims_in_range.
  rewrite !Z.mod_small by lia. rewrite Hpad.
  rewrite align_short by exact Hn.
  rewrite broadcast_same.
  - eexists. split; [reflexivity |].
    unfold data, getHead. cbn [__head __data shape flat dtype_of].
    split; [reflexivity |]. split; [reflexivity |]. split; [reflexivity |].
    split; [exact Hk |]. rewrite declared_shape_image_header. exact Hpad.
  - rewrite forallb_pad by reflexivity.
    revert Hr. apply forallb_weaken. intros x Hx.
    now apply andb_true_iff in Hx as [Hx _].
  - now rewrite size_of_shape_pad.
Qed.

Lemma from_array_spec_witness :
  exists image,
    Image.from_array (H := plain_host) matrix_2x3 zero_acquisition [] = Ok image
    /\ shape (data image) = repeat 1 (4 - length (shape matrix_2x3)) ++ shape matrix_2x3
    /\ flat (data image) = flat matrix_2x3
    /\ dtype_of (data image) = dtype_of matrix_2x3
    /\ get_data_type_from_dtype (dtype_of matrix_2x3) = Ok (data_type (getHead image))
    /\ declared_shape (getHead image) = shape (data image).
Proof.
  apply (from_array_spec (H := plain_host) matrix_2x3 zero_acquisition).
  - reflexivity.
  - simpl. tauto.
  - simpl. lia.
  - reflexivity.
  - reflexivity.
Defined.

(** C2 as stated fails: the buffer of the record built from a 2 x 3 array has
    four dimensions; an array of five dimensions is refused, and so is one
    with a dimension that does not fit the 16 bits of a count field. *)
Lemma from_array_pads_the_shape :
  (exists image,
     Image.from_array (H := plain_host) matrix_2x3 zero_acquisition [] = Ok image
     /\ shape (data image) = [1; 1; 2; 3]
     /\ shape (data image) <> shape matrix_2x3)
  /\ Image.from_array (H := plain_host) five_dims zero_acquisition []
     = Raise TypeError
  /\ Image.from_array (H := plain_host) long_row zero_acquisition []
     = Raise ValueError.
Proof.
  split; [| split]; [| vm_compute; reflexivity ..].
  eexists. split; [vm_compute; reflexivity |].
  split; [reflexivity | discriminate].
Qed.

(** C8, as the code has it, on any host: a keyword for [channels] or
    [matrix_size] takes the place of the value derived from the array.  The
    header holds the keyword value, reduced to 16 bits, beside the derived
    values that no keyword replaces, and the buffer is allocated with the
    shape that header declares.  The call raises what [np.empty] raises when
    the host cannot allocate that buffer, and [ValueError] when the array,
    its shape padded to four dimensions, does not broadcast to that shape;
    otherwise it returns the record of that header whose buffer holds the
    array broadcast to the declared shape. *)
Theorem from_array_shape_override `{HostLibs} {M : Memory} (array : ndarray)
  (acq : Acquisition) (c x y z : Z) :
  wf_acquisition acq = true ->
  In (dtype_of array) dtypes ->
  (length (shape array) <= 4)%nat ->
  exists k nch a b c0,
    get_data_type_from_dtype (dtype_of array) = Ok k
    /\ [nch; c0; b; a] = repeat 1 (4 - length (shape array)) ++ shape array
    /\ Image.from_array array acq [("channels", PyInt c)]
       = (let h := image_header acq k (c mod 2 ^ 16)
                     [a mod 2 ^ 16; b mod 2 ^ 16; c0 mod 2 ^ 16] in
          match empty_error (declared_shape h) (dtype_of array) with
          | Some e => Raise e
          | None =>
            match broadcast [nch; c0; b; a] (declared_shape h) (flat array) with
            | Some xs =>
              Ok {| __head := h;
                    __data := {| dtype_of := dtype_of array;
                                 shape := declared_shape h; flat := xs |};
                    __attribute_string := "" |}
            | None => Raise ValueError
            end
          end)
    /\ Image.from_array array acq
         [("matrix_size", PyTuple [PyInt x; PyInt y; PyInt z])]
       = (let h := image_header acq k (nch mod 2 ^ 16)
                     [x mod 2 ^ 16; y mod 2 ^ 16; z mod 2 ^ 16] in
          match empty_error (declared_shape h) (dtype_of array) with
          | Some e => Raise e
          | None =>
            match broadcast [nch; c0; b; a] (declared_shape h) (flat array) with
            | Some xs =>
              Ok {| __head := h;
                    __data := {| dtype_of := dtype_of array;
                                 shape := declared_shape h; flat := xs |};
                    __attribute_string := "" |}
            | None => Raise ValueError
            end
          end).
Proof.
  intros W Hin Hn.
  destruct (supported_dtype_code _ Hin) as [k Hk].
  destruct (with_defaults_padded _ Hn) as (nch & a & b & c0 & Hwd & Hpad).
  exists k, nch, a, b, c0.
  split; [exact Hk |]. split; [exact Hpad |].
  rewrite Hpad, <- (align_short 4) by exact Hn.
  split;
    (erewrite from_array_eval;
       [reflexivity | exact W | exact Hk | exact Hwd | reflexivity | reflexivity]).
Qed.

Lemma from_array_shape_override_witness :
  exists k nch a b c0,
    get_data_type_from_dtype (dtype_of single_9) = Ok k
    /\ [nch; c0; b; a] = repeat 1 (4 - length (shape single_9)) ++ shape single_9
    /\ Image.from_array (H := plain_host) single_9 zero_acquisition
         [("channels", PyInt 5)]
       = (let h := image_header zero_acquisition k (5 mod 2 ^ 16)
                     [a mod 2 ^ 16; b mod 2 ^ 16; c0 mod 2 ^ 16] in
          match empty_error (declared_shape h) (dtype_of single_9) with
          | Some e => Raise e
          | None =>
            match broadcast [nch; c0; b; a] (declared_shape h) (flat single_9) with
            | Some xs =>
              Ok {| __head := h;
                    __data := {| dtype_of := dtype_of single_9;
                                 shape := declared_shape h; flat := xs |};
                    __attribute_string := "" |}
            | None => Raise ValueError
            end
          end)
    /\ Image.from_array (H := plain_host) single_9 zero_acquisition
         [("matrix_size", PyTuple [PyInt 1; PyInt 2; PyInt 3])]
       = (let h := image_header zero_acquisition k (nch mod 2 ^ 16)
                     [1 mod 2 ^ 16; 2 mod 2 ^ 16; 3 mod 2 ^ 16] in
          match empty_error (declared_shape h) (dtype_of single_9) with
          | Some e => Raise e
          | None =>
            match broadcast [nch; c0; b; a] (declared_shape h) (flat single_9) with
            | Some xs =>
              Ok {| __head := h;
                    __data := {| dtype_of := dtype_of single_9;
                                 shape := declared_shape h; flat := xs |};
                    __attribute_string := "" |}
            | None => Raise ValueError
            end
          end).
Proof.
  apply (from_array_shape_override (H := plain_host) single_9 zero_acquisition 5 1 2 3).
  - reflexivity.
  - simpl. tauto.
  - simpl. lia.
Defined.

(** C8 as stated fails: the keyword is applied and nothing is raised. *)
Lemma from_array_accepts_channels_override :
  raises (Image.from_array (H := plain_host) single_9 zero_acquisition
            [("channels", PyInt 5)]) = false
  /\ exists image,
       Image.from_array (H := plain_host) single_9 zero_acquisition
         [("channels", PyInt 5)] = Ok image
       /\ channels (getHead image) = 5
       /\ data image
          = {| dtype_of := uint16; shape := [5; 1; 1; 1];
               flat := [9; 9; 9; 9; 9] |}.
Proof.
  split; [vm_compute; reflexivity |].
  eexists. split; [vm_compute; reflexivity |]. split; reflexivity.
Qed.

(** ** The byte stream: what is written is read back *)

Import ByteStream.

Lemma read_app (n : nat) (bs rest : list byte) :
  length bs = n -> read n (bs ++ rest) = Ok (bs, rest).
Proof.
  intros <-. unfold read. rewrite length_app.
  destruct (Nat.ltb_spec (length bs + length rest) (length bs)); [lia |].
  rewrite firstn_app, firstn_all, Nat.sub_diag, firstn_O, app_nil_r.
  rewrite skipn_app, skipn_all, Nat.sub_diag. reflexivity.
Qed.

Lemma blocks_flat_map {A B : Type} (f : A -> list B) (m : nat) (l : list A) :
  (forall x, length (f x) = m) ->
  blocks (length l) m (flat_map f l) = map f l.
Proof.
  intros Hf. induction l as [| x l IH]; simpl; [reflexivity |].
  rewrite firstn_app, skipn_app, Hf, Nat.sub_diag.
  rewrite <- (Hf x) at 1 3. rewrite firstn_all, skipn_all. simpl.
  now rewrite app_nil_r, IH.
Qed.

Lemma length_flat_map_const {A B : Type} (f : A -> list B) (m : nat) (l : list A) :
  (forall x, length (f x) = m) -> length (flat_map f l) = (length l * m)%nat.
Proof.
  intros Hf. induction l as [| x l IH]; simpl; [reflexivity |].
  now rewrite length_app, Hf, IH.
Qed.

Lemma decode_encode_cell (k : ckind) (z : Z) :
  cell_ok k z = true -> decode_cell k (encode_cell k z) = z.
Proof.
  unfold cell_ok, decode_cell, encode_cell. intros Hz.
  destruct k; rewrite le_combine_split;
    apply andb_true_iff in Hz as [Hlo Hhi];
    apply Z.leb_le in Hlo; apply Z.ltb_lt in Hhi;
    try (apply Z.mod_small; simpl sizeof in *;
         rewrite Z.mul_comm; split; assumption).
  simpl sizeof. change (2 ^ (Z.of_nat 4 * 8)) with (2 ^ 32).
  change (2 ^ 31) with 2147483648 in *. change (2 ^ 32) with 4294967296.
  Z.div_mod_to_equations. lia.
Qed.

Lemma length_encode_cell (k : ckind) (z : Z) : length (encode_cell k z) = sizeof k.
Proof. apply length_le_split. Qed.

Lemma read_field_encode (t : ctype) (c : cdata) (rest : list byte) :
  field_ok t (Some c) = true ->
  read_field t (encode_field t (Some c) ++ rest) = Ok (c, rest).
Proof.
  destruct t as [k | k n], c as [z | l]; simpl; try discriminate; intros Hc.
  - unfold rbind. rewrite read_app by apply length_encode_cell.
    unfold ret. now rewrite decode_encode_cell.
  - apply andb_true_iff in Hc as [Hn Hl]. apply Nat.eqb_eq in Hn. subst n.
    unfold rbind.
    rewrite read_app
      by (apply length_flat_map_const; intros; apply length_encode_cell).
    unfold ret. rewrite blocks_flat_map by (intros; apply length_encode_cell).
    rewrite map_map. do 3 f_equal.
    induction l as [| x l IH]; simpl in *; [reflexivity |].
    apply andb_true_iff in Hl as [Hx Hl].
    now rewrite decode_encode_cell, IH.
Qed.

Lemma length_list_byte_of_string (s : string) :
  length (list_byte_of_string s) = String.length s.
Proof.
  unfold list_byte_of_string. rewrite length_map.
  induction s as [| a s IH]; simpl; [reflexivity | now rewrite IH].
Qed.

Lemma combine_split_all (n : nat) (l : list Z) :
  forallb (fun x => (0 <=? x) && (x <? 2 ^ (8 * Z.of_nat n))) l = true ->
  map le_combine (map (le_split n) l) = l.
Proof.
  induction l as [| x l IH]; cbn [forallb map]; intros Hl; [reflexivity |].
  apply andb_true_iff in Hl as [Hx Hl]. rewrite IH by assumption. f_equal.
  rewrite le_combine_split. apply Z.mod_small.
  apply andb_true_iff in Hx as [Hlo Hhi].
  apply Z.leb_le in Hlo. apply Z.ltb_lt in Hhi.
  rewrite (Z.mul_comm (Z.of_nat n) 8). split; assumption.
Qed.

Lemma read_header_encode (fields : list (string * ctype)) (h : cells)
  (rest : list byte) :
  wf_cells fields h = true ->
  read_header fields (header_bytes fields h ++ rest) = Ok (h, rest).
Proof.
  unfold wf_cells, header_bytes. intros W.
  apply andb_true_iff in W as [L W]. apply Nat.eqb_eq in L.
  revert h L W. induction fields as [| [name t] fields IH];
    intros [| c h] L W; try discriminate L; [reflexivity |].
  cbn [combine flat_map forallb fst snd read_header] in *.
  apply andb_true_iff in W as [Wc W]. injection L as L.
  unfold rbind at 1. rewrite <- app_assoc, read_field_encode by exact Wc.
  unfold rbind at 1. rewrite IH by assumption. reflexivity.
Qed.

Lemma read_array_tobytes (a : ndarray) (rest : list byte) :
  wf_ndarray a = true ->
  read_array (dtype_of a) (shape a) (tobytes a ++ rest) = Ok (a, rest).
Proof.
  intros W. unfold wf_ndarray in W.
  apply andb_true_iff in W as [W Wx]. apply andb_true_iff in W as [_ Wn].
  apply Nat.eqb_eq in Wn. destruct a as [d s f].
  cbn [dtype_of shape flat] in *. unfold read_array, tobytes.
  cbn [dtype_of shape flat]. unfold rbind. rewrite <- Wn.
  rewrite read_app
    by (apply length_flat_map_const; intros; apply length_le_split).
  unfold ret. rewrite blocks_flat_map by (intros; apply length_le_split).
  now rewrite combine_split_all by exact Wx.
Qed.

(** The bytes of a valid record of any variant, whatever follows them, are
    read back as that record. *)
Lemma roundtrip (V : variant) (R : record) (rest : list byte) :
  valid_record V R ->
  deserialize_from V (to_bytes V R ++ rest) = Ok (R, rest).
Proof.
  intros (Wh & Wt & Wa & Hd & Hs & Hl).
  destruct R as [h t a s]. cbn [record_head record_traj record_data record_string] in *.
  unfold to_bytes, serialize_into, deserialize_from.
  cbn [record_head record_traj record_data record_string app].
  unfold rbind at 1.
  destruct (trajectory_shape V h) as [st |] eqn:Et, t as [t |]; try contradiction.
  - destruct Wt as (Td & Ts & Wt).
    rewrite <- !app_assoc, read_header_encode by exact Wh.
    unfold rbind at 1. unfold lift. rewrite Hd.
    rewrite Et. unfold rbind at 1. unfold rbind at 1.
    rewrite <- Td, <- Ts, read_array_tobytes by exact Wt.
    unfold ret at 1. unfold rbind at 1.
    rewrite <- Hs, read_array_tobytes by exact Wa.
    unfold rbind at 1.
    rewrite read_app by (rewrite length_list_byte_of_string; lia).
    unfold ret. now rewrite string_of_list_byte_of_string.
  - rewrite <- !app_assoc, read_header_encode by exact Wh.
    unfold rbind at 1. unfold lift. rewrite Hd.
    rewrite Et. unfold rbind at 1. unfold ret at 1. unfold rbind at 1.
    rewrite <- Hs, read_array_tobytes by exact Wa.
    unfold rbind at 1.
    rewrite read_app by (rewrite length_list_byte_of_string; lia).
    unfold ret. now rewrite string_of_list_byte_of_string.
Qed.

Lemma header_of_cells_header_cells (h : ImageHeader) :
  header_of_cells (header_cells h) = h.
Proof. destruct h. reflexivity. Qed.

Lemma wf_cells_header_cells (h : ImageHeader) :
  wf_header h = true -> wf_cells _fields_ (header_cells h) = true.
Proof. destruct h. intros W. exact W. Qed.

Lemma valid_record_of_image (self : Image) :
  valid_image self -> valid_record Image_variant (record_of_image self).
Proof.
  intros (Wh & Wa & Hd & Hs & Hl). unfold valid_record, record_of_image.
  cbn [record_head record_traj record_data record_string Image_variant
       header_fields trajectory_shape data_dtype data_shape string_len].
  rewrite header_of_cells_header_cells.
  split; [now apply wf_cells_header_cells |]. repeat split; assumption.
Qed.

Lemma image_of_record_of_image (self : Image) :
  image_of_record (record_of_image self) = self.
Proof.
  destruct self as [h a s]. unfold image_of_record, record_of_image.
  cbn [record_head record_data record_string __head __data __attribute_string].
  now rewrite header_of_cells_header_cells.
Qed.

(** C1: the bytes of a valid record, whatever follows them, are read back as
    that record, header field for field, buffers and attribute string: for
    an acquisition, trajectory included, and for an image. *)
Theorem serialize_deserialize_roundtrip :
  (forall (acq : record) (rest : list byte),
     valid_record Acquisition_variant acq ->
     deserialize_from Acquisition_variant (to_bytes Acquisition_variant acq ++ rest)
     = Ok (acq, rest)
     /\ from_bytes Acquisition_variant (to_bytes Acquisition_variant acq) = Ok acq)
  /\ (forall (self : Image) (rest : list byte),
        valid_image self ->
        Image_deserialize_from (Image_to_bytes self ++ rest) = Ok (self, rest)
        /\ Image_from_bytes (Image_to_bytes self) = Ok self).
Proof.
  split.
  - intros acq rest V. split; [now apply roundtrip |].
    unfold from_bytes.
    rewrite <- (app_nil_r (to_bytes Acquisition_variant acq)).
    now rewrite roundtrip.
  - intros self rest V.
    assert (R : forall rest,
              Image_deserialize_from (Image_to_bytes self ++ rest) = Ok (self, rest)).
    { intros rest'. unfold Image_deserialize_from, Image_to_bytes, Image_serialize_into.
      unfold rbind. fold (to_bytes Image_variant (record_of_image self)).
      rewrite roundtrip by now apply valid_record_of_image.
      unfold ret. now rewrite image_of_record_of_image. }
    split; [apply R |].
    unfold Image_from_bytes. rewrite <- (app_nil_r (Image_to_bytes self)).
    now rewrite R.
Qed.

Lemma serialize_deserialize_roundtrip_witness :
  (deserialize_from Acquisition_variant
     (to_bytes Acquisition_variant sample_acquisition ++ [])
   = Ok (sample_acquisition, [])
   /\ from_bytes Acquisition_variant (to_bytes Acquisition_variant sample_acquisition)
      = Ok sample_acquisition)
  /\ (Image_deserialize_from (Image_to_bytes unit_image ++ []) = Ok (unit_image, [])
      /\ Image_from_bytes (Image_to_bytes unit_image) = Ok unit_image).
Proof.
  destruct serialize_deserialize_roundtrip as [HA HI]. split.
  - apply (HA sample_acquisition []).
    repeat split; vm_compute; reflexivity.
  - apply (HI unit_image []).
    repeat split; vm_compute; reflexivity.
Defined.

(** The scenario of the spec: nothing to read. *)
Example from_bytes_empty :
  from_bytes Acquisition_variant [] = Raise ValueError
  /\ Image_from_bytes [] = Raise ValueError.
Proof. split; reflexivity. Qed.

(** An acquisition header takes 340 bytes on the wire, an image header
    198. *)
Example length_header_bytes :
  length (header_bytes AcquisitionHeader_fields (zero_cells AcquisitionHeader_fields))
  = 340%nat
  /\ length (header_bytes _fields_ (header_cells ImageHeader_new)) = sizeof_ImageHeader
  /\ sizeof_ImageHeader = 198%nat.
Proof. split; [| split]; reflexivity. Qed.

(** * Further properties *)

(** ** Flags, beyond the numbers 1 to 64 and in combination *)

(** X14, on any host: a flag number of 0 or less makes each of the three flag
    methods raise [ValueError] (a negative shift count).  A number above 64
    names no bit of the field: when the host can compute the shift,
    [isFlagSet] answers [False] and [setFlag] and [clearFlag] leave the
    header as it is; when it cannot (the number is too large), each of the
    three raises what the shift raises. *)
Theorem flags_out_of_range {M : Memory} (h : ImageHeader) (n : Z) :
  0 <= flags h < 2 ^ 64 ->
  (n <= 0 ->
     isFlagSet h n = Raise ValueError
     /\ setFlag h n = Raise ValueError
     /\ clearFlag h n = Raise ValueError)
  /\ (64 < n -> shift_error (n - 1) = None ->
     isFlagSet h n = Ok false /\ setFlag h n = Ok h /\ clearFlag h n = Ok h)
  /\ (64 < n -> forall e, shift_error (n - 1) = Some e ->
     isFlagSet h n = Raise e /\ setFlag h n = Raise e /\ clearFlag h n = Raise e).
Proof.
  intros Hf. split; [| split].
  - intros Hn. unfold clearFlag, isFlagSet, setFlag, lshift.
    destruct (Z.ltb_spec (n - 1) 0); [| lia]. repeat split.
  - intros Hn Hm.
    assert (Hb : flags_of h n = false).
    { unfold flags_of. apply testbit_high; [assumption | lia]. }
    assert (Hs : isFlagSet h n = Ok false).
    { rewrite isFlagSet_spec by served. now rewrite Hb. }
    split; [exact Hs |]. split.
    + unfold setFlag, assign_flags. rewrite lshift_one by served. cbn [bind].
      assert (E : Z.lor (flags h) (2 ^ (n - 1)) mod 2 ^ 64 = flags h).
      { apply Z.bits_inj'. intros i Hi.
        rewrite Z.testbit_mod_pow2, Z.lor_spec by lia.
        destruct (Z.ltb_spec i 64); simpl.
        - rewrite Z.pow2_bits_false by lia. apply orb_false_r.
        - symmetry. apply testbit_high; assumption. }
      now rewrite E, upd_flags_same.
    + unfold clearFlag. rewrite Hs. reflexivity.
  - intros Hn e Hm. unfold clearFlag, isFlagSet, setFlag, lshift.
    destruct (Z.ltb_spec (n - 1) 0); [lia |]. cbn [Z.eqb]. rewrite Hm.
    repeat split.
Qed.

Lemma flags_out_of_range_witness :
  isFlagSet ImageHeader_new 65 = Ok false
  /\ setFlag ImageHeader_new 65 = Ok ImageHeader_new
  /\ clearFlag ImageHeader_new 65 = Ok ImageHeader_new.
Proof.
  destruct (flags_out_of_range (M := ample) ImageHeader_new 65) as (_ & H & _).
  - simpl. lia.
  - apply H; [lia | reflexivity].
Defined.

Lemma lor_ldiff_pow2 (f k : Z) :
  0 <= k -> Z.testbit f k = false -> Z.ldiff (Z.lor f (2 ^ k)) (2 ^ k) = f.
Proof.
  intros Hk Hb. apply Z.bits_inj'. intros i Hi.
  rewrite Z.ldiff_spec, Z.lor_spec, Z.pow2_bits_eqb by assumption.
  destruct (Z.eqb_spec k i) as [<- | _]; simpl.
  - now rewrite Hb.
  - now rewrite orb_false_r, andb_true_r.
Qed.

Lemma ldiff_lor_pow2 (f k : Z) :
  0 <= k -> Z.testbit f k = true -> Z.lor (Z.ldiff f (2 ^ k)) (2 ^ k) = f.
Proof.
  intros Hk Hb. apply Z.bits_inj'. intros i Hi.
  rewrite Z.lor_spec, Z.ldiff_spec, Z.pow2_bits_eqb by assumption.
  destruct (Z.eqb_spec k i) as [<- | _]; simpl.
  - now rewrite Hb.
  - now rewrite orb_false_r, andb_true_r.
Qed.

(** X15: for flag numbers from 1 to 64, [setFlag] and [clearFlag] undo each
    other on a flag that was clear, respectively set; calls for two flags
    can be made in either order; and [isFlagSet] sees the last call. *)
Theorem flags_compose (h : ImageHeader) (n m : Z) :
  0 <= flags h < 2 ^ 64 -> 1 <= n <= 64 -> 1 <= m <= 64 ->
  (isFlagSet h n = Ok false -> (h1 <- setFlag h n ;; clearFlag h1 n) = Ok h)
  /\ (isFlagSet h n = Ok true -> (h1 <- clearFlag h n ;; setFlag h1 n) = Ok h)
  /\ (h1 <- setFlag h n ;; setFlag h1 m) = (h1 <- setFlag h m ;; setFlag h1 n)
  /\ (h1 <- clearFlag h n ;; clearFlag h1 m)
     = (h1 <- clearFlag h m ;; clearFlag h1 n)
  /\ (n <> m ->
      (h1 <- setFlag h n ;; clearFlag h1 m) = (h1 <- clearFlag h m ;; setFlag h1 n))
  /\ (h1 <- setFlag h n ;; isFlagSet h1 n) = Ok true
  /\ (h1 <- clearFlag h n ;; isFlagSet h1 n) = Ok false.
Proof.
  intros Hf Hn Hm.
  assert (Rs : forall k, 1 <= k <= 64 ->
            0 <= flags (upd_flags (Z.lor (flags h) (2 ^ (k - 1))) h) < 2 ^ 64).
  { intros k Hk. rewrite flags_upd_flags. apply lor_pow2_range; lia. }
  assert (Rc : forall k,
            0 <= flags (upd_flags (Z.ldiff (flags h) (2 ^ (k - 1))) h) < 2 ^ 64).
  { intros k. rewrite flags_upd_flags. now apply ldiff_pow2_range. }
  repeat apply conj.
  - rewrite isFlagSet_spec by served. intros E. injection E as E. unfold flags_of in E.
    rewrite setFlag_spec by assumption. cbn [bind].
    rewrite clearFlag_spec by auto.
    rewrite flags_upd_flags, upd_flags_upd_flags, lor_ldiff_pow2 by (assumption || lia).
    now rewrite upd_flags_same.
  - rewrite isFlagSet_spec by served. intros E. injection E as E. unfold flags_of in E.
    rewrite clearFlag_spec by assumption. cbn [bind].
    rewrite setFlag_spec by auto.
    rewrite flags_upd_flags, upd_flags_upd_flags, ldiff_lor_pow2 by (assumption || lia).
    now rewrite upd_flags_same.
  - rewrite !setFlag_spec by assumption. cbn [bind].
    rewrite !setFlag_spec by auto.
    rewrite !flags_upd_flags, !upd_flags_upd_flags. do 2 f_equal.
    rewrite <- !Z.lor_assoc. f_equal. apply Z.lor_comm.
  - rewrite !clearFlag_spec by assumption. cbn [bind].
    rewrite !clearFlag_spec by auto.
    rewrite !flags_upd_flags, !upd_flags_upd_flags. do 2 f_equal.
    apply Z.bits_inj'. intros i Hi. rewrite !Z.ldiff_spec.
    now destruct (Z.testbit (flags h) i), (Z.testbit (2 ^ (n - 1)) i),
                 (Z.testbit (2 ^ (m - 1)) i).
  - intros Hne. rewrite setFlag_spec, clearFlag_spec by assumption. cbn [bind].
    rewrite clearFlag_spec, setFlag_spec by auto.
    rewrite !flags_upd_flags, !upd_flags_upd_flags. do 2 f_equal.
    apply Z.bits_inj'. intros i Hi.
    rewrite !Z.ldiff_spec, !Z.lor_spec, !Z.ldiff_spec.
    rewrite !Z.pow2_bits_eqb by lia.
    destruct (Z.eqb_spec (n - 1) i), (Z.eqb_spec (m - 1) i); try lia;
      now destruct (Z.testbit (flags h) i).
  - rewrite setFlag_spec by assumption. cbn [bind].
    rewrite isFlagSet_spec by served. unfold flags_of.
    rewrite flags_upd_flags, Z.lor_spec, Z.pow2_bits_true by lia.
    now rewrite orb_true_r.
  - rewrite clearFlag_spec by assumption. cbn [bind].
    rewrite isFlagSet_spec by served. unfold flags_of.
    rewrite flags_upd_flags, Z.ldiff_spec, Z.pow2_bits_true by lia.
    now rewrite andb_false_r.
Qed.

Lemma flags_compose_witness :
  (h1 <- setFlag ImageHeader_new 64 ;; setFlag h1 1)
  = (h1 <- setFlag ImageHeader_new 1 ;; setFlag h1 64)
  /\ (h1 <- setFlag ImageHeader_new 64 ;; isFlagSet h1 64) = Ok true.
Proof.
  destruct (flags_compose ImageHeader_new 64 1) as (_ & _ & H3 & _ & _ & H6 & _).
  - simpl. lia.
  - lia.
  - lia.
  - split; assumption.
Defined.

(** ** Resizing and re-typing the buffer *)

(** [np.resize] to a size that the old elements fill: the new array starts
    with the old elements. *)
Lemma np_resize_prefix {M : Memory} (a : ndarray) (s : list Z) :
  forallb (fun d => 0 <=? d) s = true ->
  resize_error (size a) (dtype_of a) s = None ->
  (Z.to_nat (size_of_shape s) <= length (flat a))%nat ->
  np_resize a s
  = Ok {| dtype_of := dtype_of a; shape := s;
          flat := firstn (Z.to_nat (size_of_shape s)) (flat a) |}.
Proof.
  intros Hs Hm Hle. unfold np_resize.
  rewrite existsb_negative, Hs, Hm. cbn [negb]. unfold size.
  set (m := Z.to_nat (size_of_shape s)) in *.
  set (n := length (flat a)) in *.
  destruct (Nat.eqb_spec n 0) as [En | En]; cbn [orb].
  - assert (m = 0%nat) by lia. replace m with 0%nat. reflexivity.
  - destruct (Nat.eqb_spec m 0) as [Em | Em].
    + rewrite Em. reflexivity.
    + do 2 f_equal.
      assert (Hr : ((m + n - 1) / n = 1)%nat).
      { symmetry. apply Nat.div_unique with (r := (m - 1)%nat); lia. }
      rewrite Hr. cbn [repeat concat]. rewrite app_nil_r. reflexivity.
Qed.



(** X2, on any host: [resize] raises [ValueError] when a dimension is
    negative; otherwise it raises what [np.resize] raises when the host
    cannot build the new buffer; and otherwise the buffer gets the new shape
    and as many elements as the shape counts, and keeps its dtype.  The
    three cases exclude each other. *)
Theorem resize_raises_iff {M : Memory} (self : Image) (nc nz ny nx : Z) :
  match resize self nc nz ny nx with
  | Ok image =>
    0 <= nc /\ 0 <= nz /\ 0 <= ny /\ 0 <= nx
    /\ resize_error (size (data self)) (dtype_of (data self)) [nc; nz; ny; nx]
       = None
    /\ shape (data image) = [nc; nz; ny; nx]
    /\ length (flat (data image)) = Z.to_nat (size_of_shape [nc; nz; ny; nx])
    /\ dtype_of (data image) = dtype_of (data self)
    /\ getHead image = getHead self
    /\ attribute_string image = attribute_string self
  | Raise e =>
    (e = ValueError /\ (nc < 0 \/ nz < 0 \/ ny < 0 \/ nx < 0))
    \/ (0 <= nc /\ 0 <= nz /\ 0 <= ny /\ 0 <= nx
        /\ resize_error (size (data self)) (dtype_of (data self)) [nc; nz; ny; nx]
           = Some e)
  end.
Proof.
  unfold resize, data, getHead, attribute_string.
  destruct (np_resize (__data self) [nc; nz; ny; nx]) as [b | e] eqn:R;
    cbn [bind __data __head __attribute_string].
  - pose proof (np_resize_shape _ _ _ R) as (Hd & Hsh & Hl).
    pose proof (np_resize_served _ _ _ R) as (Hs & Hm).
    cbn [forallb] in Hs. rewrite !andb_true_iff, !Z.leb_le in Hs.
    repeat split; tauto || assumption.
  - destruct (np_resize_raises _ _ _ R) as [[-> Hs] | [Hs Hm]].
    + left. split; [reflexivity |].
      cbn [forallb] in Hs. rewrite !andb_false_iff, !Z.leb_gt in Hs.
      destruct Hs as [? | [? | [? | [? | ?]]]]; auto. discriminate.
    + right. cbn [forallb] in Hs. rewrite !andb_true_iff, !Z.leb_le in Hs.
      repeat split; tauto || assumption.
Qed.

Lemma astype_same `{HostLibs} (a : ndarray) : astype a (dtype_of a) = a.
Proof. destruct a as [d s f]. unfold astype. cbn. now rewrite dtype_eqb_refl. Qed.

(** X4: [setDataType] raises [TypeError] exactly when the code is no
    supported one; otherwise it gives the buffer the dtype of the code and
    keeps its shape; the elements are the old ones, untouched when the
    buffer had that dtype already and converted one by one otherwise; the
    header is as it was, [data_type] field included. *)
Theorem setDataType_spec `{HostLibs} (self : Image) (val : Z) :
  match setDataType self val with
  | Ok image =>
    In val data_types
    /\ get_dtype_from_data_type val = Ok (dtype_of (data image))
    /\ shape (data image) = shape (data self)
    /\ length (flat (data image)) = length (flat (data self))
    /\ (dtype_of (data image) = dtype_of (data self) ->
        flat (data image) = flat (data self))
    /\ (dtype_of (data image) <> dtype_of (data self) ->
        flat (data image)
        = map (astype_value (dtype_of (data self)) (dtype_of (data image)))
              (flat (data self)))
    /\ getHead image = getHead self
    /\ attribute_string image = attribute_string self
  | Raise e => e = TypeError /\ ~ In val data_types
  end.
Proof.
  unfold setDataType.
  destruct (get_dtype_from_data_type val) as [d | e] eqn:E; cbn [bind].
  - apply get_dtype_from_data_type_inv in E as Hin. destruct Hin as [Hin _].
    unfold data, getHead, attribute_string, astype.
    cbn [__head __data __attribute_string dtype_of shape flat].
    split; [exact Hin |]. split; [reflexivity |]. split; [reflexivity |].
    destruct (dtype_eqb (dtype_of (__data self)) d) eqn:Ed.
    + apply dtype_eqb_eq in Ed. repeat split; congruence.
    + assert (Hne : d <> dtype_of (__data self)).
      { intros ->. now rewrite dtype_eqb_refl in Ed. }
      split; [apply length_map |]. repeat split; congruence.
  - now apply get_dtype_from_data_type_raises.
Qed.

Lemma wf_ndarray_inv (a : ndarray) :
  wf_ndarray a = true ->
  forallb (fun d => 0 <=? d) (shape a) = true
  /\ length (flat a) = Z.to_nat (size_of_shape (shape a)).
Proof.
  unfold wf_ndarray. rewrite !andb_true_iff, Nat.eqb_eq. tauto.
Qed.

(** X3: on a valid record, [setHead] of the record's own header changes
    nothing. *)
Theorem setHead_getHead `{HostLibs} (self : Image) :
  valid_image self -> setHead self (getHead self) = Ok self.
Proof.
  intros (Wh & Wa & Hd & Hs & Hl).
  apply wf_ndarray_inv in Wa as [Hn Hlen].
  rewrite setHead_unfold. unfold getHead, from_buffer_copy, setDataType.
  cbn [__head __data __attribute_string].
  rewrite Hd. cbn [bind __head __data __attribute_string].
  rewrite astype_same. unfold resize. cbn [__head __data __attribute_string].
  fold (declared_shape (__head self)). rewrite <- Hs.
  rewrite np_resize_prefix by (assumption || reflexivity || lia). cbn [bind].
  rewrite <- Hlen, firstn_all.
  destruct self as [h [d s f] str]. reflexivity.
Qed.

Lemma setHead_getHead_witness :
  setHead (H := plain_host) unit_image (getHead unit_image) = Ok unit_image.
Proof.
  apply (setHead_getHead (H := plain_host) unit_image).
  repeat split; vm_compute; reflexivity.
Defined.

Lemma wf_header_matrix_size (h : ImageHeader) :
  wf_header h = true -> length (matrix_size h) = 3%nat.
Proof.
  intros W.
  pose proof (wf_header_field h "matrix_size" (Array c_uint16 POSITION_LENGTH) W) as Hm.
  assert (Hm' : field_ok (Array c_uint16 POSITION_LENGTH)
                         (Some (CArr (matrix_size h))) = true).
  { apply Hm. unfold _fields_. simpl. tauto. }
  cbn [field_ok] in Hm'. apply andb_true_iff in Hm' as [Hm' _].
  now apply Nat.eqb_eq in Hm'.
Qed.

(** X17: on a valid record the [matrix_size] attribute of the image is the
    [matrix_size] field of its header in reverse order. *)
Theorem matrix_size_reversed (self : Image) :
  valid_image self ->
  Image.matrix_size self = rev (matrix_size (getHead self)).
Proof.
  intros (Wh & _ & _ & Hs & _).
  apply wf_header_matrix_size in Wh.
  unfold Image.matrix_size, getHead. rewrite Hs. unfold declared_shape.
  destruct (matrix_size (__head self)) as [| a [| b [| c [| ? ?]]]];
    try discriminate Wh.
  reflexivity.
Qed.

Lemma matrix_size_reversed_witness :
  Image.matrix_size unit_image = rev (matrix_size (getHead unit_image)).
Proof.
  apply (matrix_size_reversed unit_image).
  repeat split; vm_compute; reflexivity.
Defined.

(** ** The default record *)

(** X16: [Image()] with an attribute string succeeds for the empty string
    alone, and raises [ValueError] otherwise.  The record it builds has a
    complex64 buffer of shape (1, 1, 1, 0) and a header whose counts are all
    zero: the buffer and the header disagree. *)
Theorem Image_init_default `{HostLibs} (s : string) :
  match Image_init None s with
  | Ok image =>
    s = ""
    /\ data image = {| dtype_of := complex64; shape := [1; 1; 1; 0]; flat := [] |}
    /\ data_type (getHead image) = DATATYPE_CXFLOAT
    /\ declared_shape (getHead image) = [0; 0; 0; 0]
    /\ attribute_string image = ""
  | Raise e => e = ValueError /\ s <> ""
  end.
Proof.
  destruct s as [| c s].
  - cbn. repeat split.
  - cbn. split; [reflexivity | discriminate].
Qed.

(** ** Reading and writing header fields by name *)

Lemma dict_get_In {V : Type} (l : list (string * V)) (k : string) (v : V) :
  dict_get String.eqb l k = Some v -> In (k, v) l.
Proof.
  induction l as [| [k' v'] l IH]; simpl; [discriminate |].
  destruct (String.eqb_spec k' k) as [-> | _].
  - intros E. injection E as ->. now left.
  - intros E. right. now apply IH.
Qed.

Ltac store_then_load name' :=
  match goal with
  | |- context [store ?h ?n ?c] =>
    let t := eval vm_compute in (store h n c) in
    change (store h n c) with t;
    destruct (String.eqb_spec name' n) as [-> | Hne];
    [ reflexivity
    | apply String.eqb_neq in Hne; unfold load;
      cbn [version data_type flags measurement_uid matrix_size field_of_view
           channels position read_dir phase_dir slice_dir
           patient_table_position average slice contrast phase repetition set
           acquisition_time_stamp physiology_time_stamp image_type image_index
           image_series_index user_int user_float attribute_string_len];
      rewrite ?Hne; reflexivity ]
  end.

(** A field that is stored is the one that is read back, and no other field
    changes. *)
Lemma load_store (h : ImageHeader) (name name' : string) (t : ctype) (c : cdata) :
  In (name, t) _fields_ -> agrees t c = true ->
  load (store h name c) name'
  = if String.eqb name' name then Some c else load h name'.
Proof.
  intros Hin Ha. unfold _fields_ in Hin. cbn [In] in Hin.
  destruct h.
  repeat (destruct Hin as [E | Hin];
          [ injection E as <- <-; destruct c; try discriminate Ha;
            store_then_load name' | ]).
  contradiction.
Qed.

Lemma fields_dict_get (name : string) (t : ctype) :
  In (name, t) _fields_ -> dict_get String.eqb _fields_ name = Some t.
Proof.
  intros Hin. unfold _fields_ in Hin. cbn [In] in Hin.
  repeat (destruct Hin as [E | Hin]; [injection E as <- <-; reflexivity |]).
  contradiction.
Qed.

(** The scalar fields of the header are unsigned integers; the ones that are
    not read-only have an accessor. *)
Lemma simple_field_facts (name : string) (k : ckind) :
  In (name, Simple k) _fields_ ->
  (k = c_uint16 \/ k = c_uint32 \/ k = c_uint64)
  /\ (in_tuple name __readonly = false -> in_tuple name generated_fields = true).
Proof.
  intros Hin. unfold _fields_ in Hin. cbn [In] in Hin.
  repeat (destruct Hin as [E | Hin];
          [ first
              [ discriminate E
              | injection E as <- <-;
                split; [tauto | intros R; vm_compute in R |- *; congruence] ] |]).
  contradiction.
Qed.

(** The array fields other than [matrix_size] have an accessor and are not
    read-only; an array field holds an array. *)
Lemma array_field_facts (name : string) (k : ckind) (n : nat) :
  In (name, Array k n) _fields_ ->
  (forall h, exists l, load h name = Some (CArr l))
  /\ (name <> "matrix_size" ->
      in_tuple name generated_fields = true
      /\ in_tuple name __readonly = false).
Proof.
  intros Hin. unfold _fields_ in Hin. cbn [In] in Hin.
  repeat (destruct Hin as [E | Hin];
          [ first
              [ discriminate E
              | injection E as <- <- <-;
                split;
                [ intros h; eexists; reflexivity
                | intros Hne;
                  first [ contradiction Hne; reflexivity
                        | split; vm_compute; reflexivity ] ] ] |]).
  contradiction.
Qed.

Lemma simple_set_int `{HostLibs} (k : ckind) (z : Z) :
  k = c_uint16 \/ k = c_uint32 \/ k = c_uint64 ->
  simple_set k (PyInt z) = Ok (z mod 2 ^ (8 * Z.of_nat (sizeof k))).
Proof. intros [-> | [-> | ->]]; reflexivity. Qed.

Lemma simple_set_str `{HostLibs} (k : ckind) (s : string) :
  k = c_uint16 \/ k = c_uint32 \/ k = c_uint64 ->
  simple_set k (PyStr s) = Raise TypeError.
Proof. intros [-> | [-> | ->]]; reflexivity. Qed.

(** [setattr] of an integer to a scalar field of the header. *)
Lemma setattr_int `{HostLibs} (h : ImageHeader) (name : string) (k : ckind) (z : Z) :
  In (name, Simple k) _fields_ ->
  setattr h name (PyInt z)
  = Ok (store h name (CInt (z mod 2 ^ (8 * Z.of_nat (sizeof k))))).
Proof.
  intros Hin. destruct (simple_field_facts _ _ Hin) as [Hk _].
  apply (setattr_simple h name k);
    [now apply fields_dict_get | now apply simple_set_int].
Qed.

(** [setattr] of a string to a field of the header. *)
Lemma setattr_str `{HostLibs} (h : ImageHeader) (name : string) (t : ctype) (s : string) :
  In (name, t) _fields_ -> setattr h name (PyStr s) = Raise TypeError.
Proof.
  intros Hin. unfold setattr. rewrite (fields_dict_get _ _ Hin).
  destruct t as [k | k n].
  - destruct (simple_field_facts _ _ Hin) as [Hk _].
    now rewrite simple_set_str.
  - reflexivity.
Qed.

(** ** The generated accessors *)

(** X6: for a scalar field that is not read-only, assigning an integer
    through the accessor succeeds, and reading the attribute afterwards gives
    that integer reduced to the width of the field; the buffer, the attribute
    string and the other fields are as before. *)
Theorem accessor_set_get `{HostLibs} (self : Image) (name : string) (k : ckind) (z : Z) :
  In (name, Simple k) _fields_ ->
  in_tuple name __readonly = false ->
  exists image,
    Image.setattr self name (PyInt z) = Ok image
    /\ Image.getattr image name = Ok (ObjInt (z mod 2 ^ (8 * Z.of_nat (sizeof k))))
    /\ data image = data self
    /\ attribute_string image = attribute_string self
    /\ forall name', name' <> name ->
         load (getHead image) name' = load (getHead self) name'.
Proof.
  intros Hin Hr. destruct (simple_field_facts _ _ Hin) as [_ Hg].
  specialize (Hg Hr).
  unfold Image.setattr, Image.getattr, __setter, __getter.
  rewrite Hg, Hr, (setattr_int _ _ _ _ Hin). cbn [bind].
  eexists. split; [reflexivity |].
  unfold getattribute, data, attribute_string, getHead.
  cbn [__head __data __attribute_string].
  split.
  - rewrite (load_store _ _ _ _ (CInt _) Hin eq_refl), String.eqb_refl. reflexivity.
  - split; [reflexivity |]. split; [reflexivity |].
    intros name' Hne. rewrite (load_store _ _ _ _ (CInt _) Hin eq_refl).
    apply String.eqb_neq in Hne. now rewrite Hne.
Qed.

Lemma accessor_set_get_witness :
  exists image,
    Image.setattr (H := plain_host) unit_image "image_index" (PyInt 65537) = Ok image
    /\ Image.getattr image "image_index"
       = Ok (ObjInt (65537 mod 2 ^ (8 * Z.of_nat (sizeof c_uint16))))
    /\ data image = data unit_image
    /\ attribute_string image = attribute_string unit_image
    /\ forall name', name' <> "image_index" ->
         load (getHead image) name' = load (getHead unit_image) name'.
Proof.
  apply (accessor_set_get (H := plain_host) unit_image "image_index" c_uint16 65537).
  - unfold _fields_. simpl. tauto.
  - reflexivity.
Defined.

(** X7: an array field other than [matrix_size] is read as the array of the
    header itself: assigning an item of what was read changes that cell of
    the field in the record, and nothing of the buffer. *)
Theorem accessor_array_is_view `{HostLibs} (self : Image) (name : string)
  (k : ckind) (n : nat) :
  In (name, Array k n) _fields_ ->
  name <> "matrix_size" ->
  Image.getattr self name = Ok (ObjFieldView name)
  /\ forall l i v x,
       load (getHead self) name = Some (CArr l) ->
       (i < length l)%nat ->
       simple_set k v = Ok x ->
       exists image,
         Image.setitem self (ObjFieldView name) i v = Ok image
         /\ load (getHead image) name
            = Some (CArr (firstn i l ++ x :: skipn (S i) l))
         /\ data image = data self.
Proof.
  intros Hin Hne. destruct (array_field_facts _ _ _ Hin) as [Hl Hg].
  destruct (Hg Hne) as [Hgen Hro]. split.
  - unfold Image.getattr, __getter, getattribute. rewrite Hgen, Hro.
    destruct (Hl (__head self)) as [l ->]. reflexivity.
  - intros l i v x Hload Hi Hx. unfold Image.setitem, getHead in *.
    rewrite (fields_dict_get _ _ Hin), Hload.
    apply Nat.ltb_lt in Hi. rewrite Hi, Hx. cbn [bind].
    eexists. split; [reflexivity |]. cbn [__head __data].
    split; [| reflexivity].
    now rewrite (load_store _ _ _ _ (CArr _) Hin eq_refl), String.eqb_refl.
Qed.

Lemma accessor_array_is_view_witness :
  Image.getattr unit_image "user_int" = Ok (ObjFieldView "user_int").
Proof.
  apply (accessor_array_is_view (H := plain_host) unit_image "user_int"
           c_int32 USER_INTS).
  - unfold _fields_. simpl. tauto.
  - discriminate.
Defined.

(** ** The attribute string *)

Lemma wf_header_store (h : ImageHeader) (name : string) (t : ctype) (c : cdata) :
  In (name, t) _fields_ -> field_ok t (Some c) = true ->
  wf_header h = true -> wf_header (store h name c) = true.
Proof.
  intros Hin Hc W. unfold wf_header in *. rewrite forallb_forall in *.
  intros [name' t'] Hin'. cbn [fst snd].
  assert (Ha : agrees t c = true) by (destruct t, c; try discriminate Hc; reflexivity).
  rewrite (load_store _ _ _ _ _ Hin Ha).
  destruct (String.eqb_spec name' name) as [-> | _].
  - apply fields_dict_get in Hin, Hin'. rewrite Hin in Hin'.
    injection Hin' as <-. exact Hc.
  - exact (W (name', t') Hin').
Qed.

(** X5: assigning the attribute string of a valid record, to a string
    shorter than 2^32, gives a valid record that holds the string, with its
    length in [attribute_string_len]; the buffer and the other fields of the
    header are as before. *)
Theorem set_attribute_string_valid (self : Image) (val : string) :
  valid_image self ->
  Z.of_nat (String.length val) < 2 ^ 32 ->
  valid_image (set_attribute_string self val)
  /\ attribute_string (set_attribute_string self val) = val
  /\ attribute_string_len (getHead (set_attribute_string self val))
     = Z.of_nat (String.length val)
  /\ data (set_attribute_string self val) = data self
  /\ forall name, name <> "attribute_string_len" ->
       load (getHead (set_attribute_string self val)) name
       = load (getHead self) name.
Proof.
  intros (Wh & Wa & Hd & Hs & Hl) Hlen.
  assert (Hm : Z.of_nat (String.length val) mod 2 ^ 32 = Z.of_nat (String.length val))
    by (apply Z.mod_small; lia).
  assert (Hin : In ("attribute_string_len", Simple c_uint32) _fields_)
    by (unfold _fields_; simpl; tauto).
  unfold set_attribute_string, attribute_string, data, getHead.
  cbn [__head __data __attribute_string]. rewrite Hm.
  change (upd_attribute_string_len (Z.of_nat (String.length val)) (__head self))
    with (store (__head self) "attribute_string_len"
            (CInt (Z.of_nat (String.length val)))).
  assert (Hothers : forall name, name <> "attribute_string_len" ->
            load (store (__head self) "attribute_string_len"
                    (CInt (Z.of_nat (String.length val)))) name
            = load (__head self) name).
  { intros name Hne. rewrite (load_store _ _ _ _ (CInt _) Hin eq_refl).
    apply String.eqb_neq in Hne. now rewrite Hne. }
  split; [| split; [reflexivity | split; [| split; [reflexivity | exact Hothers]]]].
  - unfold valid_image. cbn [__head __data __attribute_string].
    split.
    { apply (wf_header_store _ _ _ _ Hin); [| exact Wh].
      cbn [field_ok cell_ok]. apply andb_true_iff. split.
      - apply Z.leb_le. lia.
      - apply Z.ltb_lt. exact Hlen. }
    split; [exact Wa |].
    destruct (__head self); cbn in *. repeat split; assumption || reflexivity.
  - now destruct (__head self).
Qed.

Lemma set_attribute_string_valid_witness :
  valid_image (set_attribute_string unit_image "meta")
  /\ attribute_string (set_attribute_string unit_image "meta") = "meta".
Proof.
  destruct (set_attribute_string_valid unit_image "meta") as (H1 & H2 & _).
  - repeat split; vm_compute; reflexivity.
  - vm_compute. reflexivity.
  - split; assumption.
Defined.

(** ** Building a header from an acquisition *)

Lemma in_tuple_false_cons (name x : string) (l : list string) :
  in_tuple name (x :: l) = false ->
  String.eqb name x = false /\ in_tuple name l = false.
Proof. unfold in_tuple. cbn [existsb]. apply orb_false_iff. Qed.

(** X8: with no keyword, [from_acquisition] gives the header that holds the
    nine fields of the acquisition, the integers reduced to the width of
    their field, and zeros in every other field. *)
Theorem from_acquisition_copies `{HostLibs} (acq : Acquisition) :
  wf_acquisition acq = true ->
  exists h,
    from_acquisition acq [] = Ok h
    /\ version h = acq_version acq mod 2 ^ 16
    /\ measurement_uid h = acq_measurement_uid acq mod 2 ^ 32
    /\ position h = acq_position acq
    /\ read_dir h = acq_read_dir acq
    /\ phase_dir h = acq_phase_dir acq
    /\ slice_dir h = acq_slice_dir acq
    /\ patient_table_position h = acq_patient_table_position acq
    /\ acquisition_time_stamp h = acq_acquisition_time_stamp acq mod 2 ^ 32
    /\ physiology_time_stamp h = acq_physiology_time_stamp acq
    /\ forall name, in_tuple name acquisition_fields = false ->
         load h name = load ImageHeader_new name.
Proof.
  intros W. rewrite from_acquisition_header by (exact W || reflexivity).
  cbn [setattrs].
  eexists. split; [reflexivity |].
  do 9 (split; [reflexivity |]).
  intros name Hn. unfold acquisition_fields in Hn.
  repeat (apply in_tuple_false_cons in Hn as [? Hn]).
  unfold load, acquisition_header, ImageHeader_new.
  cbn [upd_version upd_measurement_uid upd_position upd_read_dir upd_phase_dir
       upd_slice_dir upd_patient_table_position upd_acquisition_time_stamp
       upd_physiology_time_stamp
       version data_type flags measurement_uid matrix_size field_of_view
       channels position read_dir phase_dir slice_dir
       patient_table_position average slice contrast phase repetition set
       acquisition_time_stamp physiology_time_stamp image_type image_index
       image_series_index user_int user_float attribute_string_len].
  repeat match goal with
  | E : String.eqb name _ = false |- _ => rewrite !E; clear E
  end.
  reflexivity.
Qed.

Lemma from_acquisition_copies_witness :
  exists h,
    from_acquisition (H := plain_host) zero_acquisition [] = Ok h
    /\ version h = acq_version zero_acquisition mod 2 ^ 16
    /\ measurement_uid h = acq_measurement_uid zero_acquisition mod 2 ^ 32
    /\ position h = acq_position zero_acquisition
    /\ read_dir h = acq_read_dir zero_acquisition
    /\ phase_dir h = acq_phase_dir zero_acquisition
    /\ slice_dir h = acq_slice_dir zero_acquisition
    /\ patient_table_position h = acq_patient_table_position zero_acquisition
    /\ acquisition_time_stamp h
       = acq_acquisition_time_stamp zero_acquisition mod 2 ^ 32
    /\ physiology_time_stamp h = acq_physiology_time_stamp zero_acquisition
    /\ forall name, in_tuple name acquisition_fields = false ->
         load h name = load ImageHeader_new name.
Proof.
  apply (from_acquisition_copies (H := plain_host) zero_acquisition).
  reflexivity.
Defined.

(** A keyword that names a field of the header is not the parameter of
    [from_acquisition]. *)
Lemma bind_keywords_field (name : string) (t : ctype) (v : pyval) :
  In (name, t) _fields_ -> bind_keywords ["acquisition"] [(name, v)] = Ok tt.
Proof.
  intros Hin. apply fields_dict_get in Hin.
  unfold bind_keywords. cbn [existsb fst].
  destruct (String.eqb_spec name "acquisition") as [-> | _]; [| reflexivity].
  vm_compute in Hin. discriminate Hin.
Qed.

(** X9: one keyword given to [from_acquisition].  An integer for a scalar
    field is stored in that field, reduced to its width, after the fields of
    the acquisition, which it overrides, and no other field differs from the
    header built without the keyword; a string for a field of the header
    raises [TypeError].  A keyword that names no field is ignored, unless it
    is [acquisition], which the parameter of that name has taken already
    ([TypeError]), or one of the attributes of a ctypes instance that cannot
    be assigned ([AttributeError]) or that only take a class or a dictionary
    ([TypeError]). *)
Theorem from_acquisition_keyword `{HostLibs} (acq : Acquisition) (name : string) :
  wf_acquisition acq = true ->
  (forall k z, In (name, Simple k) _fields_ ->
     exists h0 h,
       from_acquisition acq [] = Ok h0
       /\ from_acquisition acq [(name, PyInt z)] = Ok h
       /\ load h name = Some (CInt (z mod 2 ^ (8 * Z.of_nat (sizeof k))))
       /\ forall name', name' <> name -> load h name' = load h0 name')
  /\ (forall t s, In (name, t) _fields_ ->
        from_acquisition acq [(name, PyStr s)] = Raise TypeError)
  /\ (forall v, dict_get String.eqb _fields_ name = None ->
        name <> "acquisition" ->
        ~ In name readonly_attributes -> ~ In name typed_attributes ->
        from_acquisition acq [(name, v)] = from_acquisition acq [])
  /\ (forall v, name = "acquisition" \/ In name typed_attributes ->
        from_acquisition acq [(name, v)] = Raise TypeError)
  /\ (forall v, In name readonly_attributes ->
        exists msg, from_acquisition acq [(name, v)] = Raise (AttributeError msg)).
Proof.
  intros W. rewrite !from_acquisition_header by (exact W || reflexivity).
  split; [| split; [| split; [| split]]].
  - intros k z Hin.
    rewrite !from_acquisition_header
      by (exact W || reflexivity || exact (bind_keywords_field _ _ _ Hin)).
    cbn [setattrs]. rewrite (setattr_int _ _ _ _ Hin). cbn [bind].
    do 2 eexists. split; [reflexivity |]. split; [reflexivity |].
    split.
    + now rewrite (load_store _ _ _ _ (CInt _) Hin eq_refl), String.eqb_refl.
    + intros name' Hne. rewrite (load_store _ _ _ _ (CInt _) Hin eq_refl).
      apply String.eqb_neq in Hne. now rewrite Hne.
  - intros t s Hin.
    rewrite from_acquisition_header
      by (exact W || exact (bind_keywords_field _ _ _ Hin)).
    cbn [setattrs]. now rewrite (setattr_str _ _ _ _ Hin).
  - intros v Hnone Hacq Hro Hty.
    rewrite from_acquisition_header.
    + cbn [setattrs]. unfold setattr. rewrite Hnone.
      destruct (existsb (String.eqb name) readonly_attributes) eqn:Ero.
      { exfalso. apply Hro. apply existsb_exists in Ero as (x & Hx & Ex).
        apply String.eqb_eq in Ex. now subst x. }
      destruct (existsb (String.eqb name) typed_attributes) eqn:Ety.
      { exfalso. apply Hty. apply existsb_exists in Ety as (x & Hx & Ex).
        apply String.eqb_eq in Ex. now subst x. }
      reflexivity.
    + exact W.
    + unfold bind_keywords. cbn [existsb fst].
      apply String.eqb_neq in Hacq. now rewrite Hacq.
  - intros v [-> | Hin].
    + reflexivity.
    + cbn [In typed_attributes] in Hin.
      destruct Hin as [<- | [<- | []]];
        (rewrite from_acquisition_header by (exact W || reflexivity));
        reflexivity.
  - intros v Hin. cbn [In readonly_attributes] in Hin.
    destruct Hin as [<- | [<- | [<- | [<- | []]]]];
      (rewrite from_acquisition_header by (exact W || reflexivity));
      eexists; reflexivity.
Qed.

Lemma from_acquisition_keyword_witness :
  from_acquisition (H := plain_host) zero_acquisition [("version", PyStr "Bad version")]
  = Raise TypeError.
Proof.
  destruct (from_acquisition_keyword (H := plain_host) zero_acquisition "version")
    as (_ & H2 & _).
  - reflexivity.
  - apply (H2 (Simple c_uint16)). unfold _fields_. simpl. tauto.
Defined.

(** ** More on construction from an array *)

(** X10: whatever the keywords, a record that [from_array] returns has a
    buffer of the dtype and of the shape that its header declares, an empty
    attribute string and [attribute_string_len] at 0. *)
Theorem from_array_consistent `{HostLibs} (array : ndarray) (acq : Acquisition)
  (kwargs : list (string * pyval)) (image : Image) :
  Image.from_array array acq kwargs = Ok image ->
  get_dtype_from_data_type (data_type (getHead image)) = Ok (dtype_of (data image))
  /\ shape (data image) = declared_shape (getHead image)
  /\ attribute_string image = ""
  /\ attribute_string_len (getHead image) = 0.
Proof.
  unfold Image.from_array.
  destruct (bind_keywords _ kwargs) as [[] | e]; cbn [bind]; [| discriminate].
  destruct (Image.shape_to_header_format array) as [[nch [[a b] c]] | e];
    cbn [bind fst snd]; [| discriminate].
  destruct (get_data_type_from_dtype (dtype_of array)) as [k | e];
    cbn [bind]; [| discriminate].
  destruct (from_acquisition acq _) as [header | e]; cbn [bind]; [| discriminate].
  unfold Image_init, from_buffer_copy.
  destruct (get_dtype_from_data_type (data_type header)) as [d | e] eqn:Hd;
    cbn [bind fst snd]; [| discriminate].
  cbn [np_empty empty_error ample bind fst snd].
  destruct (Z.eqb_spec (Z.of_nat (String.length "")) (attribute_string_len header))
    as [Hl | _]; cbn [bind]; [| discriminate].
  unfold assign_all, data. cbn [__head __data __attribute_string dtype_of shape].
  destruct (broadcast _ _ _) as [xs |]; cbn [bind]; [| discriminate].
  intros E. injection E as <-.
  unfold getHead, data, attribute_string.
  cbn [__head __data __attribute_string dtype_of shape].
  repeat split; auto.
Qed.

Lemma from_array_consistent_witness :
  exists image,
    Image.from_array (H := plain_host) single_9 zero_acquisition
      [("channels", PyInt 5)] = Ok image
    /\ get_dtype_from_data_type (data_type (getHead image))
       = Ok (dtype_of (data image))
    /\ shape (data image) = declared_shape (getHead image)
    /\ attribute_string image = ""
    /\ attribute_string_len (getHead image) = 0.
Proof.
  eexists. split; [vm_compute; reflexivity |].
  eapply (from_array_consistent (H := plain_host) single_9 zero_acquisition
            [("channels", PyInt 5)]).
  vm_compute. reflexivity.
Defined.

(** X12: [from_array] raises [TypeError] for an array of more than four
    dimensions, and for an array of at most four whose dtype is not
    supported, whatever the acquisition and the keywords. *)
Theorem from_array_rejects `{HostLibs} (array : ndarray) (acq : Acquisition)
  (kwargs : list (string * pyval)) :
  ((4 < length (shape array))%nat ->
   Image.from_array array acq kwargs = Raise TypeError)
  /\ ((length (shape array) <= 4)%nat -> ~ In (dtype_of array) dtypes ->
      Image.from_array array acq kwargs = Raise TypeError).
Proof.
  unfold Image.from_array, Image.shape_to_header_format.
  destruct (bind_keywords _ kwargs) as [[] | e] eqn:B; cbn [bind].
  2: { unfold bind_keywords in B. destruct (existsb _ kwargs); [| discriminate B].
       injection B as <-. now split. }
  split.
  - intros Hn. rewrite <- length_rev in Hn.
    destruct (rev (shape array)) as [| a [| b [| c [| d [| e l]]]]];
      cbn [length] in Hn; try lia. reflexivity.
  - intros Hn Hd.
    destruct (with_defaults_padded _ Hn) as (nch & a & b & c & -> & _).
    cbn [bind fst snd].
    destruct (get_data_type_from_dtype (dtype_of array)) as [k | e] eqn:E.
    + exfalso. apply Hd. apply codec_inverse_dtype in E as [E _].
      now apply get_dtype_from_data_type_inv in E.
    + cbn [bind]. f_equal.
      unfold get_data_type_from_dtype in E.
      destruct (dict_get dtype_eqb inverse_dtype_mapping (dtype_of array));
        [discriminate E | now injection E as <-].
Qed.

Lemma from_array_rejects_witness :
  Image.from_array (H := plain_host) five_dims zero_acquisition [] = Raise TypeError.
Proof.
  destruct (from_array_rejects (H := plain_host) five_dims zero_acquisition [])
    as [H1 _].
  apply H1. simpl. lia.
Defined.

(** X11: the keyword [attribute_string_len], with a value that is not 0
    modulo 2^32, makes [from_array] raise [ValueError]: the record is built
    with an empty attribute string. *)
Theorem from_array_attribute_string_len `{HostLibs} (array : ndarray)
  (acq : Acquisition) (n : Z) :
  wf_acquisition acq = true ->
  In (dtype_of array) dtypes ->
  (length (shape array) <= 4)%nat ->
  n mod 2 ^ 32 <> 0 ->
  Image.from_array array acq [("attribute_string_len", PyInt n)] = Raise ValueError.
Proof.
  intros W Hin Hn Hne.
  destruct (supported_dtype_code _ Hin) as [k Hk].
  destruct (codec_inverse_dtype _ _ Hk) as [Hinv Hmod].
  destruct (with_defaults_padded _ Hn) as (nch & a & b & c & Hwd & _).
  unfold Image.from_array, Image.shape_to_header_format.
  change (bind_keywords ["array"; "acquisition"] [("attribute_string_len", PyInt n)])
    with (Ok tt). cbn [bind].
  rewrite Hwd. cbn [bind fst snd]. rewrite Hk. cbn [bind].
  match goal with
  | |- context [dict_update String.eqb ?d ?kw] =>
    replace (dict_update String.eqb d kw) with (d ++ kw) by reflexivity
  end.
  rewrite from_acquisition_header by (exact W || reflexivity).
  cbn [app setattrs]. repeat step_setattr.
  unfold Image_init, from_buffer_copy.
  match goal with
  | |- context [get_dtype_from_data_type (data_type ?h)] =>
    change (data_type h) with (k mod 2 ^ 16)
  end.
  rewrite Hmod, Hinv.
  cbn [np_empty empty_error ample bind fst snd String.length Z.of_nat].
  match goal with
  | |- context [attribute_string_len ?h] =>
    change (attribute_string_len h) with (n mod 2 ^ 32)
  end.
  destruct (Z.eqb_spec 0 (n mod 2 ^ 32)) as [E | _]; [| reflexivity].
  contradiction Hne. now symmetry.
Qed.

Lemma from_array_attribute_string_len_witness :
  Image.from_array (H := plain_host) single_9 zero_acquisition
    [("attribute_string_len", PyInt 4)] = Raise ValueError.
Proof.
  apply (from_array_attribute_string_len (H := plain_host) single_9 zero_acquisition 4).
  - reflexivity.
  - simpl. tauto.
  - simpl. lia.
  - vm_compute. discriminate.
Defined.

Lemma image_header_store (a : Acquisition) (k c : Z) (ms : list Z) :
  image_header a k c ms
  = store (store (store (acquisition_header a) "data_type" (CInt k))
             "channels" (CInt c)) "matrix_size" (CArr ms).
Proof. reflexivity. Qed.

(** X13: a record built by [from_array] without keywords has, in every
    field of its header but [data_type], [channels] and [matrix_size], what
    [from_acquisition] puts there for the acquisition. *)
Theorem from_array_header_fields `{HostLibs} (array : ndarray) (acq : Acquisition)
  (image : Image) :
  wf_acquisition acq = true ->
  Image.from_array array acq [] = Ok image ->
  exists h0,
    from_acquisition acq [] = Ok h0
    /\ forall name,
         name <> "data_type" -> name <> "channels" -> name <> "matrix_size" ->
         load (getHead image) name = load h0 name.
Proof.
  intros W E.
  rewrite from_acquisition_header by (exact W || reflexivity). cbn [setattrs].
  eexists. split; [reflexivity |].
  intros name N1 N2 N3.
  assert (Hfmt : exists nch a b c,
            Image.with_defaults (rev (shape array)) = Ok (nch, (a, b, c))).
  { revert E. unfold Image.from_array, Image.shape_to_header_format.
    cbn [bind_keywords existsb bind].
    destruct (Image.with_defaults _) as [[nch [[a b] c]] | e];
      [intros _; now exists nch, a, b, c | discriminate]. }
  destruct Hfmt as (nch & a & b & c & Hwd).
  assert (Hcode : exists k, get_data_type_from_dtype (dtype_of array) = Ok k).
  { revert E. unfold Image.from_array, Image.shape_to_header_format.
    cbn [bind_keywords existsb bind].
    rewrite Hwd. cbn [bind].
    destruct (get_data_type_from_dtype _) as [k | e];
      [intros _; now exists k | discriminate]. }
  destruct Hcode as (k & Hk).
  erewrite from_array_eval in E;
    [| exact W | exact Hk | exact Hwd | reflexivity | reflexivity].
  cbv zeta in E. cbn [empty_error ample] in E.
  destruct (broadcast _ _ _); [| discriminate E].
  injection E as <-. unfold getHead. cbn [__head].
  rewrite image_header_store.
  apply String.eqb_neq in N1, N2, N3.
  rewrite (load_store _ "matrix_size" _ (Array c_uint16 POSITION_LENGTH) (CArr _)),
          (load_store _ "channels" _ (Simple c_uint16) (CInt _)),
          (load_store _ "data_type" _ (Simple c_uint16) (CInt _)), N1, N2, N3;
    try reflexivity; unfold _fields_; simpl; tauto.
Qed.

Lemma from_array_header_fields_witness :
  exists h0,
    from_acquisition (H := plain_host) zero_acquisition [] = Ok h0
    /\ forall name,
         name <> "data_type" -> name <> "channels" -> name <> "matrix_size" ->
         load (getHead
                 {| __head := image_header zero_acquisition 1 1 [3; 2; 1];
                    __data := {| dtype_of := uint16; shape := [1; 1; 2; 3];
                                 flat := [1; 2; 3; 4; 5; 6] |};
                    __attribute_string := "" |}) name
         = load h0 name.
Proof.
  apply (from_array_header_fields (H := plain_host) matrix_2x3 zero_acquisition).
  - reflexivity.
  - vm_compute. reflexivity.
Defined.

Lemma with_defaults_one_channel (s : list Z) :
  (length s <= 3)%nat ->
  exists a b c,
    Image.with_defaults (rev s) = Ok (1, (a, b, c))
    /\ [c; b; a] = repeat 1 (3 - length s) ++ s.
Proof.
  intros L.
  destruct s as [| d1 [| d2 [| d3 [| d4 s]]]]; simpl in L; try lia;
    do 3 eexists; split; reflexivity.
Qed.

(** X19: for an array of at most three dimensions, the keyword [channels]
    with a count [c] gives a record of [c] channels, each of which holds the
    elements of the array: the buffer is the array, [c] times over. *)
Theorem from_array_channels_replicates `{HostLibs} (array : ndarray)
  (acq : Acquisition) (c : Z) :
  wf_acquisition acq = true ->
  In (dtype_of array) dtypes ->
  (length (shape array) <= 3)%nat ->
  forallb (fun d => (0 <=? d) && (d <? 2 ^ 16)) (shape array) = true ->
  length (flat array) = Z.to_nat (size_of_shape (shape array)) ->
  0 <= c < 2 ^ 16 ->
  exists image,
    Image.from_array array acq [("channels", PyInt c)] = Ok image
    /\ channels (getHead image) = c
    /\ shape (data image) = c :: repeat 1 (3 - length (shape array)) ++ shape array
    /\ flat (data image) = concat (repeat (flat array) (Z.to_nat c)).
Proof.
  intros W Hin Hn Hr L Hc.
  destruct (supported_dtype_code _ Hin) as [k Hk].
  destruct (with_defaults_one_channel _ Hn) as (a & b & c0 & Hwd & Hpad).
  erewrite from_array_eval;
    [| exact W | exact Hk | exact Hwd | reflexivity | reflexivity].
  cbv zeta. cbn [empty_error ample]. rewrite declared_shape_image_header.
  assert (Hr' : forallb (fun d => (0 <=? d) && (d <? 2 ^ 16)) [c0; b; a] = true).
  { rewrite Hpad, forallb_pad; [exact Hr | reflexivity]. }
  assert (Hs : forallb (fun d => 0 <=? d) [c0; b; a] = true).
  { revert Hr'. apply forallb_weaken. intros x Hx.
    now apply andb_true_iff in Hx as [Hx _]. }
  assert (Hl : length (flat array) = Z.to_nat (size_of_shape [c0; b; a])).
  { now rewrite Hpad, size_of_shape_pad. }
  pose proof (broadcast_values_same _ _ Hs Hl) as B.
  cbn [forallb] in Hr'. dims_in_range.
  rewrite !Z.mod_small by lia.
  rewrite align_short by lia.
  replace (4 - length (shape array))%nat with (S (3 - length (shape array))) by lia.
  cbn [repeat app]. rewrite <- Hpad.
  assert (E : broadcast [1; c0; b; a] [c; c0; b; a] (flat array)
              = Some (concat (repeat (flat array) (Z.to_nat c)))).
  { unfold broadcast.
    change (broadcastable [1; c0; b; a] [c; c0; b; a])
      with (((1 =? c) || (1 =? 1)) && broadcastable [c0; b; a] [c0; b; a]).
    rewrite broadcastable_same, orb_true_r. cbn [andb broadcast_values].
    destruct (Z.eqb_spec 1 c) as [<- | Hne].
    - change (Z.to_nat 1) with 1%nat. cbn [blocks map].
      fold (size_of_shape [c0; b; a]). rewrite <- Hl, firstn_all.
      cbn [broadcast_values] in B. rewrite B. cbn [sequence concat repeat].
      reflexivity.
    - cbn [Z.eqb Pos.eqb]. cbn [broadcast_values] in B. now rewrite B. }
  rewrite E. eexists. split; [reflexivity |].
  unfold data, getHead. cbn [__head __data shape flat].
  repeat split; reflexivity.
Qed.

Lemma from_array_channels_replicates_witness :
  exists image,
    Image.from_array (H := plain_host) single_9 zero_acquisition
      [("channels", PyInt 5)] = Ok image
    /\ channels (getHead image) = 5
    /\ shape (data image) = 5 :: repeat 1 (3 - length (shape single_9)) ++ shape single_9
    /\ flat (data image) = concat (repeat (flat single_9) (Z.to_nat 5)).
Proof.
  apply (from_array_channels_replicates (H := plain_host) single_9 zero_acquisition 5).
  - reflexivity.
  - simpl. tauto.
  - simpl. lia.
  - reflexivity.
  - reflexivity.
  - lia.
Defined.

(** X18, on any host: for a header as ctypes keeps it, [setHead] raises
    [TypeError] when the [data_type] of the header is no supported code, and
    then the record is left with the new header and its old buffer;
    otherwise it raises what [np.resize] raises when the host cannot build
    the buffer of the declared shape, and then the record is left with the
    new header and its old buffer, converted to the kind of the header;
    otherwise it does not raise. *)
Theorem setHead_raises_iff `{HostLibs} {M : Memory} (self : Image)
  (hdr : ImageHeader) :
  wf_header hdr = true ->
  match setHead self hdr with
  | Ok image =>
    exists d, get_dtype_from_data_type (data_type hdr) = Ok d
      /\ resize_error (size (astype (data self) d)) d (declared_shape hdr) = None
      /\ setHead_run self hdr = (image, None)
  | Raise e =>
    (e = TypeError /\ ~ In (data_type hdr) data_types
     /\ setHead_run self hdr
        = ({| __head := hdr; __data := data self;
              __attribute_string := attribute_string self |}, Some e))
    \/ (exists d, get_dtype_from_data_type (data_type hdr) = Ok d
          /\ resize_error (size (astype (data self) d)) d (declared_shape hdr)
             = Some e
          /\ setHead_run self hdr
             = ({| __head := hdr; __data := astype (data self) d;
                   __attribute_string := attribute_string self |}, Some e))
  end.
Proof.
  intros W. unfold setHead, setHead_run, setDataType, from_buffer_copy, data,
    attribute_string.
  cbn [__head __data __attribute_string].
  destruct (get_dtype_from_data_type (data_type hdr)) as [d | e] eqn:E;
    cbn [bind __head __data __attribute_string].
  - unfold resize. cbn [__head __data __attribute_string].
    assert (Hs : forallb (fun x => 0 <=? x) (declared_shape hdr) = true).
    { apply (forallb_weaken (fun x => (0 <=? x) && (x <? 2 ^ 16))).
      - intros x Hx. now apply andb_true_iff in Hx as [Hx _].
      - now apply wf_header_declared_shape. }
    fold (declared_shape hdr).
    destruct (np_resize (astype (__data self) d) (declared_shape hdr))
      as [b | e] eqn:R; cbn [bind].
    + exists d. split; [reflexivity |].
      apply np_resize_served in R as [_ R]. split; [exact R | reflexivity].
    + right. exists d. split; [reflexivity |].
      destruct (np_resize_raises _ _ _ R) as [[_ Hneg] | [_ Hm]];
        [congruence |].
      split; [exact Hm | reflexivity].
  - left. destruct (get_dtype_from_data_type_raises _ _ E) as [-> Hin].
    repeat split. exact Hin.
Qed.

Lemma setHead_raises_iff_witness :
  match setHead (H := plain_host) unit_image ImageHeader_new with
  | Ok image =>
    exists d, get_dtype_from_data_type (data_type ImageHeader_new) = Ok d
      /\ resize_error (size (astype (H := plain_host) (data unit_image) d)) d
           (declared_shape ImageHeader_new) = None
      /\ setHead_run (H := plain_host) unit_image ImageHeader_new = (image, None)
  | Raise e =>
    (e = TypeError /\ ~ In (data_type ImageHeader_new) data_types
     /\ setHead_run (H := plain_host) unit_image ImageHeader_new
        = ({| __head := ImageHeader_new; __data := data unit_image;
              __attribute_string := attribute_string unit_image |}, Some e))
    \/ (exists d, get_dtype_from_data_type (data_type ImageHeader_new) = Ok d
          /\ resize_error (size (astype (H := plain_host) (data unit_image) d)) d
               (declared_shape ImageHeader_new) = Some e
          /\ setHead_run (H := plain_host) unit_image ImageHeader_new
             = ({| __head := ImageHeader_new;
                   __data := astype (H := plain_host) (data unit_image) d;
                   __attribute_string := attribute_string unit_image |}, Some e))
  end.
Proof.
  apply (setHead_raises_iff (H := plain_host) unit_image ImageHeader_new).
  vm_compute. reflexivity.
Defined.
